(** * Zep search-and-consistency engine: a shallow embedding of the Go sources

    Sources embedded here:
    - [pkg/memorystore/postgres_search.go]   (message search, predicate compiler)
    - [pkg/store/postgres/document_search.go] (document search operation)
    - [pkg/store/postgres/userstore_test.go], second half: the [UserStoreDAO]
      (user update, lock-scoped merge)
    - [pkg/server/apihandlers/message_handlers.go] (the message list handler)

    The Go code drives three collaborators that live outside the repository:
    the bun query builder, the pgvector operators and the embedding provider.
    Their behaviour is written out below next to the code that calls them. *)

From Stdlib Require Import List String Ascii ZArith Bool Lia.
From Stdlib Require Import Floats.
From Stdlib Require Import Reals Lra.
From Stdlib Require Import Sorted.
Import ListNotations.

Set Warnings "-register-all,-notation-for-abbreviation".
#[local] Open Scope string_scope.
#[local] Open Scope Z_scope.
#[local] Open Scope list_scope.

(* ------------------------------------------------------------------ *)
(** ** JSON values: Go's [interface{}] as produced by [encoding/json] *)
(* ------------------------------------------------------------------ *)

Module Json.

(** A decoded JSON document.  Objects are association lists: the code only
    looks keys up, tests emptiness and iterates. *)
Inductive value : Type :=
| VNull
| VBool (b : bool)
| VNumber (n : Z)
| VString (s : string)
| VArray (items : list value)
| VObject (fields : list (string * value)).

(** [map[string]interface{}]; the nil map and the empty map both have
    length 0 and both answer every lookup with "absent". *)
Definition object := list (string * value).

(** [v, ok := m[k]] *)
Fixpoint lookup {A : Type} (k : string) (m : list (string * A)) : option A :=
  match m with
  | [] => None
  | (k', v) :: m' => if String.eqb k k' then Some v else lookup k m'
  end.

(** [m[k] = v] *)
Fixpoint store {A : Type} (k : string) (v : A) (m : list (string * A))
  : list (string * A) :=
  match m with
  | [] => [(k, v)]
  | (k', v') :: m' =>
      if String.eqb k k' then (k, v) :: m' else (k', v') :: store k v m'
  end.

(** [len(m)] *)
Definition len {A : Type} (m : list A) : Z := Z.of_nat (List.length m).

End Json.

(* ------------------------------------------------------------------ *)
(** ** Errors and call outcomes *)
(* ------------------------------------------------------------------ *)

Module Errors.

Inductive error : Type :=
| StorageError (message : string) (cause : option error)
    (* NewStorageError(message, cause) *)
| NotFoundError (resource : string)
    (* models.NewNotFoundError(resource) *)
| Errorf (format : string) (wrapped : error)
    (* fmt.Errorf(format, wrapped): the format as the code writes it,
       with its one %w, colon or no colon *)
| ErrorsNew (message : string).
    (* errors.New(message), and errors raised by a collaborator *)

(** A Go [(T, error)] return. *)
Inductive result (A : Type) : Type :=
| Success (a : A)
| Failure (err : error).
Arguments Success {A} a.
Arguments Failure {A} err.

End Errors.

(* ------------------------------------------------------------------ *)
(** ** pgvector: vectors and the two distance operators the code uses *)
(* ------------------------------------------------------------------ *)

Module Pgvector.

(** [pgvector.Vector]; float32 components are read as real numbers. *)
Definition Vector := list R.

(** The operators that appear in the column expressions:
    [<#>] is the negative inner product and [<=>] is the cosine distance. *)
Inductive operator : Type :=
| OpNegInnerProduct   (* embedding <#> ? *)
| OpCosineDistance.   (* embedding <=> ? *)

(** A computed column over the stored [embedding]. *)
Inductive expr : Type :=
| EOp (op : operator) (arg : Vector)   (* embedding op ? *)
| EOneMinus (e : expr).                (* 1 - (e) *)

#[local] Open Scope R_scope.

Fixpoint innerProduct (a b : Vector) : R :=
  match a, b with
  | x :: a', y :: b' => x * y + innerProduct a' b'
  | _, _ => 0
  end.

Definition norm (a : Vector) : R := sqrt (innerProduct a a).

Definition cosineSimilarity (a b : Vector) : R :=
  innerProduct a b / (norm a * norm b).

Definition cosineDistance (a b : Vector) : R := 1 - cosineSimilarity a b.

Definition negInnerProduct (a b : Vector) : R := - innerProduct a b.

Definition applyOperator (op : operator) (embedding arg : Vector) : R :=
  match op with
  | OpNegInnerProduct => negInnerProduct embedding arg
  | OpCosineDistance => cosineDistance embedding arg
  end.

(** The value of a computed column on a row whose stored vector is
    [embedding]. *)
Fixpoint evalExpr (embedding : Vector) (e : expr) : R :=
  match e with
  | EOp op arg => applyOperator op embedding arg
  | EOneMinus e' => 1 - evalExpr embedding e'
  end.

End Pgvector.

(* ------------------------------------------------------------------ *)
(** ** bun: the query builder, as far as the code drives it *)
(* ------------------------------------------------------------------ *)

Module Bun.
Import Json Pgvector.

(** The separator a WHERE item carries in front of it. *)
Inductive sep : Type := SepAnd | SepOr.    (* " AND " and " OR " *)

(** The SQL conditions the sources write, one constructor per text. *)
Inductive cond : Type :=
| JsonbPathExists (path : string)   (* jsonb_path_exists(m.metadata, ?) *)
| SessionIDEq (sessionID : string)  (* m.session_id = ? *)
| DeletedAtIsNull                   (* m.deleted_at IS NULL *)
| CreatedAtGe (startDate : value)   (* m.created_at >= ? *)
| CreatedAtLe (endDate : value).    (* m.created_at <= ? *)

(** bun keeps the WHERE clause as a flat list of (separator, query) items and
    brackets a group between a "(" and a ")" item; a group is kept here as a
    nested list, which is the same text once rendered. *)
Inductive whereItem : Type :=
| WCond (s : sep) (c : cond)
| WGroup (s : sep) (items : list whereItem).

Inductive column : Type :=
| ColumnRaw (sql : string)              (* e.g. m.uuid AS message__uuid *)
| ColumnDist (e : Pgvector.expr).       (* <e> AS dist *)

(** The table model given to [Model(m)]: bun reads the struct tags of the
    model type, among them whether a field is tagged [soft_delete]. *)
Record tableModel : Type := mkTableModel {
  modelName : string;
  softDelete : bool
}.

Record SelectQuery : Type := mkSelectQuery {
  qTable : string;
  qModel : option tableModel;
  qJoins : list string;
  qColumns : list column;
  qWhere : list whereItem;
  qOrder : list string;
  qLimit : option Z
}.

Definition NewSelect : SelectQuery :=
  mkSelectQuery EmptyString None [] [] [] [] None.

(** The expression selected [AS dist], if the query has one. *)
Fixpoint distOf (cols : list column) : option Pgvector.expr :=
  match cols with
  | [] => None
  | ColumnDist e :: _ => Some e
  | ColumnRaw _ :: cols' => distOf cols'
  end.

Definition distColumn (q : SelectQuery) : option Pgvector.expr :=
  distOf (qColumns q).

Definition setWhere (w : list whereItem) (q : SelectQuery) : SelectQuery :=
  mkSelectQuery (qTable q) (qModel q) (qJoins q) (qColumns q) w
                (qOrder q) (qLimit q).

Definition TableExpr (t : string) (q : SelectQuery) : SelectQuery :=
  mkSelectQuery t (qModel q) (qJoins q) (qColumns q) (qWhere q)
                (qOrder q) (qLimit q).

Definition Model (m : tableModel) (q : SelectQuery) : SelectQuery :=
  mkSelectQuery (qTable q) (Some m) (qJoins q) (qColumns q) (qWhere q)
                (qOrder q) (qLimit q).

Definition ModelTableExpr (t : string) (q : SelectQuery) : SelectQuery :=
  TableExpr t q.

(** [Join(j)] opens a join and [JoinOn(c)] gives its condition; both are
    kept as the texts the code passes, in order. *)
Definition Join (j : string) (q : SelectQuery) : SelectQuery :=
  mkSelectQuery (qTable q) (qModel q) (qJoins q ++ [j]) (qColumns q)
                (qWhere q) (qOrder q) (qLimit q).

Definition JoinOn (c : string) (q : SelectQuery) : SelectQuery :=
  Join c q.

Definition ColumnExpr (c : column) (q : SelectQuery) : SelectQuery :=
  mkSelectQuery (qTable q) (qModel q) (qJoins q) (qColumns q ++ [c])
                (qWhere q) (qOrder q) (qLimit q).

Definition Order (o : string) (q : SelectQuery) : SelectQuery :=
  mkSelectQuery (qTable q) (qModel q) (qJoins q) (qColumns q) (qWhere q)
                (qOrder q ++ [o]) (qLimit q).

(** Go's [int32(n)] of an [int]: the low 32 bits, read as a signed number. *)
Definition int32 (n : Z) : Z := (n + 2 ^ 31) mod 2 ^ 32 - 2 ^ 31.

(** [Limit(n)]: bun keeps the limit in an [int32] field,
    [q.limit = int32(n)]; [None] stands for a query [Limit] was never
    called on. *)
Definition Limit (n : Z) (q : SelectQuery) : SelectQuery :=
  mkSelectQuery (qTable q) (qModel q) (qJoins q) (qColumns q) (qWhere q)
                (qOrder q) (Some (int32 n)).

(** [Where] appends with " AND ", [WhereOr] with " OR ". *)
Definition Where (c : cond) (q : SelectQuery) : SelectQuery :=
  setWhere (qWhere q ++ [WCond SepAnd c]) q.

Definition WhereOr (c : cond) (q : SelectQuery) : SelectQuery :=
  setWhere (qWhere q ++ [WCond SepOr c]) q.

(** [addWhereGroup]: an empty group adds nothing. *)
Definition addWhereGroup (s : sep) (group : list whereItem) (q : SelectQuery)
  : SelectQuery :=
  match group with
  | [] => q
  | _ :: _ => setWhere (qWhere q ++ [WGroup s group]) q
  end.

(** [WhereGroup]: run [fn] on the query with its WHERE list set aside,
    then put the list back and append what [fn] collected as one group. *)
Definition WhereGroup (s : sep) (fn : SelectQuery -> SelectQuery)
           (q : SelectQuery) : SelectQuery :=
  let saved := qWhere q in
  let q' := fn (setWhere [] q) in
  let group := qWhere q' in
  addWhereGroup s group (setWhere saved q').

(** *** What a WHERE list selects

    SQL reads [a AND b OR c AND d] as [(a AND b) OR (c AND d)]; the separator
    of the first item of a list is not rendered. *)
Fixpoint evalChain (cur acc : bool) (l : list (sep * bool)) : bool :=
  match l with
  | [] => acc || cur
  | (SepAnd, v) :: l' => evalChain (cur && v) acc l'
  | (SepOr, v) :: l' => evalChain v (acc || cur) l'
  end.

Definition evalSeq (l : list (sep * bool)) : bool :=
  match l with
  | [] => true
  | (_, v) :: l' => evalChain v false l'
  end.

Definition sepOf (w : whereItem) : sep :=
  match w with WCond s _ => s | WGroup s _ => s end.

(** An item joined with AND, and a run of items that opens with OR and
    goes on with ANDs. *)
Definition andSep (p : sep * bool) : Prop := fst p = SepAnd.

Definition orChunk (ch : list (sep * bool)) : Prop :=
  exists v rest, ch = (SepOr, v) :: rest /\ Forall andSep rest.

Definition topLevelAnd (items : list whereItem) : Prop :=
  Forall (fun w => sepOf w = SepAnd) items.

(** [q1] is [q0] with AND-joined items appended to its WHERE list. *)
Definition extends (q0 q1 : SelectQuery) : Prop :=
  exists items, topLevelAnd items /\ q1 = setWhere (qWhere q0 ++ items) q0.

Section Rows.
(** A stored row and the store's reading of each condition on it. *)
Variable Row : Type.
Variable holds : cond -> Row -> bool.
Variable deleted : Row -> bool.

Fixpoint evalItem (r : Row) (w : whereItem) : bool :=
  match w with
  | WCond _ c => holds c r
  | WGroup _ items => evalSeq (map (fun i => (sepOf i, evalItem r i)) items)
  end.

Definition chainOf (r : Row) (items : list whereItem) : list (sep * bool) :=
  map (fun i => (sepOf i, evalItem r i)) items.

Definition evalWhere (r : Row) (items : list whereItem) : bool :=
  evalSeq (chainOf r items).

(** A select on a model that has a [soft_delete] field gets
    [AND deleted_at IS NULL] rendered after its WHERE list, with no
    brackets around the list. *)
Definition softDeleteChain (q : SelectQuery) (r : Row) : list (sep * bool) :=
  match qModel q with
  | Some m => if softDelete m then [(SepAnd, negb (deleted r))] else []
  | None => []
  end.

Definition selects (q : SelectQuery) (r : Row) : bool :=
  evalSeq (chainOf r (qWhere q) ++ softDeleteChain q r).
End Rows.

End Bun.

(* ------------------------------------------------------------------ *)
(** ** Calls to collaborators: a log of what was issued, and panics *)
(* ------------------------------------------------------------------ *)

Module Effects.

(** A computation that logs the calls it issues, in order, and either
    returns ([Some]) or panics ([None]). *)
Definition M (E A : Type) : Type := option A * list E.

Definition ret {E A : Type} (a : A) : M E A := (Some a, []).

Definition panic {E A : Type} : M E A := (None, []).

Definition emit {E : Type} (e : E) : M E unit := (Some tt, [e]).

Definition bind {E A B : Type} (m : M E A) (f : A -> M E B) : M E B :=
  match m with
  | (Some a, t) => let '(b, t') := f a in (b, t ++ t')
  | (None, t) => (None, t)
  end.

Definition returned {E A : Type} (m : M E A) : option A := fst m.
Definition issued {E A : Type} (m : M E A) : list E := snd m.

Declare Scope go_scope.
Notation "x <- m ;; k" := (bind m (fun x => k))
  (at level 61, m at next level, right associativity) : go_scope.
Notation "' pat <- m ;; k" :=
  (bind m (fun x => match x with pat => k end))
  (at level 61, pat pattern, m at next level, right associativity) : go_scope.

End Effects.

(* ------------------------------------------------------------------ *)
(** ** The store's reading of the conditions on a message row *)
(* ------------------------------------------------------------------ *)

Module Postgres.
Import Json Bun.

Record Row : Type := mkRow {
  session_id : string;
  created_at : Z;
  deleted_at : option Z;
  metadata : value
}.

Definition deleted (r : Row) : bool :=
  match deleted_at r with Some _ => true | None => false end.

Section Holds.
(** Postgres' own functions, left open. *)
Variable jsonb_path_exists : value -> string -> bool.
Variable timestampGe timestampLe : Z -> value -> bool.

Definition holds (c : cond) (r : Row) : bool :=
  match c with
  | JsonbPathExists path => jsonb_path_exists (metadata r) path
  | SessionIDEq sid => String.eqb (session_id r) sid
  | DeletedAtIsNull => negb (deleted r)
  | CreatedAtGe d => timestampGe (created_at r) d
  | CreatedAtLe d => timestampLe (created_at r) d
  end.

Definition selects (q : SelectQuery) (r : Row) : bool :=
  Bun.selects Row holds deleted q r.
End Holds.

(** A stored text as a search sees it: the row, and the vector stored
    for it in the [embedding] column. *)
Record Embedded : Type := mkEmbedded {
  row : Row;
  embedding : Pgvector.Vector
}.

(** ORDER BY, for the two items the sources write.  [dist ASC] asks for
    ascending values of the column selected [AS dist] (a query that selects
    no such column cannot be ordered by it), [m.created_at DESC] for the
    later row first. *)
Definition orderedBy (item : string) (q : SelectQuery) (rows : list Embedded)
  : Prop :=
  if String.eqb item "dist ASC" then
    match distColumn q with
    | Some e =>
        StronglySorted
          (fun x y => (Pgvector.evalExpr (embedding x) e
                       <= Pgvector.evalExpr (embedding y) e)%R) rows
    | None => False
    end
  else if String.eqb item "m.created_at DESC" then
    StronglySorted (fun x y => created_at (row y) <= created_at (row x)) rows
  else False.

(** The rows of a scan come sorted by the first ORDER BY item of the query
    (later items only break ties); a query without ORDER BY promises no
    order. *)
Definition delivered (q : SelectQuery) (rows : list Embedded) : Prop :=
  match qOrder q with
  | [] => True
  | item :: _ => orderedBy item q rows
  end.

End Postgres.

(* ------------------------------------------------------------------ *)
(** ** pkg/memorystore/postgres_search.go *)
(* ------------------------------------------------------------------ *)

Module MemoryStore.
Import Json Errors Pgvector Bun Effects.
#[local] Open Scope go_scope.

Definition defaultSearchLimit : Z := 10.

Inductive JSONQuery : Type := mkJSONQuery {
  JSONPath : string;
  And : list JSONQuery;
  Or : list JSONQuery
}.

(** [models.MemorySearchPayload], [models.Message] and
    [models.MemorySearchResult], with the fields the search reads. *)
Record MemorySearchPayload : Type := mkMemorySearchPayload {
  Text : string;
  Metadata : object
}.

Record Message : Type := mkMessage {
  UUID : string;
  Role : string;
  Content : string
}.

Record MemorySearchResult : Type := mkMemorySearchResult {
  ResultMessage : Message;
  Dist : float           (* float64 *)
}.

(** [models.AppState]: what [llms.GetMessageEmbeddingModel] finds in it and
    what [llms.EmbedTexts] answers through it. *)
Record AppState : Type := mkAppState {
  GetMessageEmbeddingModel : result string;
  EmbedTexts : string -> list string -> result (list Vector)
}.

(** [bun.DB]: what a scan of a built query answers. *)
Record DB : Type := mkDB {
  Scan : SelectQuery -> result (list MemorySearchResult)
}.

(** Calls that leave the process. *)
Inductive event : Type :=
| EmbedTextsCall (model : string) (texts : list string)
| ScanCall (q : SelectQuery).

(** [math.IsNaN(f)] is [f != f]. *)
Definition IsNaN (f : float) : bool := negb (PrimFloat.eqb f f).

Definition quote : ascii := "'"%char.
Definition doubleQuote : ascii := ascii_of_nat 34.

(** [strings.ReplaceAll(s, old, new)] for one-character [old] and [new]. *)
Fixpoint ReplaceAll (s : string) (old new : ascii) : string :=
  match s with
  | EmptyString => EmptyString
  | String c s' =>
      String (if Ascii.eqb c old then new else c) (ReplaceAll s' old new)
  end.

(** A [*bun.SelectQuery]; [None] is the nil pointer.  A builder method
    called on nil dereferences it and panics. *)
Definition deref {E : Type} (p : option SelectQuery) : M E SelectQuery :=
  match p with
  | Some q => ret q
  | None => panic
  end.

Fixpoint parseJSONQuery (qb : SelectQuery) (jq : JSONQuery) (isOr : bool)
         {struct jq} : SelectQuery :=
  let qb :=
    if negb (String.eqb (JSONPath jq) EmptyString) then
      let path := ReplaceAll (JSONPath jq) quote doubleQuote in
      if isOr then WhereOr (JsonbPathExists path) qb
      else Where (JsonbPathExists path) qb
    else qb in
  let qb :=
    if 0 <? len (And jq) then
      WhereGroup SepAnd
        (fun qq => fold_left (fun qq subQuery => parseJSONQuery qq subQuery false)
                             (And jq) qq) qb
    else qb in
  let qb :=
    if 0 <? len (Or jq) then
      WhereGroup SepAnd
        (fun qq => fold_left (fun qq subQuery => parseJSONQuery qq subQuery true)
                             (Or jq) qq) qb
    else qb in
  qb.

(** [parseJSONQuery] on a possibly nil builder: it panics at its first
    [Where], [WhereOr] or [WhereGroup], and makes none on an empty tree. *)
Definition parseJSONQueryPtr {E : Type} (qb : option SelectQuery)
           (jq : JSONQuery) (isOr : bool) : M E (option SelectQuery) :=
  match qb with
  | Some q => ret (Some (parseJSONQuery q jq isOr))
  | None =>
      if negb (String.eqb (JSONPath jq) EmptyString)
         || (0 <? len (And jq)) || (0 <? len (Or jq))
      then panic else ret None
  end.

Definition addMessageDateFilters {E : Type} (qb : option SelectQuery)
           (m : object) : M E (option SelectQuery) :=
  qb <- match lookup "start_date" m with
        | Some startDate =>
            q <- deref qb ;; ret (Some (Where (CreatedAtGe startDate) q))
        | None => ret qb
        end ;;
  match lookup "end_date" m with
  | Some endDate =>
      q <- deref qb ;; ret (Some (Where (CreatedAtLe endDate) q))
  | None => ret qb
  end.

Definition addMessagesSortQuery (searchText : string) (dbQuery : SelectQuery)
  : SelectQuery :=
  if negb (String.eqb searchText EmptyString) then Order "dist ASC" dbQuery
  else Order "m.created_at DESC" dbQuery.

Definition filterValidMessageSearchResults
           (results : list MemorySearchResult) (metadata : object)
  : list MemorySearchResult :=
  filter (fun result => negb (IsNaN (Dist result)) || (0 <? len metadata))
         results.

Definition executeMessagesSearchScan (db : DB) (dbQuery : SelectQuery)
  : M event (result (list MemorySearchResult)) :=
  _ <- emit (ScanCall dbQuery) ;;
  ret (Scan db dbQuery).

Definition addMessagesVectorColumn (appState : AppState) (q : SelectQuery)
           (queryText : string) : M event (result SelectQuery) :=
  match GetMessageEmbeddingModel appState with
  | Failure err =>
      ret (Failure (StorageError "failed to get message embedding model"
                                 (Some err)))
  | Success model =>
      _ <- emit (EmbedTextsCall model [queryText]) ;;
      match EmbedTexts appState model [queryText] with
      | Failure err =>
          ret (Failure (StorageError "failed to embed query" (Some err)))
      | Success e =>
          match e with
          | [] => panic                           (* e[0] out of range *)
          | e0 :: _ =>
              let vector := e0 in
              ret (Success (ColumnExpr
                              (ColumnDist (EOp OpNegInnerProduct vector)) q))
          end
      end
  end.

Definition buildMessagesSelectQuery (appState : AppState)
           (query : MemorySearchPayload) : M event (option SelectQuery) :=
  let dbQuery :=
    ColumnExpr (ColumnRaw "m.token_count AS message__token_count")
    (ColumnExpr (ColumnRaw "m.metadata AS message__metadata")
    (ColumnExpr (ColumnRaw "m.content AS message__content")
    (ColumnExpr (ColumnRaw "m.role AS message__role")
    (ColumnExpr (ColumnRaw "m.created_at AS message__created_at")
    (ColumnExpr (ColumnRaw "m.uuid AS message__uuid")
    (JoinOn "me.message_uuid = m.uuid"
    (Join "JOIN message AS m"
    (TableExpr "message_embedding AS me" NewSelect)))))))) in
  if negb (String.eqb (Text query) EmptyString) then
    r <- addMessagesVectorColumn appState dbQuery (Text query) ;;
    (* dbQuery, _ = ...: the error is dropped, the nil query is kept *)
    match r with
    | Success q => ret (Some q)
    | Failure _ => ret None
    end
  else ret (Some dbQuery).

(** The embedding step finds a model and the provider answers [e0] first
    for the text. *)
Definition embedsTo (appState : AppState) (text : string) (e0 : Vector)
  : Prop :=
  exists model rest,
    GetMessageEmbeddingModel appState = Success model
    /\ EmbedTexts appState model [text] = Success (e0 :: rest).

Section Decoder.
(** [json.Marshal] of the [where] value and [json.Unmarshal] of the bytes
    into a [JSONQuery]. *)
Variable jsonMarshal : value -> result string.
Variable jsonUnmarshal : string -> result JSONQuery.

(** The [where] value of the metadata, when there is one, passes through
    the codec. *)
Definition decodes (metadata : object) : Prop :=
  match lookup "where" metadata with
  | None => True
  | Some where_ =>
      exists j jq, jsonMarshal where_ = Success j /\ jsonUnmarshal j = Success jq
  end.

Definition applyMessagesMetadataFilter (dbQuery : option SelectQuery)
           (metadata : object) : M event (result (option SelectQuery)) :=
  let qb := dbQuery in
  match lookup "where" metadata with
  | Some where_ =>
      match jsonMarshal where_ with
      | Failure err =>
          ret (Failure (StorageError "error marshalling metadata" (Some err)))
      | Success j =>
          match jsonUnmarshal j with
          | Failure err =>
              ret (Failure (StorageError "error unmarshalling metadata"
                                         (Some err)))
          | Success jq =>
              qb <- parseJSONQueryPtr qb jq false ;;
              qb <- addMessageDateFilters qb metadata ;;
              ret (Success qb)
          end
      end
  | None =>
      qb <- addMessageDateFilters qb metadata ;;
      ret (Success qb)
  end.

Definition searchMessages (appState : option AppState) (db : DB)
           (sessionID : string) (query : option MemorySearchPayload)
           (limit : Z) : M event (result (list MemorySearchResult)) :=
  match query, appState with
  | Some query, Some appState =>
      if String.eqb (Text query) EmptyString && (len (Metadata query) =? 0)
      then ret (Failure (StorageError "empty query"
                                      (Some (ErrorsNew "empty query"))))
      else
        dbQuery <- buildMessagesSelectQuery appState query ;;
        r <- (if 0 <? len (Metadata query)
              then applyMessagesMetadataFilter dbQuery (Metadata query)
              else ret (Success dbQuery)) ;;
        match r with
        | Failure err =>
            ret (Failure (StorageError "error applying metadata filter"
                                       (Some err)))
        | Success dbQuery =>
            dbQuery <- deref dbQuery ;;
            let dbQuery := Where (SessionIDEq sessionID) dbQuery in
            (* Ensure we don't return deleted records. *)
            let dbQuery := Where DeletedAtIsNull dbQuery in
            (* Add sort and limit. *)
            let dbQuery := addMessagesSortQuery (Text query) dbQuery in
            let limit :=
              if limit =? 0 then defaultSearchLimit else limit in
            let dbQuery := Limit limit dbQuery in
            r <- executeMessagesSearchScan db dbQuery ;;
            match r with
            | Failure err =>
                ret (Failure (StorageError "memory searchMessages failed"
                                           (Some err)))
            | Success results =>
                ret (Success (filterValidMessageSearchResults
                                results (Metadata query)))
            end
        end
  | _, _ =>
      ret (Failure (StorageError "nil query or appState received" None))
  end.
End Decoder.

(** The error of the empty-query guard. *)
Definition emptyQueryError : error :=
  StorageError "empty query" (Some (ErrorsNew "empty query")).

(** The query as it stands before scope, sort and limit are added: its
    WHERE list is joined by ANDs, it has no model and no ORDER BY yet. *)
Definition messageQueryShape (q : SelectQuery) : Prop :=
  topLevelAnd (qWhere q) /\ qModel q = None /\ qOrder q = [].

Definition noScan (t : list event) : Prop := forall q, ~ In (ScanCall q) t.

(** A step on a possibly nil builder: it issues no call, keeps nil as nil
    and extends a builder that is not nil. *)
Definition pointerStep (p : option SelectQuery)
           (m : M event (option SelectQuery)) : Prop :=
  issued m = []
  /\ forall p', returned m = Some p' ->
       match p, p' with
       | Some q0, Some q1 => extends q0 q1
       | None, None => True
       | _, _ => False
       end.

(** What [searchMessages] adds after the metadata filter. *)
Definition issuedQuery (sessionID : string) (query : MemorySearchPayload)
           (limit : Z) (q1 : SelectQuery) : SelectQuery :=
  Limit (if limit =? 0 then defaultSearchLimit else limit)
    (addMessagesSortQuery (Text query)
       (Where DeletedAtIsNull (Where (SessionIDEq sessionID) q1))).


(** The predicate a tree compiles to, on its own: the WHERE list that
    [parseJSONQuery] builds on a fresh builder, read on a row. *)
Definition compile (jq : JSONQuery) (isOr : bool) : list whereItem :=
  qWhere (parseJSONQuery NewSelect jq isOr).

End MemoryStore.

(* ------------------------------------------------------------------ *)
(** ** pkg/store/postgres/document_search.go *)
(* ------------------------------------------------------------------ *)

Module DocumentSearch.
Import Json Errors Pgvector Bun Effects.
#[local] Open Scope go_scope.

Definition DefaultDocumentSearchLimit : Z := 20.

(** Go's [int] is 64 bits wide and wraps around. *)
Definition wrapInt (z : Z) : Z := (z + 2 ^ 63) mod 2 ^ 64 - 2 ^ 63.

Record DocumentSearchPayload : Type := mkDocumentSearchPayload {
  Text : string;
  Metadata : object
}.

Record DocumentCollection : Type := mkDocumentCollection {
  TableName : string;
  IsIndexed : bool;
  ProbeCount : Z
}.

Record DocumentSearchResult : Type := mkDocumentSearchResult {
  Content : string;
  Dist : float
}.

Record DocumentSearchResultPage : Type := mkDocumentSearchResultPage {
  Results : list DocumentSearchResult;
  ResultCount : Z
}.

(** Modelled from the spec: the bun table model of
    [models.DocumentSearchResult], whose declaration (package [models]) is
    not among the sources.  The spec has every entity carry a delete marker
    and has soft-deleted rows excluded from all reads by default, which is
    what bun does for a model with a [soft_delete] field. *)
Definition DocumentSearchResultModel : tableModel :=
  mkTableModel "DocumentSearchResult" true.

Record AppState : Type := mkAppState {
  GetMessageEmbeddingModel : string -> result string;
  EmbedTexts : string -> string -> list string -> result (list Vector)
}.

Record DB : Type := mkDB {
  Exec : string -> Z -> result unit;
  ScanAndCount : SelectQuery -> result (list DocumentSearchResult * Z)
}.

Inductive event : Type :=
| EmbedTextsCall (model documentType : string) (texts : list string)
| ExecCall (sql : string) (arg : Z)
| ScanAndCountCall (q : SelectQuery).

Record documentSearchOperation : Type := mkDocumentSearchOperation {
  appState : AppState;
  db : DB;
  searchPayload : DocumentSearchPayload;
  collection : DocumentCollection;
  queryVector : option Vector;
  limit : Z;
  withMMR : bool
}.

Definition setQueryVector (v : Vector) (dso : documentSearchOperation)
  : documentSearchOperation :=
  mkDocumentSearchOperation (appState dso) (db dso) (searchPayload dso)
    (collection dso) (Some v) (limit dso) (withMMR dso).

Definition newDocumentSearchOperation (appState : AppState) (db : DB)
           (searchPayload : DocumentSearchPayload)
           (collection : DocumentCollection) (limit : Z) (withMMR : bool)
  : documentSearchOperation :=
  let limit := if limit <=? 0 then DefaultDocumentSearchLimit else limit in
  mkDocumentSearchOperation appState db searchPayload collection None
                            limit withMMR.

(** [getDocQueryVector]: the vector for the query text, also kept in
    [dso.queryVector]. *)
Definition getDocQueryVector (dso : documentSearchOperation)
           (queryText : string)
  : M event (result Vector * documentSearchOperation) :=
  let documentType := "document" in
  match GetMessageEmbeddingModel (appState dso) documentType with
  | Failure err =>
      ret (Failure (Errorf "failed to get document embedding model %w" err), dso)
  | Success model =>
      _ <- emit (EmbedTextsCall model documentType [queryText]) ;;
      match EmbedTexts (appState dso) model documentType [queryText] with
      | Failure err => ret (Failure (Errorf "failed to embed query %w" err), dso)
      | Success e =>
          match e with
          | [] => panic                           (* e[0] out of range *)
          | e0 :: _ =>
              let dso := setQueryVector e0 dso in
              let v := e0 in
              ret (Success v, dso)
          end
      end
  end.

(** [db.NewSelect().Model(m).ModelTableExpr(dso.collection.TableName)] *)
Definition baseQuery (dso : documentSearchOperation) : SelectQuery :=
  ModelTableExpr (TableName (collection dso))
                 (Model DocumentSearchResultModel NewSelect).

Section Decoder.
Variable jsonMarshal : value -> result string.
Variable jsonUnmarshal : string -> result MemoryStore.JSONQuery.

(** [applyDocsMetadataFilter].  The package's own [JSONQuery] and
    [parseJSONQuery] are the ones of [postgres_search.go]. *)
Definition applyDocsMetadataFilter (query : SelectQuery) (metadata : object)
  : result SelectQuery :=
  let qb := query in
  match lookup "where" metadata with
  | Some where_ =>
      match jsonMarshal where_ with
      | Failure err => Failure (Errorf "error marshalling metadata %w" err)
      | Success j =>
          match jsonUnmarshal j with
          | Failure err => Failure (Errorf "error unmarshalling metadata %w" err)
          | Success jq => Success (MemoryStore.parseJSONQuery qb jq false)
          end
      end
  | None => Success qb
  end.

Definition buildQuery (dso : documentSearchOperation)
  : M event (result SelectQuery * documentSearchOperation) :=
  let m := DocumentSearchResultModel in
  let query :=
    ModelTableExpr (TableName (collection dso)) (Model m NewSelect) in
  (* the part of the body that follows the vector column *)
  let rest (query : SelectQuery) (dso : documentSearchOperation)
    : M event (result SelectQuery * documentSearchOperation) :=
    match (if 0 <? len (Metadata (searchPayload dso))
           then applyDocsMetadataFilter query (Metadata (searchPayload dso))
           else Success query) with
    | Failure err =>
        ret (Failure (StorageError "error applying metadata filter"
                                   (Some err)), dso)
    | Success query =>
        (* Add LIMIT.  If we're using MMR, we need to add a limit of 2x
           the requested limit to allow for the MMR algorithm to rerank
           and filter out results. *)
        let limit := limit dso in
        let limit := if withMMR dso then wrapInt (limit * 2) else limit in
        let query := Limit (DocumentSearch.limit dso) query in
        (* Order by dist - required for index to be used. *)
        let query :=
          if negb (String.eqb (Text (searchPayload dso)) EmptyString)
          then Order "dist ASC" query else query in
        ret (Success query, dso)
    end in
  (* Add the vector column. *)
  if negb (String.eqb (Text (searchPayload dso)) EmptyString) then
    '(r, dso) <- getDocQueryVector dso (Text (searchPayload dso)) ;;
    match r with
    | Failure err => ret (Failure (Errorf "error getting query vector %w" err), dso)
    | Success v =>
        (* Cosine distance is 1 - (a <=> b) *)
        rest (ColumnExpr
                (ColumnDist (EOneMinus (EOp OpCosineDistance v))) query) dso
    end
  else rest query dso.

(** [execQuery]: the scanned rows are written through [results]. *)
Definition execQuery (dso : documentSearchOperation)
           (results : list DocumentSearchResult)
  : M event (result Z * list DocumentSearchResult * documentSearchOperation) :=
  '(r, dso) <- buildQuery dso ;;
  match r with
  | Failure err => ret (Failure (Errorf "error building query %w" err), results, dso)
  | Success query =>
      _ <- emit (ScanAndCountCall query) ;;
      match ScanAndCount (db dso) query with
      | Failure err =>
          ret (Failure (Errorf "error scanning query %w" err), results, dso)
      | Success (rows, count) =>
          if count =? 0
          then ret (Failure (NotFoundError "no results found"), rows, dso)
          else ret (Success count, rows, dso)
      end
  end.
End Decoder.

End DocumentSearch.

(* ------------------------------------------------------------------ *)
(** ** Metadata merge (the rule of the design document) *)
(* ------------------------------------------------------------------ *)

Module Merge.
Import Json.

(** The per-variant test for an empty or zero value. *)
Definition isEmpty (v : value) : bool :=
  match v with
  | VNull => true
  | VBool b => negb b
  | VNumber n => n =? 0
  | VString s => String.eqb s EmptyString
  | VArray items => match items with [] => true | _ :: _ => false end
  | VObject fields => match fields with [] => true | _ :: _ => false end
  end.

(** Modelled from the spec: the deep merge that [mergeMetadata] applies;
    the function itself is not among the sources.  For every key of the
    update: an existing non-empty value is kept when the update's value is
    empty and the caller is not privileged; otherwise two objects merge
    recursively and any other value replaces or is inserted.  Keys the
    update does not mention stay. *)
Fixpoint mergeValue (privileged : bool) (existing update : value)
         {struct update} : value :=
  match existing, update with
  | VObject em, VObject um =>
      VObject
        ((fix mergeFields (um acc : list (string * value)) {struct um} :=
            match um with
            | [] => acc
            | (k, uv) :: rest =>
                mergeFields rest
                  (match lookup k acc with
                   | Some ev =>
                       if negb (isEmpty ev) && isEmpty uv && negb privileged
                       then acc
                       else store k (mergeValue privileged ev uv) acc
                   | None => store k uv acc
                   end)
            end) um em)
  | _, _ => update
  end.

Definition mergeEntry (privileged : bool) (acc : object)
           (entry : string * value) : object :=
  let '(k, uv) := entry in
  match lookup k acc with
  | Some ev =>
      if negb (isEmpty ev) && isEmpty uv && negb privileged then acc
      else store k (mergeValue privileged ev uv) acc
  | None => store k uv acc
  end.

Definition deepMerge (privileged : bool) (existing update : object) : object :=
  fold_left (mergeEntry privileged) update existing.

End Merge.

(* ------------------------------------------------------------------ *)
(** ** pkg/store/postgres/userstore.go *)
(* ------------------------------------------------------------------ *)

Module UserStore.
Import Json Errors Effects.
#[local] Open Scope go_scope.

Record UpdateUserRequest : Type := mkUpdateUserRequest {
  UserID : string;
  Email : string;
  FirstName : string;
  LastName : string;
  Metadata : option object       (* [None] is the nil map *)
}.

Record UserSchema : Type := mkUserSchema {
  sID : Z;
  sUserID : string;
  sEmail : string;
  sFirstName : string;
  sLastName : string;
  sMetadata : option object
}.

Record User : Type := mkUser {
  uID : Z;
  uUserID : string;
  uEmail : string;
  uFirstName : string;
  uLastName : string;
  uMetadata : option object
}.

(** The value a SET clause gives a column. *)
Inductive columnValue : Type :=
| ColumnText (s : string)
| ColumnJSON (m : object).

(** [Column("email", "first_name", "last_name", "metadata").OmitZero()]:
    of the four columns named, the SET clause has those whose field is not
    the zero value of its type, in the order named.  bun takes an empty
    string and a nil map for zero. *)
Definition setClause (userDB : UserSchema) : list (string * columnValue) :=
  (if String.eqb (sEmail userDB) EmptyString then []
   else [("email", ColumnText (sEmail userDB))])
  ++ (if String.eqb (sFirstName userDB) EmptyString then []
      else [("first_name", ColumnText (sFirstName userDB))])
  ++ (if String.eqb (sLastName userDB) EmptyString then []
      else [("last_name", ColumnText (sLastName userDB))])
  ++ match sMetadata userDB with
     | None => []
     | Some m => [("metadata", ColumnJSON m)]
     end.

(** What the database answers to each statement the DAO issues. *)
Record UserStoreDAO : Type := mkUserStoreDAO {
  (* pg advisory lock on the hash of the key; answers the lock id *)
  pgAdvisoryLock : string -> result Z;
  pgAdvisoryUnlock : Z -> result unit;
  (* SELECT metadata FROM table WHERE column = value; None: no rows *)
  selectMetadata : string -> string -> string -> result (option object);
  (* UPDATE users SET <columns> WHERE user_id = ?, given the SET clause;
     answers the rows affected *)
  execUpdate : list (string * columnValue) -> string -> result Z;
  (* SELECT ... FROM users WHERE user_id = ?; None: sql.ErrNoRows *)
  scanUser : string -> result (option UserSchema)
}.

Inductive event : Type :=
| AcquireLockCall (key : string)
| ReleaseLockCall (lockID : Z)
| SelectMetadataCall (table column value : string)
| UpdateCall (set : list (string * columnValue)) (userID : string)
| SelectUserCall (userID : string).

Definition isLockEvent (e : event) : bool :=
  match e with
  | AcquireLockCall _ | ReleaseLockCall _ => true
  | _ => false
  end.

(** [defer d]: [d] runs when the body is left, however it is left. *)
Definition defer {A : Type} (d : M event unit) (body : M event A)
  : M event A :=
  let '(r, t) := body in (r, t ++ issued d).

Definition userSchemaToUser (user : UserSchema) : User :=
  mkUser (sID user) (sUserID user) (sEmail user) (sFirstName user)
         (sLastName user) (sMetadata user).

Definition Get (dao : UserStoreDAO) (userID : string) : M event (result User) :=
  _ <- emit (SelectUserCall userID) ;;
  match scanUser dao userID with
  | Failure err => ret (Failure err)
  | Success None => ret (Failure (NotFoundError (String.append "user " userID)))
  | Success (Some user) => ret (Success (userSchemaToUser user))
  end.

Definition updateUser (dao : UserStoreDAO) (user : UpdateUserRequest)
  : M event (result User) :=
  let userDB :=
    mkUserSchema 0 EmptyString (Email user) (FirstName user) (LastName user)
                 (Metadata user) in
  _ <- emit (UpdateCall (setClause userDB) (UserID user)) ;;
  match execUpdate dao (setClause userDB) (UserID user) with
  | Failure err => ret (Failure err)
  | Success rowsAffected =>
      if rowsAffected =? 0
      then ret (Failure (NotFoundError (String.append "user " (UserID user))))
      else
        r <- Get dao (UserID user) ;;
        match r with
        | Failure err => ret (Failure err)
        | Success updatedUserDB =>
            ret (Success (mkUser (uID updatedUserDB) (uUserID updatedUserDB)
                                 (uEmail updatedUserDB)
                                 (uFirstName updatedUserDB)
                                 (uLastName updatedUserDB)
                                 (uMetadata updatedUserDB)))
        end
  end.

(** Modelled from the spec: [acquireAdvisoryLock] and [releaseAdvisoryLock]
    (not among the sources) take and give back the store's advisory lock for
    a string key; acquisition answers the lock token. *)
Definition acquireAdvisoryLock (dao : UserStoreDAO) (key : string)
  : M event (result Z) :=
  _ <- emit (AcquireLockCall key) ;;
  ret (pgAdvisoryLock dao key).

Definition releaseAdvisoryLock (dao : UserStoreDAO) (lockID : Z)
  : M event (result unit) :=
  _ <- emit (ReleaseLockCall lockID) ;;
  ret (pgAdvisoryUnlock dao lockID).

(** Modelled from the spec: [mergeMetadata] (not among the sources) reads
    the entity's current metadata, fails with NotFound when the entity does
    not exist, and answers the deep merge of the update into it. *)
Definition mergeMetadata (dao : UserStoreDAO)
           (schemaKey schemaValue table : string) (metadata : object)
           (isPrivileged : bool) : M event (result object) :=
  _ <- emit (SelectMetadataCall table schemaKey schemaValue) ;;
  match selectMetadata dao table schemaKey schemaValue with
  | Failure err => ret (Failure err)
  | Success None => ret (Failure (NotFoundError schemaValue))
  | Success (Some dbMetadata) =>
      ret (Success (Merge.deepMerge isPrivileged dbMetadata metadata))
  end.

Definition setMetadata (m : object) (user : UpdateUserRequest)
  : UpdateUserRequest :=
  mkUpdateUserRequest (UserID user) (Email user) (FirstName user)
                      (LastName user) (Some m).

Definition Update (dao : UserStoreDAO) (user : UpdateUserRequest)
           (isPrivileged : bool) : M event (result User) :=
  if String.eqb (UserID user) EmptyString
  then ret (Failure (ErrorsNew "UserID cannot be empty"))
  else
    match Metadata user with
    | None =>
        (* if metadata is null, we can keep this a cheap operation *)
        updateUser dao user
    | Some metadata =>
        (* Acquire a lock for this UserID. *)
        r <- acquireAdvisoryLock dao (UserID user) ;;
        match r with
        | Failure err =>
            ret (Failure (Errorf "failed to acquire advisory lock: %w" err))
        | Success lockID =>
            defer (_ <- releaseAdvisoryLock dao lockID ;; ret tt)
              (r <- mergeMetadata dao "user_id" (UserID user) "users"
                                  metadata isPrivileged ;;
               match r with
               | Failure err =>
                   ret (Failure (Errorf "failed to merge metadata: %w" err))
               | Success mergedMetadata =>
                   let user := setMetadata mergedMetadata user in
                   updateUser dao user
               end)
        end
    end.

End UserStore.

(* ------------------------------------------------------------------ *)
(** ** What a compiled tree matches *)
(* ------------------------------------------------------------------ *)

Module Predicate.
Import Json Bun MemoryStore.

(** The leaf item of a node, as [parseJSONQuery] appends it. *)
Definition leafItems (jq : JSONQuery) (isOr : bool) : list whereItem :=
  if negb (String.eqb (JSONPath jq) EmptyString)
  then [WCond (if isOr then SepOr else SepAnd)
              (JsonbPathExists (ReplaceAll (JSONPath jq) quote doubleQuote))]
  else [].

(** [addWhereGroup] with " AND ": nothing for an empty group. *)
Definition wrapGroup (g : list whereItem) : list whereItem :=
  match g with [] => [] | _ :: _ => [WGroup SepAnd g] end.

(** The items [parseJSONQuery] appends for a tree, written by recursion on
    the tree (shown equal to the code's own list below). *)
Fixpoint itemsOf (jq : JSONQuery) (isOr : bool) : list whereItem :=
  leafItems jq isOr
  ++ wrapGroup (List.concat (map (fun c => itemsOf c false) (And jq)))
  ++ wrapGroup (List.concat (map (fun c => itemsOf c true) (Or jq))).

Definition appendsItems (jq : JSONQuery) : Prop :=
  forall qb isOr,
    parseJSONQuery qb jq isOr = setWhere (qWhere qb ++ itemsOf jq isOr) qb.

Definition restItems (jq : JSONQuery) : list whereItem :=
  wrapGroup (List.concat (map (fun c => itemsOf c false) (And jq)))
  ++ wrapGroup (List.concat (map (fun c => itemsOf c true) (Or jq))).

Definition hasLeaf (jq : JSONQuery) : Prop := JSONPath jq <> EmptyString.

(** What the function handed to [WhereGroup] collects for a child list. *)
Definition groupOf (children : list JSONQuery) (isOr : bool) : list whereItem :=
  qWhere (fold_left (fun qq subQuery => parseJSONQuery qq subQuery isOr)
                    children NewSelect).

Section Matching.
Variable Row : Type.
Variable holds : cond -> Row -> bool.

(** A record matches a tree when the WHERE list the tree compiles to,
    with AND semantics at the top as the callers ask for, selects it. *)
Definition matches (r : Row) (jq : JSONQuery) : bool :=
  evalWhere Row holds r (compile jq false).

Definition leafHolds (r : Row) (jq : JSONQuery) : bool :=
  if String.eqb (JSONPath jq) EmptyString then true
  else holds (JsonbPathExists (ReplaceAll (JSONPath jq) quote doubleQuote)) r.
End Matching.

End Predicate.

(* ------------------------------------------------------------------ *)
(** ** Concrete inputs used by the examples below *)
(* ------------------------------------------------------------------ *)

Module Examples.
Import Json Errors Pgvector Bun Effects.

(** *** A store that reads the path [$.key] as "the document has [key]" *)
Definition keyOfPath (path : string) : option string :=
  match path with
  | String "$" (String "." k) => Some k
  | _ => None
  end.

Definition pathExists (doc : value) (path : string) : bool :=
  match doc, keyOfPath path with
  | VObject fields, Some k =>
      match lookup k fields with Some _ => true | None => false end
  | _, _ => false
  end.

Definition anyDate (_ : Z) (_ : value) : bool := true.

Definition holds : cond -> Postgres.Row -> bool :=
  Postgres.holds pathExists anyDate anyDate.

Definition rowA : Postgres.Row :=
  Postgres.mkRow "s1" 100 None (VObject [("a", VNumber 1)]).

Definition rowDeleted : Postgres.Row :=
  Postgres.mkRow "s1" 100 (Some 200) (VObject [("a", VNumber 1)]).

(** *** Predicate trees *)
Definition leaf (path : string) : MemoryStore.JSONQuery :=
  MemoryStore.mkJSONQuery path [] [].



Definition orLeafTree : MemoryStore.JSONQuery :=
  MemoryStore.mkJSONQuery EmptyString [] [leaf "$.a"; leaf "$.b"].


Definition mixedTree : MemoryStore.JSONQuery :=
  MemoryStore.mkJSONQuery "$.a" [leaf "$.a"] [leaf "$.b"; leaf "$.a"].

(** *** JSON codec stand-ins

    The one [where] document of the examples, and a codec that decodes it
    (and, for brevity, anything else) to [orLeafTree]. *)
Definition whereDocument : value :=
  VObject [("or", VArray [VObject [("jsonpath", VString "$.a")];
                          VObject [("jsonpath", VString "$.b")]])].

Definition jsonMarshal (_ : value) : result string := Success "{}".
Definition jsonUnmarshal (_ : string) : result MemoryStore.JSONQuery :=
  Success orLeafTree.

(** *** Message search *)
Definition unitVector : Vector := [1%R].

Definition appState : MemoryStore.AppState :=
  MemoryStore.mkAppState (Success "embedder")
    (fun _ texts => Success (map (fun _ => unitVector) texts)).

Definition hello : MemoryStore.Message :=
  MemoryStore.mkMessage "uuid-1" "user" "hello".

Definition nanResult : MemoryStore.MemorySearchResult :=
  MemoryStore.mkMemorySearchResult hello PrimFloat.nan.

Definition halfResult : MemoryStore.MemorySearchResult :=
  MemoryStore.mkMemorySearchResult hello 0.5%float.

Definition messageDB : MemoryStore.DB :=
  MemoryStore.mkDB (fun _ => Success [nanResult; halfResult]).

Definition textQuery : MemoryStore.MemorySearchPayload :=
  MemoryStore.mkMemorySearchPayload "hello" [].

Definition metadataQuery : MemoryStore.MemorySearchPayload :=
  MemoryStore.mkMemorySearchPayload EmptyString [("where", whereDocument)].

Definition emptyQuery : MemoryStore.MemorySearchPayload :=
  MemoryStore.mkMemorySearchPayload EmptyString [].

(** The text query once built, before scope, sort and limit are added. *)
Definition builtTextQuery : SelectQuery :=
  match returned (MemoryStore.buildMessagesSelectQuery appState textQuery) with
  | Some (Some q) => q
  | _ => NewSelect
  end.







(** *** Document search *)
Definition docAppState : DocumentSearch.AppState :=
  DocumentSearch.mkAppState (fun _ => Success "embedder")
    (fun _ _ texts => Success (map (fun _ => unitVector) texts)).

Definition docDB : DocumentSearch.DB :=
  DocumentSearch.mkDB (fun _ _ => Success tt)
    (fun _ => Success ([DocumentSearch.mkDocumentSearchResult "doc" 0.5%float], 1)).

Definition docs : DocumentSearch.DocumentCollection :=
  DocumentSearch.mkDocumentCollection "docstore_docs_1536" false 0.

Definition textPayload : DocumentSearch.DocumentSearchPayload :=
  DocumentSearch.mkDocumentSearchPayload "hello" [].

Definition metadataPayload : DocumentSearch.DocumentSearchPayload :=
  DocumentSearch.mkDocumentSearchPayload EmptyString [("where", whereDocument)].

(** limit 5 with MMR, and limit 5 without. *)
Definition mmrSearch : DocumentSearch.documentSearchOperation :=
  DocumentSearch.newDocumentSearchOperation docAppState docDB textPayload docs 5 true.

Definition plainSearch : DocumentSearch.documentSearchOperation :=
  DocumentSearch.newDocumentSearchOperation docAppState docDB textPayload docs 5 false.

Definition metadataSearch : DocumentSearch.documentSearchOperation :=
  DocumentSearch.newDocumentSearchOperation docAppState docDB metadataPayload docs 5 false.

Definition builtMetadataSearch : SelectQuery :=
  match returned (DocumentSearch.buildQuery jsonMarshal jsonUnmarshal
                                            metadataSearch) with
  | Some (Success q, _) => q
  | _ => NewSelect
  end.

(** *** User update *)
Definition storedMetadata : object := [("a", VNumber 1); ("b", VNumber 2)].
Definition updateMetadata : object := [("a", VNull); ("c", VNumber 3)].

Definition storedUser : UserStore.UserSchema :=
  UserStore.mkUserSchema 7 "u1" "email" "bob" "builder" (Some storedMetadata).

Definition dao : UserStore.UserStoreDAO :=
  UserStore.mkUserStoreDAO
    (fun _ => Success 42)
    (fun _ => Success tt)
    (fun _ _ _ => Success (Some storedMetadata))
    (fun _ _ => Success 1)
    (fun _ => Success (Some storedUser)).

(** A store whose UPDATE fails. *)
Definition failingDao : UserStore.UserStoreDAO :=
  UserStore.mkUserStoreDAO
    (fun _ => Success 42)
    (fun _ => Success tt)
    (fun _ _ _ => Success (Some storedMetadata))
    (fun _ _ => Failure (ErrorsNew "connection reset"))
    (fun _ => Success (Some storedUser)).

Definition nilMetadataUpdate : UserStore.UpdateUserRequest :=
  UserStore.mkUpdateUserRequest "u1" EmptyString "bob" EmptyString None.

Definition emptyMetadataUpdate : UserStore.UpdateUserRequest :=
  UserStore.mkUpdateUserRequest "u1" EmptyString "bob" EmptyString (Some []).

Definition metadataUpdate : UserStore.UpdateUserRequest :=
  UserStore.mkUpdateUserRequest "u1" EmptyString "bob" EmptyString
                                (Some updateMetadata).

(** The same update without a user id. *)
Definition anonymousUpdate : UserStore.UpdateUserRequest :=
  UserStore.mkUpdateUserRequest EmptyString EmptyString "bob" EmptyString
                                (Some updateMetadata).

End Examples.

(* ------------------------------------------------------------------ *)
(** ** Readings of the compiled predicate: its paths, and trees in normal form *)
(* ------------------------------------------------------------------ *)

Module PredicateShape.
Import Json Bun MemoryStore Predicate.

(** The paths handed to [jsonb_path_exists] in a WHERE list, left to right. *)
Fixpoint pathsOfItem (w : whereItem) : list string :=
  match w with
  | WCond _ (JsonbPathExists path) => [path]
  | WCond _ _ => []
  | WGroup _ items => List.concat (map pathsOfItem items)
  end.

Definition pathsOf (items : list whereItem) : list string :=
  List.concat (map pathsOfItem items).

(** The string has a single quote in it. *)
Fixpoint hasQuote (s : string) : bool :=
  match s with
  | EmptyString => false
  | String c s' => Ascii.eqb c quote || hasQuote s'
  end.

(** The leaf paths of a tree after quote replacement: the node's own, then
    those of its And children, then those of its Or children. *)
Fixpoint treePaths (jq : JSONQuery) : list string :=
  (if negb (String.eqb (JSONPath jq) EmptyString)
   then [ReplaceAll (JSONPath jq) quote doubleQuote] else [])
  ++ List.concat (map treePaths (And jq))
  ++ List.concat (map treePaths (Or jq)).

Definition leafOf (path : string) : JSONQuery := mkJSONQuery path [] [].

(** A conjunction of disjunctions of leaves, written as a tree: one And
    child per clause, each with the clause's paths as its Or children. *)
Definition clauseTree (clause : list string) : JSONQuery :=
  mkJSONQuery EmptyString [] (map leafOf clause).

Definition cnfTree (clauses : list (list string)) : JSONQuery :=
  mkJSONQuery EmptyString (map clauseTree clauses) [].

Definition pathHolds {Row : Type} (holds : cond -> Row -> bool) (r : Row)
           (path : string) : bool :=
  holds (JsonbPathExists (ReplaceAll path quote doubleQuote)) r.

End PredicateShape.

(* ------------------------------------------------------------------ *)
(** ** Message search: the calls and the answers of one search *)
(* ------------------------------------------------------------------ *)

Module MessageSearchShape.
Import Json Errors Pgvector Bun Effects MemoryStore.

(** The answer of [searchMessages] once the scan of [dbq] has answered. *)
Definition scanOutcome (db : DB) (query : MemorySearchPayload)
           (dbq : SelectQuery) : result (list MemorySearchResult) :=
  match Scan db dbq with
  | Success results =>
      Success (filterValidMessageSearchResults results (Metadata query))
  | Failure err =>
      Failure (StorageError "memory searchMessages failed" (Some err))
  end.

(** The embedding calls a search for [query] can issue: none without text
    or without a model, else one call for the query text alone. *)
Definition embedCalls (a : AppState) (query : MemorySearchPayload) : list event :=
  if String.eqb (Text query) EmptyString then []
  else match GetMessageEmbeddingModel a with
       | Success model => [EmbedTextsCall model [Text query]]
       | Failure _ => []
       end.

(** The embedding step fails: no model, or the provider answers an error. *)
Definition embeddingFails (a : AppState) (text : string) : Prop :=
  match GetMessageEmbeddingModel a with
  | Failure _ => True
  | Success model =>
      match EmbedTexts a model [text] with
      | Failure _ => True
      | Success _ => False
      end
  end.

Section Decoder.
Variable jsonMarshal : value -> result string.
Variable jsonUnmarshal : string -> result JSONQuery.

(** The error [applyMessagesMetadataFilter] answers for a [where] value that
    does not make it through the codec, if it does not. *)
Definition whereError (where_ : value) : option error :=
  match jsonMarshal where_ with
  | Failure err => Some (StorageError "error marshalling metadata" (Some err))
  | Success j =>
      match jsonUnmarshal j with
      | Failure err =>
          Some (StorageError "error unmarshalling metadata" (Some err))
      | Success _ => None
      end
  end.
End Decoder.

End MessageSearchShape.

(* ------------------------------------------------------------------ *)
(** ** pkg/store/postgres/document_search.go: Execute *)
(* ------------------------------------------------------------------ *)

Module DocumentExecute.
Import Json Errors Pgvector Bun Effects DocumentSearch.
#[local] Open Scope go_scope.

(** Calls of [Execute]: those of the transaction, and the store calls made
    on the way. *)
Inductive txEvent : Type :=
| BeginTxCall
| CommitCall
| RollbackCall
| StoreCall (e : event).

(** What the database answers to the transaction statements. *)
Record TxAnswers : Type := mkTxAnswers {
  BeginTx : result unit;
  Commit : result unit;
  Rollback : result unit
}.

Definition inTx {A : Type} (m : M event A) : M txEvent A :=
  (returned m, map StoreCall (issued m)).

(** bun's [RunInTx]: begin, run [fn], roll back when [fn] fails or panics and
    commit otherwise.  [S] is what [fn] has assigned to the variables it
    captured; it stays [s0] when the transaction does not begin. *)
Definition RunInTx {S : Type} (tx : TxAnswers) (s0 : S)
           (fn : M txEvent (result unit * S)) : M txEvent (result unit * S) :=
  _ <- emit BeginTxCall ;;
  match BeginTx tx with
  | Failure err => ret (Failure err, s0)
  | Success _ =>
      match fn with
      | (None, t) => (None, t ++ [RollbackCall])
      | (Some (Failure err, s), t) => (Some (Failure err, s), t ++ [RollbackCall])
      | (Some (Success _, s), t) => (Some (Commit tx, s), t ++ [CommitCall])
      end
  end.

Definition setProbes : string := "SET LOCAL ivfflat.probes = ?".

Section Decoder.
Variable jsonMarshal : value -> result string.
Variable jsonUnmarshal : string -> result MemoryStore.JSONQuery.

(** [Execute] answers a page and an error, both always present in Go; the
    error is [None] for nil. *)
Definition Execute (tx : TxAnswers) (dso : documentSearchOperation)
  : M txEvent (DocumentSearchResultPage * option error) :=
  let results : list DocumentSearchResult := [] in
  let count : Z := 0 in
  if IsIndexed (collection dso) then
    (* run in transaction to set the ivfflat.probes setting *)
    '(err, (count, results, dso)) <-
      RunInTx tx (count, results, dso)
        (_ <- inTx (emit (ExecCall setProbes (ProbeCount (collection dso)))) ;;
         match Exec (db dso) setProbes (ProbeCount (collection dso)) with
         | Failure err =>
             ret (Failure (Errorf "error setting probes: %w" err),
                  (count, results, dso))
         | Success _ =>
             '(r, results, dso) <- inTx (execQuery jsonMarshal jsonUnmarshal
                                                   dso results) ;;
             match r with
             | Failure err =>
                 ret (Failure (Errorf "error executing query: %w" err),
                      (0, results, dso))
             | Success count => ret (Success tt, (count, results, dso))
             end
         end) ;;
    (* err is assigned here and not read again *)
    ret (mkDocumentSearchResultPage results count, None)
  else
    '(r, results, dso) <- inTx (execQuery jsonMarshal jsonUnmarshal dso results) ;;
    match r with
    | Failure err =>
        ret (mkDocumentSearchResultPage [] 0,
             Some (Errorf "error executing query: %w" err))
    | Success count => ret (mkDocumentSearchResultPage results count, None)
    end.
End Decoder.

End DocumentExecute.

(* ------------------------------------------------------------------ *)
(** ** User update: the row written and the unlock answer *)
(* ------------------------------------------------------------------ *)

Module UserStoreShape.
Import Json Errors Effects UserStore.

(** The SET clause of the UPDATE that [updateUser] issues for a request:
    the fields of the request that are not zero, among email, first name,
    last name and metadata. *)
Definition updateColumns (user : UpdateUserRequest)
  : list (string * columnValue) :=
  setClause (mkUserSchema 0 EmptyString (Email user) (FirstName user)
                          (LastName user) (Metadata user)).

(** The same store with another answer to the unlock statement. *)
Definition withUnlock (unlock : Z -> result unit) (dao : UserStoreDAO)
  : UserStoreDAO :=
  mkUserStoreDAO (pgAdvisoryLock dao) unlock (selectMetadata dao)
                 (execUpdate dao) (scanUser dao).

End UserStoreShape.

(* ------------------------------------------------------------------ *)
(** ** pkg/server/apihandlers/message_handlers.go: the message list handler *)
(* ------------------------------------------------------------------ *)

Module MessageHandlers.
Import Json Errors Effects.
#[local] Open Scope go_scope.

Definition StatusBadRequest : Z := 400.
Definition StatusInternalServerError : Z := 500.

(** The request as the handler reads it: the route parameters and the
    query values, each absent one read as the empty string. *)
Record Request : Type := mkRequest {
  urlParams : list (string * string);
  queryValues : list (string * string)
}.

Definition URLParam (r : Request) (name : string) : string :=
  match lookup name (urlParams r) with Some v => v | None => EmptyString end.

Definition QueryGet (r : Request) (name : string) : string :=
  match lookup name (queryValues r) with Some v => v | None => EmptyString end.

(** [models.AppState] as this handler uses it: the list operation of the
    memory store, with the page it answers left abstract. *)
Record AppState (Page : Type) : Type := mkAppState {
  GetMessageList : string -> Z -> Z -> result Page
}.
Arguments GetMessageList {Page} _ _ _ _.

(** What the handler does to the outside: the store call and the two ways
    of writing a response. *)
Inductive event (Page : Type) : Type :=
| GetMessageListCall (sessionID : string) (pageNumber pageSize : Z)
| RenderErrorCall (err : error) (status : Z)
| EncodeJSONCall (body : Page).
Arguments GetMessageListCall {Page} _ _ _.
Arguments RenderErrorCall {Page} _ _.
Arguments EncodeJSONCall {Page} _.

Section Handler.
Variable Page : Type.
(** [strconv.Atoi], and the error [handlertools.EncodeJSON] answers, if any. *)
Variable Atoi : string -> result Z.
Variable EncodeJSON : Page -> option error.

Definition RenderError (err : error) (status : Z) : M (event Page) unit :=
  emit (RenderErrorCall err status).

Definition GetMessagesForSessionHandler (appState : AppState Page)
           (r : Request) : M (event Page) unit :=
  let sessionID := URLParam r "sessionId" in
  let pageSizeStr := QueryGet r "pageSize" in
  let pageNumberStr := QueryGet r "pageNumber" in
  let pageSize := 10 in
  let pageNumber := 0 in
  match (if negb (String.eqb pageSizeStr EmptyString)
         then Atoi pageSizeStr else Success pageSize) with
  | Failure _ =>
      RenderError (ErrorsNew "invalid page size number") StatusBadRequest
  | Success pageSize =>
      match (if negb (String.eqb pageNumberStr EmptyString)
             then Atoi pageNumberStr else Success pageNumber) with
      | Failure _ =>
          RenderError (ErrorsNew "invalid page number") StatusBadRequest
      | Success pageNumber =>
          _ <- emit (GetMessageListCall sessionID pageNumber pageSize) ;;
          match GetMessageList appState sessionID pageNumber pageSize with
          | Failure err => RenderError err StatusInternalServerError
          | Success messages =>
              _ <- emit (EncodeJSONCall messages) ;;
              match EncodeJSON messages with
              | Some err => RenderError err StatusInternalServerError
              | None => ret tt
              end
          end
      end
  end.

(** The value a paging parameter takes: its default when the query has
    none, else what [Atoi] makes of it. *)
Definition pagingValue (text : string) (default : Z) : result Z :=
  if String.eqb text EmptyString then Success default else Atoi text.
End Handler.

End MessageHandlers.

(* ------------------------------------------------------------------ *)
(** ** Further concrete inputs: failing collaborators, dates, paging *)
(* ------------------------------------------------------------------ *)

Module Scenarios.
Import Json Errors Pgvector Bun Effects Examples.

(** *** Predicate trees *)
(** A leaf whose path has single quotes in it. *)
Definition quotedLeaf : MemoryStore.JSONQuery := leaf "$.name ? (@ == 'bob')".

(** An Or list whose children have no leaf of their own. *)
Definition leaflessOrTree : MemoryStore.JSONQuery :=
  MemoryStore.mkJSONQuery EmptyString []
    [MemoryStore.mkJSONQuery EmptyString [leaf "$.a"] [];
     MemoryStore.mkJSONQuery EmptyString [leaf "$.b"] []].

(** (a or b) and (a or c) *)
Definition clauses : list (list string) := [["$.a"; "$.b"]; ["$.a"; "$.c"]].

(** *** Message search *)
(** A store that reads a date as a number on the scale of [created_at]. *)
Definition notBefore (t : Z) (d : value) : bool :=
  match d with VNumber n => n <=? t | _ => false end.

Definition notAfter (t : Z) (d : value) : bool :=
  match d with VNumber n => t <=? n | _ => false end.

Definition datedQuery : MemoryStore.MemorySearchPayload :=
  MemoryStore.mkMemorySearchPayload "hello"
    [("start_date", VNumber 50); ("end_date", VNumber 150)].

(** The query of the first scan among the calls, if there is one. *)
Fixpoint scannedQuery (t : list MemoryStore.event) : SelectQuery :=
  match t with
  | [] => NewSelect
  | MemoryStore.ScanCall q :: _ => q
  | _ :: t' => scannedQuery t'
  end.

Definition datedScan : SelectQuery :=
  scannedQuery (issued (MemoryStore.searchMessages
                          jsonMarshal jsonUnmarshal (Some appState) messageDB
                          "s1" (Some datedQuery) 0)).

Definition textScan : SelectQuery :=
  scannedQuery (issued (MemoryStore.searchMessages
                          jsonMarshal jsonUnmarshal (Some appState) messageDB
                          "s1" (Some textQuery) 0)).

Definition metadataScan : SelectQuery :=
  scannedQuery (issued (MemoryStore.searchMessages
                          jsonMarshal jsonUnmarshal (Some appState) messageDB
                          "s1" (Some metadataQuery) 0)).

(** A decoder that rejects every document, and an embedding provider that
    cannot be reached. *)
Definition brokenUnmarshal (_ : string) : result MemoryStore.JSONQuery :=
  Failure (ErrorsNew "unexpected end of JSON input").

Definition offlineAppState : MemoryStore.AppState :=
  MemoryStore.mkAppState (Success "embedder")
    (fun _ _ => Failure (ErrorsNew "connection refused")).

(** *** Document search *)
Definition indexedDocs : DocumentSearch.DocumentCollection :=
  DocumentSearch.mkDocumentCollection "docstore_docs_1536" true 10.

Definition indexedSearch : DocumentSearch.documentSearchOperation :=
  DocumentSearch.newDocumentSearchOperation docAppState docDB textPayload
                                            indexedDocs 5 false.

(** A database that refuses the probes setting, and one with no rows. *)
Definition noSettingsDB : DocumentSearch.DB :=
  DocumentSearch.mkDB (fun _ _ => Failure (ErrorsNew "permission denied"))
    (fun _ => Success ([DocumentSearch.mkDocumentSearchResult "doc" 0.5%float], 1)).

Definition emptyDocDB : DocumentSearch.DB :=
  DocumentSearch.mkDB (fun _ _ => Success tt) (fun _ => Success ([], 0)).

Definition refusedSearch : DocumentSearch.documentSearchOperation :=
  DocumentSearch.newDocumentSearchOperation docAppState noSettingsDB
                                            textPayload indexedDocs 5 false.

Definition emptySearch : DocumentSearch.documentSearchOperation :=
  DocumentSearch.newDocumentSearchOperation docAppState emptyDocDB
                                            textPayload docs 5 false.

Definition tx : DocumentExecute.TxAnswers :=
  DocumentExecute.mkTxAnswers (Success tt) (Success tt) (Success tt).

Definition builtTextSearch : SelectQuery :=
  match returned (DocumentSearch.buildQuery jsonMarshal jsonUnmarshal
                                            plainSearch) with
  | Some (Success q, _) => q
  | _ => NewSelect
  end.

(** [plainSearch] once its query vector is kept. *)
Definition plainSearchDone : DocumentSearch.documentSearchOperation :=
  DocumentSearch.setQueryVector unitVector plainSearch.

(** *** User update *)
(** A store that refuses the advisory lock, and one that has no such user. *)
Definition lockedOutDao : UserStore.UserStoreDAO :=
  UserStore.mkUserStoreDAO
    (fun _ => Failure (ErrorsNew "lock timeout"))
    (fun _ => Success tt)
    (fun _ _ _ => Success (Some storedMetadata))
    (fun _ _ => Success 1)
    (fun _ => Success (Some storedUser)).

Definition noUserDao : UserStore.UserStoreDAO :=
  UserStore.mkUserStoreDAO
    (fun _ => Success 42)
    (fun _ => Success tt)
    (fun _ _ _ => Success None)
    (fun _ _ => Success 0)
    (fun _ => Success None).

(** The row a metadata update of the examples writes after the merge. *)
Definition mergedRow : list (string * UserStore.columnValue) :=
  UserStoreShape.updateColumns
    (UserStore.setMetadata
       (Merge.deepMerge false storedMetadata updateMetadata) metadataUpdate).

(** *** Message list handler *)
(** [strconv.Atoi] on unsigned decimal strings; anything else is a syntax
    error. *)
Definition digitOf (c : ascii) : option Z :=
  let n := Z.of_nat (nat_of_ascii c) in
  if (48 <=? n) && (n <=? 57) then Some (n - 48) else None.

Fixpoint digits (s : string) (acc : Z) : result Z :=
  match s with
  | EmptyString => Success acc
  | String c s' =>
      match digitOf c with
      | Some d => digits s' (10 * acc + d)
      | None => Failure (ErrorsNew "invalid syntax")
      end
  end.

Definition atoi (s : string) : result Z :=
  if String.eqb s EmptyString then Failure (ErrorsNew "invalid syntax")
  else digits s 0.

Definition encodeJSON (_ : list string) : option error := None.

Definition listAppState : MessageHandlers.AppState (list string) :=
  MessageHandlers.mkAppState (list string) (fun _ _ _ => Success ["hello"]).

Definition pagedRequest : MessageHandlers.Request :=
  MessageHandlers.mkRequest [("sessionId", "s1")]
                            [("pageSize", "25"); ("pageNumber", "2")].

Definition badSizeRequest : MessageHandlers.Request :=
  MessageHandlers.mkRequest [("sessionId", "s1")] [("pageSize", "many")].

Definition badNumberRequest : MessageHandlers.Request :=
  MessageHandlers.mkRequest [("sessionId", "s1")]
                            [("pageSize", "25"); ("pageNumber", "-")].

End Scenarios.

(* ================================================================== *)
(** * Properties *)
(* ================================================================== *)

(* ------------------------------------------------------------------ *)
(** ** WHERE lists under SQL precedence *)
(* ------------------------------------------------------------------ *)

Module BunFacts.
Import Json Bun.

Lemma setWhere_id q : setWhere (qWhere q) q = q.
Proof. destruct q; reflexivity. Qed.

Lemma setWhere_setWhere a b q : setWhere a (setWhere b q) = setWhere a q.
Proof. reflexivity. Qed.

Lemma qWhere_setWhere a q : qWhere (setWhere a q) = a.
Proof. reflexivity. Qed.

Lemma addWhereGroup_items s g q :
  addWhereGroup s g q
  = setWhere (qWhere q ++ match g with [] => [] | _ :: _ => [WGroup s g] end) q.
Proof.
  destruct g; cbn; [|reflexivity].
  rewrite app_nil_r. symmetry; apply setWhere_id.
Qed.

(** A number that fits 32 bits is kept as it is. *)
Lemma int32_fits n : - 2 ^ 31 <= n < 2 ^ 31 -> int32 n = n.
Proof.
  intros H. unfold int32. rewrite Z.mod_small; lia.
Qed.

Lemma len_pos {A : Type} (l : list A) :
  (0 <? len l) = match l with [] => false | _ :: _ => true end.
Proof. destruct l; reflexivity. Qed.

Lemma Forall_tl {A : Type} (P : A -> Prop) l : Forall P l -> Forall P (tl l).
Proof. destruct 1; [constructor | assumption]. Qed.

(** A run of AND items folds into the conjunct being built. *)
Lemma evalChain_and_app l : Forall andSep l ->
  forall tail cur acc,
    evalChain cur acc (l ++ tail) = evalChain (cur && forallb snd l) acc tail.
Proof.
  induction 1 as [|[s v] l Hs Hl IH]; intros tail cur acc; cbn.
  - now rewrite andb_true_r.
  - unfold andSep in Hs; cbn in Hs; subst s. rewrite IH. now rewrite andb_assoc.
Qed.

Lemma evalChain_all_and l : Forall andSep l ->
  forall cur acc, evalChain cur acc l = acc || (cur && forallb snd l).
Proof.
  intros H cur acc. rewrite <- (app_nil_r l) at 1.
  rewrite evalChain_and_app by assumption. reflexivity.
Qed.

(** A list joined by ANDs only is the conjunction of its items; the
    separator of the first item does not count. *)
Lemma evalSeq_all_and l : Forall andSep (tl l) -> evalSeq l = forallb snd l.
Proof.
  destruct l as [|[s v] l]; cbn; intros H; [reflexivity|].
  now rewrite evalChain_all_and.
Qed.

(** Runs that each open with OR add up to a disjunction of conjunctions. *)
Lemma evalChain_or_chunks chunks : Forall orChunk chunks ->
  forall cur acc,
    evalChain cur acc (List.concat chunks)
    = acc || cur || existsb (forallb snd) chunks.
Proof.
  induction 1 as [|ch chunks (v & rest & -> & Hrest) Hchunks IH];
    intros cur acc; cbn.
  - now rewrite orb_false_r.
  - rewrite evalChain_and_app by assumption. rewrite IH.
    now rewrite !orb_assoc.
Qed.

Lemma evalSeq_or_chunks ch chunks :
  Forall andSep (tl ch) -> ch <> [] -> Forall orChunk chunks ->
  evalSeq (List.concat (ch :: chunks)) = existsb (forallb snd) (ch :: chunks).
Proof.
  intros Hch Hne Hchunks. destruct ch as [|[s v] rest]; [congruence|].
  cbn in *. rewrite evalChain_and_app by assumption.
  rewrite evalChain_or_chunks by assumption. reflexivity.
Qed.

Section Rows.
Variable Row : Type.
Variable holds : cond -> Row -> bool.
Variable deleted : Row -> bool.

Lemma chainOf_app r a b :
  chainOf Row holds r (a ++ b) = chainOf Row holds r a ++ chainOf Row holds r b.
Proof. apply map_app. Qed.

Lemma chainOf_concat r ls :
  chainOf Row holds r (List.concat ls)
  = List.concat (map (chainOf Row holds r) ls).
Proof. unfold chainOf. apply concat_map. Qed.

Lemma chainOf_topLevelAnd r items :
  topLevelAnd items -> Forall andSep (chainOf Row holds r items).
Proof.
  unfold topLevelAnd, chainOf. intros H. apply Forall_map.
  eapply Forall_impl; [|exact H]. intros w Hw. exact Hw.
Qed.

Lemma softDeleteChain_and q r :
  Forall andSep (softDeleteChain Row deleted q r).
Proof.
  unfold softDeleteChain. destruct (qModel q) as [m|]; [|constructor].
  destruct (softDelete m); repeat constructor.
Qed.

(** When the WHERE list is joined by ANDs at its top level, a selected
    row satisfies every top-level item, and the model's soft-delete
    default when it has one. *)
Lemma selects_topLevelAnd q r :
  topLevelAnd (qWhere q) ->
  selects Row holds deleted q r
  = forallb (evalItem Row holds r) (qWhere q)
    && forallb snd (softDeleteChain Row deleted q r).
Proof.
  intros H. unfold selects. rewrite evalSeq_all_and.
  - rewrite forallb_app. f_equal. unfold chainOf. clear H.
    generalize (qWhere q). intros ws.
    induction ws as [|w ws IH]; cbn; [reflexivity|]. now rewrite IH.
  - apply Forall_tl, Forall_app. split.
    + now apply chainOf_topLevelAnd.
    + apply softDeleteChain_and.
Qed.
End Rows.

End BunFacts.

(* ------------------------------------------------------------------ *)
(** ** The predicate compiler: [parseJSONQuery] *)
(* ------------------------------------------------------------------ *)

Module PredicateFacts.
Import Json Bun MemoryStore Predicate BunFacts.

(** Induction over a tree and, with it, over the children of each node. *)
Lemma JSONQuery_nested_ind (P : JSONQuery -> Prop) :
  (forall path ands ors, Forall P ands -> Forall P ors ->
                         P (mkJSONQuery path ands ors)) ->
  forall jq, P jq.
Proof.
  intros step. fix self 1. intros [path ands ors]. apply step.
  - induction ands as [|c cs IH]; constructor; [apply self | exact IH].
  - induction ors as [|c cs IH]; constructor; [apply self | exact IH].
Qed.

Lemma fold_parse (b : bool) (l : list JSONQuery) :
  Forall appendsItems l ->
  forall qq,
    fold_left (fun qq sub => parseJSONQuery qq sub b) l qq
    = setWhere (qWhere qq ++ List.concat (map (fun c => itemsOf c b) l)) qq.
Proof.
  induction 1 as [|c cs Hc Hcs IH]; intros qq; cbn.
  - rewrite app_nil_r. symmetry; apply setWhere_id.
  - rewrite Hc, IH. rewrite setWhere_setWhere, qWhere_setWhere.
    now rewrite <- app_assoc.
Qed.

Lemma whereGroup_fold (b : bool) (l : list JSONQuery) :
  Forall appendsItems l ->
  forall q,
    (if 0 <? len l
     then WhereGroup SepAnd
            (fun qq => fold_left (fun qq sub => parseJSONQuery qq sub b) l qq) q
     else q)
    = setWhere
        (qWhere q ++ wrapGroup (List.concat (map (fun c => itemsOf c b) l))) q.
Proof.
  intros H q. rewrite len_pos. destruct l as [|c cs].
  - cbn. rewrite app_nil_r. symmetry; apply setWhere_id.
  - unfold WhereGroup. rewrite (fold_parse b _ H).
    rewrite addWhereGroup_items. rewrite !setWhere_setWhere, !qWhere_setWhere.
    reflexivity.
Qed.

(** [parseJSONQuery] touches nothing but the WHERE list, and appends to it
    exactly the items of the tree. *)
Lemma parse_items : forall jq, appendsItems jq.
Proof.
  induction jq as [path ands ors Ha Ho] using JSONQuery_nested_ind.
  intros qb isOr.
  cbn [parseJSONQuery itemsOf JSONPath And Or].
  set (q1 := if negb (path =? EmptyString)%string then _ else qb).
  assert (E1 : q1 = setWhere
                      (qWhere qb ++ leafItems (mkJSONQuery path ands ors) isOr) qb).
  { unfold q1, leafItems; cbn [JSONPath].
    destruct (negb (path =? EmptyString)%string).
    - destruct isOr; reflexivity.
    - rewrite app_nil_r. symmetry; apply setWhere_id. }
  rewrite (whereGroup_fold false ands Ha q1).
  rewrite (whereGroup_fold true ors Ho).
  rewrite E1. rewrite !setWhere_setWhere, !qWhere_setWhere.
  rewrite <- !app_assoc. reflexivity.
Qed.

Lemma compile_items jq isOr : compile jq isOr = itemsOf jq isOr.
Proof. unfold compile. rewrite parse_items. reflexivity. Qed.

Lemma groupOf_items l b :
  groupOf l b = List.concat (map (fun c => itemsOf c b) l).
Proof.
  unfold groupOf. rewrite fold_parse.
  - reflexivity.
  - apply Forall_forall. intros c _. apply parse_items.
Qed.

Lemma itemsOf_split jq b : itemsOf jq b = leafItems jq b ++ restItems jq.
Proof. destruct jq; reflexivity. Qed.

Lemma wrapGroup_topLevelAnd g : topLevelAnd (wrapGroup g).
Proof. destruct g; repeat constructor. Qed.

Lemma restItems_topLevelAnd jq : topLevelAnd (restItems jq).
Proof. apply Forall_app; split; apply wrapGroup_topLevelAnd. Qed.

(** With [isOr] false every item a tree appends is joined with AND. *)
Lemma itemsOf_false_topLevelAnd jq : topLevelAnd (itemsOf jq false).
Proof.
  rewrite itemsOf_split. apply Forall_app; split.
  - unfold leafItems. destruct (negb _); repeat constructor.
  - apply restItems_topLevelAnd.
Qed.

Section Sem.
Variable Row : Type.
Variable holds : cond -> Row -> bool.
Notation evalItem := (Bun.evalItem Row holds).
Notation chainOf := (Bun.chainOf Row holds).
Notation evalWhere := (Bun.evalWhere Row holds).
Notation matches := (Predicate.matches Row holds).
Notation leafHolds := (Predicate.leafHolds Row holds).

Lemma itemsOf_tail_and r jq b : Forall andSep (tl (chainOf r (itemsOf jq b))).
Proof.
  rewrite itemsOf_split, chainOf_app. unfold leafItems.
  destruct (negb _); cbn.
  - apply chainOf_topLevelAnd, restItems_topLevelAnd.
  - apply Forall_tl, chainOf_topLevelAnd, restItems_topLevelAnd.
Qed.

(** The leaf's separator is the only thing [isOr] changes. *)
Lemma forallb_chain_any_sep r jq b :
  forallb snd (chainOf r (itemsOf jq b))
  = forallb snd (chainOf r (itemsOf jq false)).
Proof.
  rewrite !itemsOf_split, !chainOf_app, !forallb_app. f_equal.
  unfold leafItems. destruct (negb _); reflexivity.
Qed.

Lemma matches_forallb r jq :
  matches r jq = forallb snd (chainOf r (itemsOf jq false)).
Proof.
  unfold Predicate.matches, Bun.evalWhere. rewrite compile_items.
  apply evalSeq_all_and, itemsOf_tail_and.
Qed.

Lemma evalWhere_wrapGroup r g :
  forallb snd (chainOf r (wrapGroup g)) = evalWhere r g.
Proof. destruct g; cbn; [reflexivity|]. now rewrite andb_true_r. Qed.

Lemma leafItems_val r jq :
  forallb snd (chainOf r (leafItems jq false)) = leafHolds r jq.
Proof.
  unfold leafItems, Predicate.leafHolds.
  destruct (JSONPath jq =? EmptyString)%string; cbn; [reflexivity|].
  now rewrite andb_true_r.
Qed.

(** A node is its leaf, its And group and its Or group, conjoined. *)
Lemma matches_node r jq :
  matches r jq
  = leafHolds r jq && evalWhere r (groupOf (And jq) false)
    && evalWhere r (groupOf (Or jq) true).
Proof.
  rewrite matches_forallb, itemsOf_split, chainOf_app, forallb_app.
  unfold restItems. rewrite chainOf_app, forallb_app.
  rewrite !evalWhere_wrapGroup, leafItems_val, !groupOf_items.
  now rewrite andb_assoc.
Qed.

(** The And group selects what every child selects. *)
Lemma and_group_forallb r l :
  evalWhere r (groupOf l false) = forallb (matches r) l.
Proof.
  rewrite groupOf_items. unfold Bun.evalWhere.
  rewrite evalSeq_all_and.
  - rewrite chainOf_concat, map_map.
    induction l as [|c cs IH]; cbn; [reflexivity|].
    rewrite forallb_app, IH, matches_forallb. reflexivity.
  - apply Forall_tl. rewrite chainOf_concat, map_map.
    apply Forall_concat. apply Forall_forall. intros x Hx.
    apply in_map_iff in Hx as (c & <- & _).
    apply chainOf_topLevelAnd, itemsOf_false_topLevelAnd.
Qed.

Lemma itemsOf_true_orChunk r c :
  hasLeaf c -> orChunk (chainOf r (itemsOf c true)).
Proof.
  intros H. rewrite itemsOf_split, chainOf_app. unfold leafItems.
  destruct (String.eqb_spec (JSONPath c) EmptyString); [contradiction|]. cbn.
  eexists _, _. split; [reflexivity|].
  apply chainOf_topLevelAnd, restItems_topLevelAnd.
Qed.

(** The Or group selects what some child selects, when every child
    brings a leaf for the OR to attach to. *)
Lemma or_group_existsb r l : l <> [] -> Forall hasLeaf l ->
  evalWhere r (groupOf l true) = existsb (matches r) l.
Proof.
  intros Hne Hl. rewrite groupOf_items. unfold Bun.evalWhere.
  rewrite chainOf_concat, map_map.
  destruct l as [|c cs]; [congruence|]. inversion Hl as [|? ? Hc Hcs]; subst.
  cbn [map]. rewrite evalSeq_or_chunks.
  - cbn [existsb]. f_equal.
    + rewrite forallb_chain_any_sep. symmetry; apply matches_forallb.
    + clear -Hcs. induction cs as [|d ds IH]; cbn; [reflexivity|].
      inversion Hcs; subst. rewrite IH by assumption.
      rewrite forallb_chain_any_sep, matches_forallb. reflexivity.
  - apply itemsOf_tail_and.
  - destruct (itemsOf_true_orChunk r c Hc) as (v & rest & E & _).
    rewrite E. discriminate.
  - apply Forall_map. eapply Forall_impl; [|exact Hcs].
    intros d Hd. now apply itemsOf_true_orChunk.
Qed.

End Sem.



End PredicateFacts.

(* ------------------------------------------------------------------ *)
(** ** Message search: [searchMessages] *)
(* ------------------------------------------------------------------ *)

Module MemoryStoreFacts.
Import Json Errors Pgvector Bun Effects BunFacts PredicateFacts MemoryStore.

Lemma extends_refl q : extends q q.
Proof.
  exists []. split; [constructor|].
  rewrite app_nil_r. symmetry; apply setWhere_id.
Qed.

Lemma extends_trans a b c : extends a b -> extends b c -> extends a c.
Proof.
  intros (i1 & H1 & ->) (i2 & H2 & ->). exists (i1 ++ i2). split.
  - now apply Forall_app.
  - rewrite setWhere_setWhere, qWhere_setWhere. now rewrite app_assoc.
Qed.

Lemma extends_Where q c : extends q (Where c q).
Proof. exists [WCond SepAnd c]. split; [repeat constructor|reflexivity]. Qed.

Lemma extends_shape q0 q1 :
  extends q0 q1 -> messageQueryShape q0 -> messageQueryShape q1.
Proof.
  intros (items & Hi & ->) (Hw & Hm & Ho). repeat split; cbn; try assumption.
  now apply Forall_app.
Qed.

Lemma extends_columns q0 q1 : extends q0 q1 -> qColumns q1 = qColumns q0.
Proof. now intros (items & _ & ->). Qed.

(** The embedding step scans nothing, and what it adds is the column
    [embedding <#> ? AS dist]. *)
Lemma addMessagesVectorColumn_spec a q text :
  noScan (issued (addMessagesVectorColumn a q text))
  /\ forall q', returned (addMessagesVectorColumn a q text) = Some (Success q') ->
       exists v, q' = ColumnExpr (ColumnDist (EOp OpNegInnerProduct v)) q.
Proof.
  unfold addMessagesVectorColumn.
  destruct (GetMessageEmbeddingModel a) as [model|]; cbn.
  - destruct (EmbedTexts a model [text]) as [[|e0 e]|]; cbn;
      (split; [intros q0 [H|[]]; discriminate|]); intros q' H; try discriminate.
    injection H as <-. now exists e0.
  - split; [intros q0 []|discriminate].
Qed.

Lemma buildMessagesSelectQuery_spec a query :
  noScan (issued (buildMessagesSelectQuery a query))
  /\ forall q, returned (buildMessagesSelectQuery a query) = Some (Some q) ->
       messageQueryShape q
       /\ (Text query = EmptyString -> distColumn q = None)
       /\ (Text query <> EmptyString ->
           exists v, distColumn q = Some (EOp OpNegInnerProduct v)).
Proof.
  unfold buildMessagesSelectQuery.
  destruct (String.eqb_spec (Text query) EmptyString) as [E|E]; cbn [negb].
  - split; [intros q []|]. intros q H; injection H as <-.
    repeat split; try reflexivity; try constructor. intros; contradiction.
  - match goal with |- context [addMessagesVectorColumn a ?b ?t] =>
      destruct (addMessagesVectorColumn_spec a b t) as [Hno Hret];
      destruct (addMessagesVectorColumn a b t) as [[[q1|err]|] tr] end; cbn in *.
    + rewrite app_nil_r. split; [exact Hno|]. intros q H; injection H as <-.
      destruct (Hret q1 eq_refl) as (v & ->).
      repeat split; try reflexivity; try constructor; [intros; contradiction|].
      intros _. now exists v.
    + rewrite app_nil_r. split; [exact Hno|]. discriminate.
    + split; [exact Hno|]. discriminate.
Qed.

Lemma parseJSONQueryPtr_step p jq : pointerStep p (parseJSONQueryPtr p jq false).
Proof.
  unfold parseJSONQueryPtr. destruct p as [q0|]; cbn.
  - split; [reflexivity|]. intros p' H; injection H as <-.
    exists (Predicate.itemsOf jq false).
    split; [apply itemsOf_false_topLevelAnd | apply parse_items].
  - destruct (_ || _); cbn; (split; [reflexivity|]); intros p' H; [discriminate|].
    now injection H as <-.
Qed.

Lemma addMessageDateFilters_step p m :
  pointerStep p (@addMessageDateFilters event p m).
Proof.
  unfold addMessageDateFilters.
  destruct p as [q0|];
    destruct (lookup "start_date" m), (lookup "end_date" m); cbn;
    (split; [reflexivity|]); intros p' H; try discriminate; injection H as <-;
    try exact I; try apply extends_refl; try apply extends_Where.
  eapply extends_trans; apply extends_Where.
Qed.

Section Decoder.
Variable jm : value -> result string.
Variable ju : string -> result JSONQuery.

(** The metadata filter issues no call; on success it has only added
    AND-joined items. *)
Lemma applyMessagesMetadataFilter_spec p md :
  issued (applyMessagesMetadataFilter jm ju p md) = []
  /\ forall p',
      returned (applyMessagesMetadataFilter jm ju p md) = Some (Success p') ->
      match p, p' with
      | Some q0, Some q1 => extends q0 q1
      | None, None => True
      | _, _ => False
      end.
Proof.
  unfold applyMessagesMetadataFilter.
  destruct (lookup "where" md) as [w|].
  - destruct (jm w) as [j|]; [|split; [reflexivity|discriminate]].
    destruct (ju j) as [jq|]; [|split; [reflexivity|discriminate]].
    destruct (parseJSONQueryPtr_step p jq) as [Ht Hr].
    destruct (@parseJSONQueryPtr event p jq false) as [[p1|] t1];
      cbn in *; subst t1.
    + destruct (addMessageDateFilters_step p1 md) as [Ht2 Hr2].
      destruct (@addMessageDateFilters event p1 md) as [[p2|] t2];
        cbn in *; subst t2.
      * split; [reflexivity|]. intros p' H; injection H as <-.
        specialize (Hr _ eq_refl). specialize (Hr2 _ eq_refl).
        destruct p as [q0|], p1 as [q1|], p2 as [q2|];
          try contradiction; try exact I.
        eapply extends_trans; eassumption.
      * split; [reflexivity|discriminate].
    + split; [reflexivity|discriminate].
  - destruct (addMessageDateFilters_step p md) as [Ht2 Hr2].
    destruct (@addMessageDateFilters event p md) as [[p2|] t2];
      cbn in *; subst t2.
    + split; [reflexivity|]. intros p' H; injection H as <-. now apply Hr2.
    + split; [reflexivity|discriminate].
Qed.

(** Every way through [searchMessages] for a query that passes the nil
    checks: which query a scan is issued for, where returned rows come
    from, and which calls bring the empty-query error. *)
Lemma searchMessages_spec a db sid query limit :
  (forall dbq,
      In (ScanCall dbq)
         (issued (searchMessages jm ju (Some a) db sid (Some query) limit)) ->
      exists q1, messageQueryShape q1
        /\ (Text query = EmptyString -> distColumn q1 = None)
        /\ (Text query <> EmptyString ->
            exists v, distColumn q1 = Some (EOp OpNegInnerProduct v))
        /\ dbq = issuedQuery sid query limit q1)
  /\ (forall rows,
        returned (searchMessages jm ju (Some a) db sid (Some query) limit)
        = Some (Success rows) ->
        exists results,
          rows = filterValidMessageSearchResults results (Metadata query))
  /\ (String.eqb (Text query) EmptyString && (len (Metadata query) =? 0) = false ->
      returned (searchMessages jm ju (Some a) db sid (Some query) limit)
      <> Some (Failure emptyQueryError)).
Proof.
  unfold searchMessages.
  destruct (_ && _).
  { split; [intros dbq []|split; discriminate]. }
  destruct (buildMessagesSelectQuery_spec a query) as [Hno Hb].
  destruct (buildMessagesSelectQuery a query) as [[p0|] t0]; cbn in Hno, Hb;
    cbn [bind];
    [|split; [intros dbq H; now apply Hno in H|split; discriminate]].
  assert (Hstep : exists r,
    (if 0 <? len (Metadata query)
     then applyMessagesMetadataFilter jm ju p0 (Metadata query)
     else ret (Success p0)) = (r, [])
    /\ forall p', r = Some (Success p') ->
         match p0, p' with
         | Some q0, Some q1 => extends q0 q1
         | None, None => True
         | _, _ => False
         end).
  { destruct (0 <? len (Metadata query)).
    - destruct (applyMessagesMetadataFilter_spec p0 (Metadata query)) as [Ht Hr].
      destruct (applyMessagesMetadataFilter jm ju p0 (Metadata query)) as [r t];
        cbn in *; subst t.
      exists r. split; [reflexivity|exact Hr].
    - eexists. split; [reflexivity|]. intros p' H; injection H as <-.
      destruct p0; [apply extends_refl|exact I]. }
  destruct Hstep as (r & -> & Hr). cbn [bind].
  destruct r as [[[q1|]|err]|]; cbn; rewrite ?app_nil_r.
  - specialize (Hr _ eq_refl). destruct p0 as [q0|]; [|contradiction].
    destruct (Hb q0 eq_refl) as (Hshape & Hd0 & Hd1).
    assert (Hscan : forall dbq,
               In (ScanCall dbq) (t0 ++ [ScanCall (issuedQuery sid query limit q1)]) ->
               exists q2, messageQueryShape q2
                 /\ (Text query = EmptyString -> distColumn q2 = None)
                 /\ (Text query <> EmptyString ->
                     exists v, distColumn q2 = Some (EOp OpNegInnerProduct v))
                 /\ dbq = issuedQuery sid query limit q2).
    { intros dbq H. apply in_app_or in H as [H|[H|[]]]; [now apply Hno in H|].
      injection H as <-. exists q1. split; [eapply extends_shape; eassumption|].
      unfold distColumn in *. rewrite (extends_columns _ _ Hr).
      repeat split; auto. }
    destruct (Scan db _) as [results|err] eqn:Escan; cbn; rewrite ?app_nil_r.
    + split; [exact Hscan|]. split; [|discriminate].
      intros rows H; injection H as <-. now exists results.
    + split; [exact Hscan|]. split; discriminate.
  - split; [|split; discriminate]. intros dbq H. now apply Hno in H.
  - split; [|split; discriminate]. intros dbq H. now apply Hno in H.
  - split; [|split; discriminate]. intros dbq H. now apply Hno in H.
Qed.

(** With text and an embedding for it, the query is built over the
    [dist] column of that embedding, after the one embedding call. *)
Lemma buildMessagesSelectQuery_with_text a query e0 :
  Text query <> EmptyString -> embedsTo a (Text query) e0 ->
  exists model q0,
    buildMessagesSelectQuery a query
    = (Some (Some q0), [EmbedTextsCall model [Text query]])
    /\ messageQueryShape q0
    /\ distColumn q0 = Some (EOp OpNegInnerProduct e0).
Proof.
  intros Ht (model & rest & Hm & He).
  unfold buildMessagesSelectQuery, addMessagesVectorColumn.
  apply String.eqb_neq in Ht. rewrite Ht, Hm. cbn. rewrite He. cbn.
  exists model. eexists. split; [reflexivity|].
  repeat split; constructor.
Qed.

Lemma buildMessagesSelectQuery_without_text a query :
  Text query = EmptyString ->
  exists q0,
    buildMessagesSelectQuery a query = (Some (Some q0), [])
    /\ messageQueryShape q0 /\ distColumn q0 = None.
Proof.
  intros Ht. unfold buildMessagesSelectQuery. rewrite Ht. cbn.
  eexists. split; [reflexivity|]. repeat split; constructor.
Qed.

(** A metadata filter whose [where] value decodes succeeds on a builder
    that is not nil. *)
Lemma applyMessagesMetadataFilter_decodes q0 md :
  decodes jm ju md ->
  exists q1,
    applyMessagesMetadataFilter jm ju (Some q0) md
    = (Some (Success (Some q1)), [])
    /\ extends q0 q1.
Proof.
  intros Hd.
  destruct (applyMessagesMetadataFilter_spec (Some q0) md) as [Ht Hr].
  assert (Hret : exists q1, returned (applyMessagesMetadataFilter jm ju (Some q0) md)
                            = Some (Success (Some q1))).
  { unfold applyMessagesMetadataFilter, decodes in *.
    destruct (lookup "where" md) as [w|].
    - destruct Hd as (j & jq & -> & ->). cbn.
      unfold addMessageDateFilters.
      destruct (lookup "start_date" md), (lookup "end_date" md); cbn;
        now eexists.
    - unfold addMessageDateFilters.
      destruct (lookup "start_date" md), (lookup "end_date" md); cbn;
        now eexists. }
  destruct Hret as (q1 & Hq1). exists q1.
  specialize (Hr _ Hq1). split; [|exact Hr].
  destruct (applyMessagesMetadataFilter jm ju (Some q0) md) as [r t];
    cbn in *. now subst.
Qed.

(** A search whose query is built, is not empty and decodes issues its
    scan, last, for the query with session, soft delete, sort and limit
    added. *)
Lemma searchMessages_scans a db sid query limit q0 t0 :
  buildMessagesSelectQuery a query = (Some (Some q0), t0) ->
  String.eqb (Text query) EmptyString && (len (Metadata query) =? 0) = false ->
  decodes jm ju (Metadata query) ->
  exists q1,
    extends q0 q1
    /\ issued (searchMessages jm ju (Some a) db sid (Some query) limit)
       = t0 ++ [ScanCall (issuedQuery sid query limit q1)]
    /\ returned (searchMessages jm ju (Some a) db sid (Some query) limit)
       = Some match Scan db (issuedQuery sid query limit q1) with
              | Success results =>
                  Success (filterValidMessageSearchResults
                             results (Metadata query))
              | Failure err =>
                  Failure (StorageError "memory searchMessages failed"
                                        (Some err))
              end.
Proof.
  intros Hb Hguard Hd. unfold searchMessages. rewrite Hguard, Hb. cbn [bind].
  destruct (0 <? len (Metadata query)).
  - destruct (applyMessagesMetadataFilter_decodes q0 (Metadata query) Hd)
      as (q1 & -> & Hext).
    exists q1. split; [exact Hext|]. cbn. unfold issuedQuery.
    destruct (Scan db _); cbn; rewrite ?app_nil_r; split; reflexivity.
  - exists q0. split; [apply extends_refl|]. cbn. unfold issuedQuery.
    destruct (Scan db _); cbn; rewrite ?app_nil_r; split; reflexivity.
Qed.
End Decoder.

End MemoryStoreFacts.

Module MessageSearchClaims.
Import Json Errors Pgvector Bun Effects MemoryStore MemoryStoreFacts.

Section Decoder.
Variable jm : value -> result string.
Variable ju : string -> result JSONQuery.

(** C5.  A message search whose text is empty and whose metadata map is
    empty fails with the empty-query error and has issued no embedding
    call and no scan (were the application state nil, it fails on that
    check instead, again before any call); when the text or the metadata
    is present, the search does not end in the empty-query error. *)
Theorem empty_query_rejected_before_any_call
        (appState : option AppState) (db : DB) (sessionID : string)
        (query : MemorySearchPayload) (limit : Z) :
  (Text query = EmptyString -> len (Metadata query) = 0 ->
   searchMessages jm ju appState db sessionID (Some query) limit
   = (Some (Failure
              (match appState with
               | Some _ => emptyQueryError
               | None => StorageError "nil query or appState received" None
               end)), []))
  /\ (Text query <> EmptyString \/ 0 < len (Metadata query) ->
      returned (searchMessages jm ju appState db sessionID (Some query) limit)
      <> Some (Failure emptyQueryError)).
Proof.
  split.
  - intros Ht Hm. unfold searchMessages. destruct appState as [a|]; [|reflexivity].
    rewrite Ht, Hm. reflexivity.
  - intros H. destruct appState as [a|]; [|discriminate].
    apply (searchMessages_spec jm ju a db sessionID query limit).
    apply andb_false_iff. destruct H as [H|H].
    + left. now apply String.eqb_neq.
    + right. apply Z.eqb_neq. lia.
Qed.

(** C7.  A row whose distance is NaN passes the result filter exactly when
    the query has metadata, and every row that [searchMessages] returns
    for a query without metadata has a distance that is not NaN. *)
Theorem nan_rows_kept_iff_metadata
        (a : AppState) (db : DB) (sessionID : string)
        (query : MemorySearchPayload) (limit : Z) :
  (forall results r,
      In r results -> IsNaN (Dist r) = true ->
      (In r (filterValidMessageSearchResults results (Metadata query))
       <-> 0 < len (Metadata query)))
  /\ (forall rows,
         returned (searchMessages jm ju (Some a) db sessionID (Some query) limit)
         = Some (Success rows) ->
         len (Metadata query) = 0 ->
         forall r, In r rows -> IsNaN (Dist r) = false).
Proof.
  split.
  - intros results r Hin Hnan. unfold filterValidMessageSearchResults.
    rewrite filter_In, Hnan. cbn. rewrite Z.ltb_lt. tauto.
  - intros rows Hret Hm r Hin.
    destruct (searchMessages_spec jm ju a db sessionID query limit)
      as (_ & Hrows & _).
    destruct (Hrows rows Hret) as (results & ->).
    unfold filterValidMessageSearchResults in Hin.
    apply filter_In in Hin as [_ Hkeep]. rewrite Hm in Hkeep. cbn in Hkeep.
    rewrite orb_false_r in Hkeep. now apply negb_true_iff in Hkeep.
Qed.
End Decoder.

(** C5, witness: the empty query is rejected with nothing issued, and the
    text query of the examples is not. *)
Lemma empty_query_rejected_witness :
  searchMessages Examples.jsonMarshal Examples.jsonUnmarshal
                 (Some Examples.appState) Examples.messageDB "s1"
                 (Some Examples.emptyQuery) 0
  = (Some (Failure emptyQueryError), [])
  /\ returned (searchMessages Examples.jsonMarshal Examples.jsonUnmarshal
                 (Some Examples.appState) Examples.messageDB "s1"
                 (Some Examples.textQuery) 0)
     <> Some (Failure emptyQueryError).
Proof.
  split.
  - apply (empty_query_rejected_before_any_call
             Examples.jsonMarshal Examples.jsonUnmarshal
             (Some Examples.appState) Examples.messageDB "s1"
             Examples.emptyQuery 0); reflexivity.
  - apply (empty_query_rejected_before_any_call
             Examples.jsonMarshal Examples.jsonUnmarshal
             (Some Examples.appState) Examples.messageDB "s1"
             Examples.textQuery 0).
    left. discriminate.
Defined.

(** C7, witness: the store answers a NaN row and a 0.5 row; the text query
    gets the 0.5 row only, the metadata query gets both. *)
Lemma nan_rows_kept_iff_metadata_witness :
  (In Examples.nanResult
      (filterValidMessageSearchResults
         [Examples.nanResult; Examples.halfResult]
         (Metadata Examples.metadataQuery))
   <-> 0 < len (Metadata Examples.metadataQuery))
  /\ (forall r, In r [Examples.halfResult] -> IsNaN (Dist r) = false).
Proof.
  split.
  - apply (nan_rows_kept_iff_metadata
             Examples.jsonMarshal Examples.jsonUnmarshal
             Examples.appState Examples.messageDB "s1"
             Examples.metadataQuery 0); [left|]; reflexivity.
  - apply (proj2 (nan_rows_kept_iff_metadata
             Examples.jsonMarshal Examples.jsonUnmarshal
             Examples.appState Examples.messageDB "s1"
             Examples.textQuery 0)); reflexivity.
Defined.

End MessageSearchClaims.

(* ------------------------------------------------------------------ *)
(** ** Document search: [buildQuery] *)
(* ------------------------------------------------------------------ *)

Module DocumentSearchFacts.
Import Json Errors Pgvector Bun Effects BunFacts PredicateFacts DocumentSearch.

Section Decoder.
Variable jm : value -> result string.
Variable ju : string -> result MemoryStore.JSONQuery.

Lemma applyDocsMetadataFilter_success query md q :
  applyDocsMetadataFilter jm ju query md = Success q -> extends query q.
Proof.
  unfold applyDocsMetadataFilter. intros H.
  destruct (lookup "where" md) as [w|].
  - destruct (jm w) as [j|]; [|discriminate].
    destruct (ju j) as [jq|]; [|discriminate].
    injection H as <-. exists (Predicate.itemsOf jq false). split.
    + apply itemsOf_false_topLevelAnd.
    + apply parse_items.
  - injection H as <-. apply MemoryStoreFacts.extends_refl.
Qed.

Lemma metadataFilter_step query md q :
  (if 0 <? len md then applyDocsMetadataFilter jm ju query md
   else Success query) = Success q ->
  extends query q.
Proof.
  destruct (0 <? len md).
  - apply applyDocsMetadataFilter_success.
  - intros H; injection H as <-. apply MemoryStoreFacts.extends_refl.
Qed.

(** The query [buildQuery] answers, field by field. *)
Lemma buildQuery_success dso q dso' :
  returned (buildQuery jm ju dso) = Some (Success q, dso') ->
  qLimit q = Some (int32 (limit dso))
  /\ qOrder q = (if negb (String.eqb (Text (searchPayload dso)) EmptyString)
                 then ["dist ASC"%string] else [])
  /\ qModel q = Some DocumentSearchResultModel
  /\ topLevelAnd (qWhere q)
  /\ distColumn q
     = (if negb (String.eqb (Text (searchPayload dso)) EmptyString)
        then option_map (fun v => EOneMinus (EOp OpCosineDistance v))
                        (queryVector dso')
        else None).
Proof.
  unfold buildQuery, getDocQueryVector, returned.
  destruct (Text (searchPayload dso) =? EmptyString)%string eqn:Etext;
    cbn [negb]; cycle 1.
  - destruct (GetMessageEmbeddingModel (appState dso) "document")
      as [model|]; cbn; [|discriminate].
    destruct (EmbedTexts (appState dso) model "document"
                         [Text (searchPayload dso)]) as [[|e0 e]|];
      cbn; try discriminate.
    match goal with
    | |- context [if ?c then applyDocsMetadataFilter _ _ ?a ?b else _] =>
        destruct (if c then applyDocsMetadataFilter jm ju a b else Success a)
          as [q1|] eqn:E
    end; cbn; [|discriminate].
    try rewrite Etext; cbn.
    intros H; injection H as <- <-.
    apply metadataFilter_step in E as (items & Hitems & ->).
    cbn. repeat split; try reflexivity. exact Hitems.
  - cbn.
    match goal with
    | |- context [if ?c then applyDocsMetadataFilter _ _ ?a ?b else _] =>
        destruct (if c then applyDocsMetadataFilter jm ju a b else Success a)
          as [q1|] eqn:E
    end; cbn; [|discriminate].
    try rewrite Etext; cbn.
    intros H; injection H as <- <-.
    apply metadataFilter_step in E as (items & Hitems & ->).
    cbn. repeat split; try reflexivity. exact Hitems.
Qed.

(** The LIMIT of the built query is the operation's limit as bun keeps it,
    with or without MMR. *)
Lemma buildQuery_limit dso q dso' :
  returned (buildQuery jm ju dso) = Some (Success q, dso') ->
  qLimit q = Some (int32 (limit dso)).
Proof. intros H. now apply buildQuery_success in H. Qed.
End Decoder.

#[local] Open Scope R_scope.

Lemma evalExpr_negInnerProduct emb v :
  evalExpr emb (EOp OpNegInnerProduct v) = - innerProduct emb v.
Proof. reflexivity. Qed.

(** [1 - (embedding <=> v)] is the cosine similarity. *)
Lemma evalExpr_oneMinusCosineDistance emb v :
  evalExpr emb (EOneMinus (EOp OpCosineDistance v)) = cosineSimilarity emb v.
Proof. cbn. unfold cosineDistance. lra. Qed.

Lemma cosineSimilarity_unit :
  cosineSimilarity Examples.unitVector Examples.unitVector = 1.
Proof.
  unfold cosineSimilarity, norm, Examples.unitVector. cbn.
  replace (1 * 1 + 0) with 1 by lra. rewrite sqrt_1. lra.
Qed.

(** C1, at the failing input: a document search built with limit 5 and MMR
    issues one scan, and that scan asks for 5 rows, not for 10. *)
Theorem mmr_fetch_asks_for_limit_rows :
  withMMR Examples.mmrSearch = true
  /\ limit Examples.mmrSearch = 5%Z
  /\ map (fun e => match e with
                   | ScanAndCountCall q => qLimit q
                   | _ => None
                   end)
         (issued (execQuery Examples.jsonMarshal Examples.jsonUnmarshal
                            Examples.mmrSearch []))
     = [None; Some 5%Z].
Proof. repeat split. Qed.

(** C2, at the failing input: the message search selects
    [embedding <#> ?], the negative inner product, as [dist]; the document
    search selects [1 - (embedding <=> ?)], which is the cosine similarity:
    for a stored vector equal to the query vector it is 1, where the cosine
    distance is 0. *)
Theorem document_dist_is_cosine_similarity :
  (exists q,
      returned (MemoryStore.buildMessagesSelectQuery
                  Examples.appState Examples.textQuery) = Some (Some q)
      /\ distColumn q = Some (EOp OpNegInnerProduct Examples.unitVector))
  /\ (forall emb v, evalExpr emb (EOp OpNegInnerProduct v) = - innerProduct emb v)
  /\ (exists q dso',
         returned (buildQuery Examples.jsonMarshal Examples.jsonUnmarshal
                              Examples.plainSearch) = Some (Success q, dso')
         /\ distColumn q
            = Some (EOneMinus (EOp OpCosineDistance Examples.unitVector)))
  /\ (forall emb v,
         evalExpr emb (EOneMinus (EOp OpCosineDistance v))
         = cosineSimilarity emb v)
  /\ evalExpr Examples.unitVector
              (EOneMinus (EOp OpCosineDistance Examples.unitVector)) = 1
  /\ cosineDistance Examples.unitVector Examples.unitVector = 0.
Proof.
  split; [eexists; split; reflexivity|].
  split; [exact evalExpr_negInnerProduct|].
  split; [eexists _, _; split; reflexivity|].
  split; [exact evalExpr_oneMinusCosineDistance|].
  split.
  - rewrite evalExpr_oneMinusCosineDistance. apply cosineSimilarity_unit.
  - unfold cosineDistance. rewrite cosineSimilarity_unit. lra.
Qed.

End DocumentSearchFacts.

(* ------------------------------------------------------------------ *)
(** ** Both searches: ordering, soft delete, default limits *)
(* ------------------------------------------------------------------ *)

Module SearchClaims.
Import Json Errors Pgvector Bun Effects BunFacts.
Import MemoryStoreFacts DocumentSearchFacts.

Lemma issuedQuery_where sid query limit q1 :
  qWhere (MemoryStore.issuedQuery sid query limit q1)
  = qWhere q1 ++ [WCond SepAnd (SessionIDEq sid); WCond SepAnd DeletedAtIsNull].
Proof.
  unfold MemoryStore.issuedQuery, MemoryStore.addMessagesSortQuery.
  destruct (negb _); cbn; now rewrite <- app_assoc.
Qed.

Lemma issuedQuery_model sid query limit q1 :
  qModel (MemoryStore.issuedQuery sid query limit q1) = qModel q1.
Proof.
  unfold MemoryStore.issuedQuery, MemoryStore.addMessagesSortQuery.
  destruct (negb _); reflexivity.
Qed.



Lemma issuedQuery_limit sid query limit q1 :
  qLimit (MemoryStore.issuedQuery sid query limit q1)
  = Some (int32 (if limit =? 0 then MemoryStore.defaultSearchLimit else limit)).
Proof. reflexivity. Qed.

(** The query is built without a limit. *)
Lemma buildMessagesSelectQuery_limit a query q0 :
  returned (MemoryStore.buildMessagesSelectQuery a query) = Some (Some q0) ->
  qLimit q0 = None.
Proof.
  unfold MemoryStore.buildMessagesSelectQuery, MemoryStore.addMessagesVectorColumn.
  destruct (negb _); [|intros H; injection H as <-; reflexivity].
  destruct (MemoryStore.GetMessageEmbeddingModel a) as [model|]; cbn;
    [|discriminate].
  destruct (MemoryStore.EmbedTexts a model _) as [[|e0 e]|]; cbn;
    try discriminate.
  intros H; injection H as <-. reflexivity.
Qed.



Section Decoder.
Variable jm : value -> result string.
Variable ju : string -> result MemoryStore.JSONQuery.





Lemma StronglySorted_impl {A : Type} (R S : A -> A -> Prop) l :
  (forall x y, R x y -> S x y) -> StronglySorted R l -> StronglySorted S l.
Proof.
  intros HRS. induction 1 as [|x l Hl IH Hx]; constructor; [exact IH|].
  eapply Forall_impl; [|exact Hx]. intros y. apply HRS.
Qed.

(** What the document search with text does: its rows come by [dist]
    ascending, and [dist] being [1 - (embedding <=> v)], the row at the
    greatest cosine distance from the query vector comes first. *)
Lemma document_rows_come_in_descending_distance dso q dso' v rows :
  DocumentSearch.Text (DocumentSearch.searchPayload dso) <> EmptyString ->
  returned (DocumentSearch.buildQuery jm ju dso) = Some (Success q, dso') ->
  DocumentSearch.queryVector dso' = Some v ->
  Postgres.delivered q rows ->
  StronglySorted
    (fun x y => (cosineDistance (Postgres.embedding y) v
                 <= cosineDistance (Postgres.embedding x) v)%R) rows.
Proof.
  intros Ht H Hv Hrows.
  apply buildQuery_success in H as (_ & Ho & _ & _ & Hd).
  apply String.eqb_neq in Ht. rewrite Ht in Ho, Hd. cbn [negb] in Ho, Hd.
  rewrite Hv in Hd. cbn [option_map] in Hd.
  unfold Postgres.delivered in Hrows. rewrite Ho in Hrows.
  unfold Postgres.orderedBy in Hrows.
  cbn [String.eqb Ascii.eqb Bool.eqb] in Hrows. rewrite Hd in Hrows.
  eapply StronglySorted_impl; [|exact Hrows].
  intros x y. cbn [evalExpr applyOperator]. lra.
Qed.


(** C10.  A message search that gets to its scan hands bun's [Limit] the
    number 10 when it was called with limit 0 and the limit it was called
    with otherwise, negative ones included; bun keeps that number as an
    [int32], so the scan asks for 10 rows, or for the limit given when it
    fits 32 bits.  A document search operation made with a limit of 0 or
    less has limit 20, and otherwise the limit it was given. *)
Theorem default_search_limits :
  (forall a db sessionID query limit,
      (MemoryStore.Text query <> EmptyString
       \/ len (MemoryStore.Metadata query) <> 0) ->
      (MemoryStore.Text query <> EmptyString ->
       exists e0, MemoryStore.embedsTo a (MemoryStore.Text query) e0) ->
      MemoryStore.decodes jm ju (MemoryStore.Metadata query) ->
      exists dbq,
        In (MemoryStore.ScanCall dbq)
           (issued (MemoryStore.searchMessages
                      jm ju (Some a) db sessionID (Some query) limit))
        /\ (forall dbq',
               In (MemoryStore.ScanCall dbq')
                  (issued (MemoryStore.searchMessages
                             jm ju (Some a) db sessionID (Some query) limit)) ->
               dbq' = dbq)
        /\ (exists q', qLimit q' = None
                       /\ dbq = Limit (if limit =? 0 then 10 else limit) q')
        /\ (limit = 0 -> qLimit dbq = Some 10)
        /\ (limit <> 0 -> qLimit dbq = Some (int32 limit))
        /\ (limit <> 0 -> - 2 ^ 31 <= limit < 2 ^ 31 -> qLimit dbq = Some limit))
  /\ (forall appState db payload collection limit withMMR,
         (limit <= 0 ->
          DocumentSearch.limit
            (DocumentSearch.newDocumentSearchOperation
               appState db payload collection limit withMMR) = 20)
         /\ (0 < limit ->
             DocumentSearch.limit
               (DocumentSearch.newDocumentSearchOperation
                  appState db payload collection limit withMMR) = limit)).
Proof.
  split.
  - intros a db sid query limit Hne He Hd.
    assert (Hscan : exists t0 q1,
      MemoryStore.noScan t0 /\ qLimit q1 = None
      /\ issued (MemoryStore.searchMessages jm ju (Some a) db sid (Some query) limit)
         = t0 ++ [MemoryStore.ScanCall (MemoryStore.issuedQuery sid query limit q1)]).
    { destruct (String.eqb_spec (MemoryStore.Text query) EmptyString) as [Ht|Ht].
      - destruct Hne as [Hne|Hlen]; [contradiction|].
        destruct (buildMessagesSelectQuery_without_text a query Ht)
          as (q0 & Hb & _ & _).
        pose proof (buildMessagesSelectQuery_limit a query q0) as Hl0.
        rewrite Hb in Hl0. specialize (Hl0 eq_refl).
        destruct (searchMessages_scans jm ju a db sid query limit q0 _ Hb)
          as (q1 & Hext & Hiss & _); [|exact Hd|].
        { apply Z.eqb_neq in Hlen. rewrite Hlen. apply andb_false_r. }
        exists [], q1. split; [intros q []|]. split; [|exact Hiss].
        destruct Hext as (items & _ & ->). exact Hl0.
      - destruct (He Ht) as (e0 & He0).
        destruct (buildMessagesSelectQuery_with_text a query e0 Ht He0)
          as (model & q0 & Hb & _ & _).
        pose proof (buildMessagesSelectQuery_limit a query q0) as Hl0.
        rewrite Hb in Hl0. specialize (Hl0 eq_refl).
        destruct (searchMessages_scans jm ju a db sid query limit q0 _ Hb)
          as (q1 & Hext & Hiss & _); [|exact Hd|].
        { apply String.eqb_neq in Ht. now rewrite Ht. }
        eexists _, q1. split; [|split; [|exact Hiss]].
        + intros q [H|[]]. discriminate.
        + destruct Hext as (items & _ & ->). exact Hl0. }
    destruct Hscan as (t0 & q1 & Hno & Hl1 & ->).
    exists (MemoryStore.issuedQuery sid query limit q1).
    split; [apply in_or_app; right; left; reflexivity|]. split.
    { intros dbq' H. apply in_app_or in H as [H|[H|[]]];
        [now apply Hno in H|now injection H]. }
    assert (E : qLimit (MemoryStore.issuedQuery sid query limit q1)
                = Some (int32 (if limit =? 0 then 10 else limit))).
    { apply issuedQuery_limit. }
    split; [|rewrite E; split; [|split]].
    + eexists. split; [|reflexivity].
      unfold MemoryStore.addMessagesSortQuery. destruct (negb _); exact Hl1.
    + intros ->. reflexivity.
    + intros Hl. apply Z.eqb_neq in Hl. now rewrite Hl.
    + intros Hl Hfit. apply Z.eqb_neq in Hl. rewrite Hl.
      now rewrite int32_fits.
  - intros appState db payload collection limit withMMR. cbn. split; intros Hl.
    + apply Z.leb_le in Hl. now rewrite Hl.
    + apply Z.leb_gt in Hl. now rewrite Hl.
Qed.

Section Store.
Variable jsonb_path_exists : value -> string -> bool.
Variable timestampGe timestampLe : Z -> value -> bool.

(** C9.  Whatever the store makes of paths and dates, a row that the
    query of a message search or of a document search selects has no
    delete marker. *)
Theorem soft_deleted_rows_not_selected :
  (forall a db sessionID query limit dbq row,
      In (MemoryStore.ScanCall dbq)
         (issued (MemoryStore.searchMessages
                    jm ju (Some a) db sessionID (Some query) limit)) ->
      Postgres.selects jsonb_path_exists timestampGe timestampLe dbq row
      = true ->
      Postgres.deleted_at row = None)
  /\ (forall dso q dso' row,
         returned (DocumentSearch.buildQuery jm ju dso)
         = Some (Success q, dso') ->
         Postgres.selects jsonb_path_exists timestampGe timestampLe q row
         = true ->
         Postgres.deleted_at row = None).
Proof.
  assert (Hdel : forall row, negb (Postgres.deleted row) = true ->
                             Postgres.deleted_at row = None).
  { intros row. unfold Postgres.deleted.
    destruct (Postgres.deleted_at row); [discriminate|reflexivity]. }
  split.
  - intros a db sid query limit dbq row H Hsel.
    apply (searchMessages_spec jm ju) in H
      as (q1 & (Hw & _ & _) & _ & _ & ->).
    unfold Postgres.selects in Hsel.
    rewrite selects_topLevelAnd in Hsel.
    + rewrite issuedQuery_where, forallb_app in Hsel.
      apply andb_true_iff in Hsel as [Hsel _].
      apply andb_true_iff in Hsel as [_ Hsel]. cbn in Hsel.
      apply andb_true_iff in Hsel as [_ Hsel].
      apply andb_true_iff in Hsel as [Hsel _]. now apply Hdel.
    + rewrite issuedQuery_where. apply Forall_app. split; [exact Hw|].
      repeat constructor.
  - intros dso q dso' row H Hsel.
    apply buildQuery_success in H as (_ & _ & Hm & Hw & _).
    unfold Postgres.selects in Hsel.
    rewrite selects_topLevelAnd in Hsel by assumption.
    apply andb_true_iff in Hsel as [_ Hsel].
    unfold softDeleteChain in Hsel. rewrite Hm in Hsel. cbn in Hsel.
    apply andb_true_iff in Hsel as [Hsel _]. now apply Hdel.
Qed.
End Store.
End Decoder.



(** C9, witness: a live row of session s1 is selected by the message query
    and by the document query of the examples, and has no delete marker. *)
Lemma soft_deleted_rows_not_selected_witness :
  Postgres.selects Examples.pathExists Examples.anyDate Examples.anyDate
    (MemoryStore.issuedQuery "s1" Examples.textQuery 0 Examples.builtTextQuery)
    Examples.rowA = true
  /\ Postgres.selects Examples.pathExists Examples.anyDate Examples.anyDate
       Examples.builtMetadataSearch Examples.rowA = true
  /\ Postgres.deleted_at Examples.rowA = None.
Proof.
  destruct (soft_deleted_rows_not_selected
              Examples.jsonMarshal Examples.jsonUnmarshal
              Examples.pathExists Examples.anyDate Examples.anyDate)
    as [Hmessages Hdocuments].
  split; [reflexivity|]. split; [reflexivity|].
  apply (Hmessages Examples.appState Examples.messageDB "s1"%string
                   Examples.textQuery 0
                   (MemoryStore.issuedQuery "s1" Examples.textQuery 0
                                            Examples.builtTextQuery)).
  - right; left; reflexivity.
  - reflexivity.
Defined.

(** C10, witness: the text search of the examples scans for 10 rows when
    called with limit 0 and for -3 when called with limit -3; document
    search operations made with limits 0 and -1 have limit 20, and one made
    with limit 7 has limit 7. *)
Lemma default_search_limits_witness :
  (exists dbq,
      In (MemoryStore.ScanCall dbq)
         (issued (MemoryStore.searchMessages
                    Examples.jsonMarshal Examples.jsonUnmarshal
                    (Some Examples.appState) Examples.messageDB
                    "s1" (Some Examples.textQuery) 0))
      /\ qLimit dbq = Some 10)
  /\ (exists dbq,
         In (MemoryStore.ScanCall dbq)
            (issued (MemoryStore.searchMessages
                       Examples.jsonMarshal Examples.jsonUnmarshal
                       (Some Examples.appState) Examples.messageDB
                       "s1" (Some Examples.textQuery) (-3)))
         /\ qLimit dbq = Some (-3))
  /\ DocumentSearch.limit
       (DocumentSearch.newDocumentSearchOperation
          Examples.docAppState Examples.docDB Examples.textPayload
          Examples.docs 0 false) = 20
  /\ DocumentSearch.limit
       (DocumentSearch.newDocumentSearchOperation
          Examples.docAppState Examples.docDB Examples.textPayload
          Examples.docs (-1) false) = 20
  /\ DocumentSearch.limit
       (DocumentSearch.newDocumentSearchOperation
          Examples.docAppState Examples.docDB Examples.textPayload
          Examples.docs 7 false) = 7.
Proof.
  destruct (default_search_limits Examples.jsonMarshal Examples.jsonUnmarshal)
    as [Hmessages Hdocuments].
  assert (Hembeds : MemoryStore.Text Examples.textQuery <> EmptyString ->
                    exists e0, MemoryStore.embedsTo
                                 Examples.appState
                                 (MemoryStore.Text Examples.textQuery) e0).
  { intros _. exists Examples.unitVector, "embedder"%string, [].
    split; reflexivity. }
  assert (Hquery : MemoryStore.Text Examples.textQuery <> EmptyString
                   \/ len (MemoryStore.Metadata Examples.textQuery) <> 0).
  { left. discriminate. }
  assert (Hdecodes : MemoryStore.decodes
                       Examples.jsonMarshal Examples.jsonUnmarshal
                       (MemoryStore.Metadata Examples.textQuery)).
  { exact I. }
  split; [|split; [|split; [|split]]].
  - destruct (Hmessages Examples.appState Examples.messageDB "s1"%string
                        Examples.textQuery 0 Hquery Hembeds Hdecodes)
      as (dbq & Hin & _ & _ & Hzero & _).
    exists dbq. split; [exact Hin|]. apply Hzero. reflexivity.
  - destruct (Hmessages Examples.appState Examples.messageDB "s1"%string
                        Examples.textQuery (-3) Hquery Hembeds Hdecodes)
      as (dbq & Hin & _ & _ & _ & _ & Hfits).
    exists dbq. split; [exact Hin|]. apply Hfits; [discriminate|lia].
  - apply Hdocuments. lia.
  - apply Hdocuments. lia.
  - apply Hdocuments. lia.
Defined.

End SearchClaims.

(* ------------------------------------------------------------------ *)
(** ** Metadata merge *)
(* ------------------------------------------------------------------ *)

Module MergeFacts.
Import Json Merge.

Lemma lookup_store_same {A : Type} k (v : A) m : lookup k (store k v m) = Some v.
Proof.
  induction m as [|[k' v'] m IH]; cbn.
  - now rewrite String.eqb_refl.
  - destruct (String.eqb k k') eqn:E; cbn; rewrite ?String.eqb_refl, ?E; auto.
Qed.

Lemma lookup_store_other {A : Type} k k' (v : A) m :
  k <> k' -> lookup k (store k' v m) = lookup k m.
Proof.
  intros Hne. induction m as [|[k2 v2] m IH]; cbn.
  - apply String.eqb_neq in Hne. now rewrite Hne.
  - destruct (String.eqb_spec k' k2) as [->|Hk]; cbn.
    + apply String.eqb_neq in Hne. now rewrite Hne.
    + destruct (String.eqb k k2); auto.
Qed.

(** The nested merge of two objects is the fold of [mergeEntry]. *)
Lemma mergeValue_objects privileged em um :
  mergeValue privileged (VObject em) (VObject um)
  = VObject (deepMerge privileged em um).
Proof.
  unfold deepMerge. cbn. f_equal. revert em.
  induction um as [|[k uv] um IH]; intros em; cbn; [reflexivity|].
  apply IH.
Qed.

Lemma mergeEntry_other privileged acc k k' uv :
  k <> k' -> lookup k (mergeEntry privileged acc (k', uv)) = lookup k acc.
Proof.
  intros Hne. cbn. destruct (lookup k' acc) as [ev|].
  - destruct (_ && _); [reflexivity|]. now apply lookup_store_other.
  - now apply lookup_store_other.
Qed.

(** A key the update does not mention keeps what it had. *)
Lemma deepMerge_absent privileged update : forall existing k,
  lookup k update = None ->
  lookup k (deepMerge privileged existing update) = lookup k existing.
Proof.
  unfold deepMerge.
  induction update as [|[k' uv] update IH]; intros existing k Hk;
    cbn [fold_left]; [reflexivity|].
  cbn in Hk. destruct (String.eqb k k') eqn:Hne; [discriminate|].
  apply String.eqb_neq in Hne.
  rewrite IH by assumption. now apply mergeEntry_other.
Qed.

(** Without privilege, empty update values leave a non-empty value alone. *)
Lemma deepMerge_keeps update : forall existing k ev,
  lookup k existing = Some ev -> isEmpty ev = false ->
  (forall uv, In (k, uv) update -> isEmpty uv = true) ->
  lookup k (deepMerge false existing update) = Some ev.
Proof.
  unfold deepMerge.
  induction update as [|[k' uv] update IH]; intros existing k ev Hk Hev Hup;
    cbn [fold_left]; [assumption|].
  apply IH; try assumption.
  - destruct (String.eqb_spec k k') as [E|Hne].
    + subst k'. unfold mergeEntry.
      rewrite Hk, Hev, (Hup uv) by (left; reflexivity). cbn. assumption.
    + rewrite mergeEntry_other by assumption. assumption.
  - intros uv' Hin. apply Hup. now right.
Qed.

(** C3.  In a merge without privilege, a key the update does not mention
    keeps its value, and a key with a non-empty value keeps it when the
    update gives that key null or a zero value; merging the update
    {a: null, c: 3} into {a: 1, b: 2} gives {a: 1, b: 2, c: 3}. *)
Theorem merge_keeps_existing_values (existing update : object) :
  (forall k, lookup k update = None ->
             lookup k (deepMerge false existing update) = lookup k existing)
  /\ (forall k ev,
         lookup k existing = Some ev -> isEmpty ev = false ->
         (forall uv, In (k, uv) update -> isEmpty uv = true) ->
         lookup k (deepMerge false existing update) = Some ev)
  /\ deepMerge false [("a", VNumber 1); ("b", VNumber 2)]
                     [("a", VNull); ("c", VNumber 3)]
     = [("a", VNumber 1); ("b", VNumber 2); ("c", VNumber 3)].
Proof.
  split; [|split].
  - intros k Hk. now apply deepMerge_absent.
  - intros k ev Hk Hev Hup. now apply deepMerge_keeps.
  - reflexivity.
Qed.

(** C3, witness: in the example merge [b] is absent from the update and
    [a] is given null; both keep their values. *)
Lemma merge_keeps_existing_values_witness :
  lookup "b" (deepMerge false Examples.storedMetadata Examples.updateMetadata)
  = lookup "b" Examples.storedMetadata
  /\ lookup "a" (deepMerge false Examples.storedMetadata Examples.updateMetadata)
     = Some (VNumber 1).
Proof.
  destruct (merge_keeps_existing_values Examples.storedMetadata
                                        Examples.updateMetadata)
    as (Habsent & Hkept & _).
  split.
  - apply Habsent. reflexivity.
  - apply Hkept; [reflexivity | reflexivity |].
    intros uv [H|[H|[]]]; [now injection H as <- | discriminate].
Defined.

End MergeFacts.

(* ------------------------------------------------------------------ *)
(** ** User update: the advisory lock around read, merge and write *)
(* ------------------------------------------------------------------ *)

Module UserStoreFacts.
Import Json Errors Effects UserStore.

Lemma Get_no_lock dao userID e :
  In e (issued (Get dao userID)) -> isLockEvent e = false.
Proof.
  unfold Get. destruct (scanUser dao userID) as [[u|]|]; cbn;
    intros [<-|[]]; reflexivity.
Qed.

Lemma updateUser_no_lock dao user e :
  In e (issued (updateUser dao user)) -> isLockEvent e = false.
Proof.
  unfold updateUser.
  pose proof (Get_no_lock dao (UserID user)) as HG.
  destruct (Get dao (UserID user)) as [[[u|err]|] t];
    (destruct (execUpdate dao _ (UserID user)) as [rows|];
     [destruct (rows =? 0)|]); cbn in *; rewrite ?app_nil_r;
    intros [<-|H]; try reflexivity; try contradiction; now apply HG.
Qed.

(** The locked section: it always reads the current metadata, and issues no
    lock call of its own. *)
Lemma locked_section_events dao user metadata isPrivileged :
  let body :=
    bind (mergeMetadata dao "user_id" (UserID user) "users" metadata isPrivileged)
         (fun r => match r with
                   | Failure err =>
                       ret (Failure (Errorf "failed to merge metadata: %w" err))
                   | Success mergedMetadata =>
                       updateUser dao (setMetadata mergedMetadata user)
                   end) in
  In (SelectMetadataCall "users" "user_id" (UserID user)) (issued body)
  /\ forall e, In e (issued body) -> isLockEvent e = false.
Proof.
  cbv zeta. unfold mergeMetadata.
  destruct (selectMetadata dao "users" "user_id" (UserID user)) as [[m|]|].
  - pose proof (updateUser_no_lock dao
                  (setMetadata (Merge.deepMerge isPrivileged m metadata) user))
      as HU.
    cbv beta iota zeta delta [bind emit ret].
    destruct (updateUser dao _) as [r t]; cbn in *.
    split; [now left|]. intros e [<-|H]; [reflexivity|now apply HU].
  - cbn. split; [now left|]. intros e [<-|[]]; reflexivity.
  - cbn. split; [now left|]. intros e [<-|[]]; reflexivity.
Qed.

(** C4 (as amended).  A call with an empty user id, whatever its document,
    is rejected with "UserID cannot be empty" and issues no call at all.
    When the update document is nil, no lock call is issued and, the user id
    given, the call is the plain write.  When it is not nil, the empty
    document included, and the user id is given, the first call issued takes
    the advisory lock; if that fails nothing else is issued; if it succeeds,
    the read, merge and write follow with no lock call among them and the
    last call issued, whatever the read, the merge or the write answered,
    releases the lock that was taken. *)
Theorem update_lock_discipline
        (dao : UserStoreDAO) (user : UpdateUserRequest) (isPrivileged : bool) :
  (UserID user = EmptyString ->
   Update dao user isPrivileged
   = (Some (Failure (ErrorsNew "UserID cannot be empty")), []))
  /\ (Metadata user = None ->
   (forall e, In e (issued (Update dao user isPrivileged)) ->
              isLockEvent e = false)
   /\ (UserID user <> EmptyString ->
       Update dao user isPrivileged = updateUser dao user))
  /\ (forall metadata,
         Metadata user = Some metadata -> UserID user <> EmptyString ->
         match pgAdvisoryLock dao (UserID user) with
         | Failure _ =>
             issued (Update dao user isPrivileged)
             = [AcquireLockCall (UserID user)]
         | Success lockID =>
             exists section,
               issued (Update dao user isPrivileged)
               = AcquireLockCall (UserID user) :: section
                 ++ [ReleaseLockCall lockID]
               /\ In (SelectMetadataCall "users" "user_id" (UserID user)) section
               /\ forall e, In e section -> isLockEvent e = false
         end).
Proof.
  split; [|split].
  - intros Hid. unfold Update. rewrite Hid. reflexivity.
  - intros Hnil. unfold Update. rewrite Hnil.
    destruct (String.eqb_spec (UserID user) EmptyString) as [E|E].
    + split; [intros e []|contradiction].
    + split; [|reflexivity]. intros e. apply updateUser_no_lock.
  - intros metadata Hmd Hid. unfold Update. rewrite Hmd.
    apply String.eqb_neq in Hid. rewrite Hid.
    pose proof (locked_section_events dao user metadata isPrivileged)
      as [Hread Hnolock].
    cbv zeta in Hread, Hnolock.
    unfold acquireAdvisoryLock, releaseAdvisoryLock, defer.
    set (body := bind (mergeMetadata dao "user_id" (UserID user) "users"
                                     metadata isPrivileged) _) in *.
    destruct body as [r section]. cbn in Hread, Hnolock.
    destruct (pgAdvisoryLock dao (UserID user)) as [lockID|err]; cbn;
      [|reflexivity].
    exists section. rewrite ?app_nil_r. repeat split; assumption.
Qed.

(** C4, witness: the metadata update of the examples without a user id is
    rejected before any call; the nil-metadata update of the examples is
    the plain write; the metadata update against a store whose UPDATE fails
    still ends with the release of lock 42. *)
Lemma update_lock_discipline_witness :
  Update Examples.dao Examples.anonymousUpdate false
  = (Some (Failure (ErrorsNew "UserID cannot be empty")), [])
  /\ Update Examples.dao Examples.nilMetadataUpdate false
     = updateUser Examples.dao Examples.nilMetadataUpdate
  /\ exists section,
       issued (Update Examples.failingDao Examples.metadataUpdate false)
       = AcquireLockCall "u1" :: section ++ [ReleaseLockCall 42]
       /\ In (SelectMetadataCall "users" "user_id" "u1") section
       /\ forall e, In e section -> isLockEvent e = false.
Proof.
  split; [|split].
  - apply (proj1 (update_lock_discipline
                    Examples.dao Examples.anonymousUpdate false)).
    reflexivity.
  - apply (proj1 (proj2 (update_lock_discipline
                           Examples.dao Examples.nilMetadataUpdate false)));
      [reflexivity | discriminate].
  - apply (proj2 (proj2 (update_lock_discipline
                           Examples.failingDao Examples.metadataUpdate false))
                 Examples.updateMetadata); [reflexivity | discriminate].
Defined.

(** C4, counterexample to the claim as stated: an update whose document is
    empty but not nil takes the advisory lock before it writes. *)
Lemma empty_document_update_takes_the_lock :
  Metadata Examples.emptyMetadataUpdate = Some []
  /\ issued (Update Examples.dao Examples.emptyMetadataUpdate false)
     = [AcquireLockCall "u1";
        SelectMetadataCall "users" "user_id" "u1";
        UpdateCall [("first_name", ColumnText "bob");
                    ("metadata", ColumnJSON Examples.storedMetadata)] "u1";
        SelectUserCall "u1";
        ReleaseLockCall 42].
Proof. split; reflexivity. Qed.

End UserStoreFacts.

(* ------------------------------------------------------------------ *)
(** ** The predicate compiler: what it appends and how it is read *)
(* ------------------------------------------------------------------ *)

Module PredicateMore.
Import Json Bun MemoryStore Predicate BunFacts PredicateFacts PredicateShape.

Lemma pathsOf_app a b : pathsOf (a ++ b) = pathsOf a ++ pathsOf b.
Proof. unfold pathsOf. now rewrite map_app, concat_app. Qed.

Lemma pathsOf_wrapGroup g : pathsOf (wrapGroup g) = pathsOf g.
Proof. destruct g; [reflexivity|]. unfold pathsOf. cbn. now rewrite app_nil_r. Qed.

Lemma pathsOf_concat ls :
  pathsOf (List.concat ls) = List.concat (map pathsOf ls).
Proof.
  induction ls as [|l ls IH]; [reflexivity|].
  cbn [List.concat map]. now rewrite pathsOf_app, IH.
Qed.

Lemma pathsOf_leafItems jq isOr :
  pathsOf (leafItems jq isOr)
  = if negb (String.eqb (JSONPath jq) EmptyString)
    then [ReplaceAll (JSONPath jq) quote doubleQuote] else [].
Proof. unfold leafItems. destruct (negb _); reflexivity. Qed.

Lemma pathsOf_itemsOf : forall jq isOr, pathsOf (itemsOf jq isOr) = treePaths jq.
Proof.
  induction jq as [path ands ors Ha Ho] using JSONQuery_nested_ind.
  intros isOr. cbn [itemsOf treePaths And Or].
  rewrite !pathsOf_app, !pathsOf_wrapGroup, !pathsOf_concat, !map_map.
  rewrite pathsOf_leafItems. cbn [JSONPath]. f_equal. f_equal.
  - f_equal. apply map_ext_Forall. eapply Forall_impl; [|exact Ha]. auto.
  - f_equal. apply map_ext_Forall. eapply Forall_impl; [|exact Ho]. auto.
Qed.

Lemma ReplaceAll_no_quote s : hasQuote (ReplaceAll s quote doubleQuote) = false.
Proof.
  induction s as [|c s IH]; [reflexivity|].
  cbn [ReplaceAll hasQuote]. rewrite IH, orb_false_r.
  destruct (Ascii.eqb c quote) eqn:E; [reflexivity | exact E].
Qed.

Lemma ReplaceAll_fixed s : hasQuote s = false -> ReplaceAll s quote doubleQuote = s.
Proof.
  induction s as [|c s IH]; [reflexivity|].
  cbn [ReplaceAll hasQuote].
  destruct (Ascii.eqb c quote); cbn [orb]; [discriminate|].
  intros H. now rewrite IH.
Qed.

Lemma treePaths_no_quote : forall jq p, In p (treePaths jq) -> hasQuote p = false.
Proof.
  induction jq as [path ands ors Ha Ho] using JSONQuery_nested_ind.
  intros p. cbn [treePaths JSONPath And Or]. rewrite !in_app_iff.
  intros [H|[H|H]].
  - destruct (negb _); [|contradiction]. destruct H as [<-|[]].
    apply ReplaceAll_no_quote.
  - apply in_concat in H as (l & Hl & Hp). apply in_map_iff in Hl as (c & <- & Hc).
    rewrite Forall_forall in Ha. eapply Ha; eassumption.
  - apply in_concat in H as (l & Hl & Hp). apply in_map_iff in Hl as (c & <- & Hc).
    rewrite Forall_forall in Ho. eapply Ho; eassumption.
Qed.

(** X1.  [parseJSONQuery] changes nothing of the builder but its WHERE
    list, and what the list held stays at its front, in order. *)
Theorem parseJSONQuery_only_appends (qb : SelectQuery) (jq : JSONQuery) (isOr : bool) :
  qTable (parseJSONQuery qb jq isOr) = qTable qb
  /\ qModel (parseJSONQuery qb jq isOr) = qModel qb
  /\ qJoins (parseJSONQuery qb jq isOr) = qJoins qb
  /\ qColumns (parseJSONQuery qb jq isOr) = qColumns qb
  /\ qOrder (parseJSONQuery qb jq isOr) = qOrder qb
  /\ qLimit (parseJSONQuery qb jq isOr) = qLimit qb
  /\ exists items, qWhere (parseJSONQuery qb jq isOr) = qWhere qb ++ items.
Proof.
  rewrite parse_items. cbn. repeat split.
  now exists (itemsOf jq isOr).
Qed.

(** X2.  The paths the compiled conditions hand to [jsonb_path_exists] are
    the non-empty leaf paths of the tree, each once per occurrence and in
    the order node, And children, Or children, with every single quote
    replaced by a double quote; no path is dropped and none is added. *)
Theorem compiled_paths_are_the_tree_leaves (qb : SelectQuery) (jq : JSONQuery) (isOr : bool) :
  pathsOf (qWhere (parseJSONQuery qb jq isOr)) = pathsOf (qWhere qb) ++ treePaths jq.
Proof.
  rewrite parse_items, qWhere_setWhere, pathsOf_app, pathsOf_itemsOf.
  reflexivity.
Qed.

(** X3.  No path in a compiled predicate has a single quote in it, and a
    non-empty leaf path that has none to begin with is handed on as it is. *)
Theorem compiled_paths_have_no_single_quote (jq : JSONQuery) (isOr : bool) :
  (forall p, In p (pathsOf (compile jq isOr)) -> hasQuote p = false)
  /\ (hasQuote (JSONPath jq) = false -> JSONPath jq <> EmptyString ->
      In (JSONPath jq) (pathsOf (compile jq isOr))).
Proof.
  rewrite compile_items, pathsOf_itemsOf. split.
  - intros p. apply treePaths_no_quote.
  - intros Hq Hne. destruct jq as [path ands ors]. cbn in *.
    apply String.eqb_neq in Hne. rewrite Hne. cbn. left. now apply ReplaceAll_fixed.
Qed.

(** X3, witness: the quoted leaf of the scenarios compiles to a path
    without single quotes, and the plain leaf [$.a] to the path [$.a]. *)
Lemma compiled_paths_have_no_single_quote_witness :
  hasQuote (JSONPath Scenarios.quotedLeaf) = true
  /\ hasQuote (ReplaceAll (JSONPath Scenarios.quotedLeaf) quote doubleQuote)
     = false
  /\ In "$.a"%string (pathsOf (compile (Examples.leaf "$.a") false)).
Proof.
  split; [reflexivity|]. split.
  - apply (proj1 (compiled_paths_have_no_single_quote
                    Scenarios.quotedLeaf false)).
    left. reflexivity.
  - apply (proj2 (compiled_paths_have_no_single_quote
                    (Examples.leaf "$.a") false));
      [reflexivity|discriminate].
Defined.

Section Sem.
Variable Row : Type.
Variable holds : cond -> Row -> bool.
Notation matches := (Predicate.matches Row holds).
Notation evalWhere := (Bun.evalWhere Row holds).
Notation chainOf := (Bun.chainOf Row holds).

(** X4.  At the root the [isOr] flag changes nothing: the predicate
    compiled with it selects the rows the predicate compiled without it
    selects. *)
Theorem top_level_isOr_does_not_matter (r : Row) (jq : JSONQuery) :
  evalWhere r (compile jq true) = evalWhere r (compile jq false).
Proof.
  unfold Bun.evalWhere. rewrite !compile_items.
  rewrite !evalSeq_all_and by apply itemsOf_tail_and.
  apply forallb_chain_any_sep.
Qed.

Lemma itemsOf_leafless c b : JSONPath c = EmptyString -> itemsOf c b = itemsOf c false.
Proof.
  intros H. rewrite !itemsOf_split. unfold leafItems. rewrite H. reflexivity.
Qed.

(** X5.  When no Or child has a leaf path of its own, the Or list is read
    as a conjunction: the node matches a row exactly when its own leaf
    holds and every And child and every Or child matches. *)
Theorem leafless_or_children_are_conjoined (r : Row) (jq : JSONQuery) :
  Forall (fun c => JSONPath c = EmptyString) (Or jq) ->
  matches r jq
  = leafHolds Row holds r jq && forallb (matches r) (And jq)
    && forallb (matches r) (Or jq).
Proof.
  intros H. rewrite matches_node, and_group_forallb. f_equal.
  rewrite <- and_group_forallb. rewrite !groupOf_items. f_equal. f_equal.
  apply map_ext_Forall. eapply Forall_impl; [|exact H].
  intros c Hc. now apply itemsOf_leafless.
Qed.

Lemma matches_leafOf r p : p <> EmptyString ->
  matches r (leafOf p) = pathHolds holds r p.
Proof.
  intros Hp. rewrite matches_node. cbn.
  unfold Predicate.leafHolds. cbn. apply String.eqb_neq in Hp. rewrite Hp.
  unfold pathHolds. now rewrite !andb_true_r.
Qed.

Lemma existsb_map_leafOf r clause :
  Forall (fun p => p <> EmptyString) clause ->
  existsb (matches r) (map leafOf clause) = existsb (pathHolds holds r) clause.
Proof.
  induction 1 as [|p ps Hp Hps IH]; [reflexivity|].
  cbn [map existsb]. now rewrite IH, matches_leafOf.
Qed.

Lemma matches_clauseTree r clause :
  clause <> [] -> Forall (fun p => p <> EmptyString) clause ->
  matches r (clauseTree clause) = existsb (pathHolds holds r) clause.
Proof.
  intros Hne Hp. rewrite matches_node. cbn [clauseTree And Or JSONPath].
  rewrite or_group_existsb.
  - rewrite existsb_map_leafOf by assumption. reflexivity.
  - destruct clause; [congruence|discriminate].
  - apply Forall_map. eapply Forall_impl; [|exact Hp]. intros p H. exact H.
Qed.

(** X6.  A conjunction of disjunctions written as And children that each
    hold non-empty leaf paths as Or children is read as written: the tree
    matches a row exactly when every clause has a path that holds. *)
Theorem cnf_tree_is_read_as_cnf (r : Row) (clauses : list (list string)) :
  Forall (fun clause => clause <> [] /\ Forall (fun p => p <> EmptyString) clause)
         clauses ->
  matches r (cnfTree clauses)
  = forallb (fun clause => existsb (pathHolds holds r) clause) clauses.
Proof.
  intros H. rewrite matches_node. cbn [cnfTree And Or JSONPath].
  rewrite and_group_forallb. unfold Predicate.leafHolds. cbn.
  rewrite andb_true_r.
  induction H as [|c cs [Hne Hp] Hcs IH]; [reflexivity|].
  cbn [map forallb]. now rewrite IH, matches_clauseTree.
Qed.
End Sem.

(** X5, witness: the row with key [a] only matches the first Or child of
    the leafless tree of the scenarios and not the second, and the tree
    does not match it. *)
Lemma leafless_or_children_are_conjoined_witness :
  Predicate.matches Postgres.Row Examples.holds Examples.rowA
                    Scenarios.leaflessOrTree
  = leafHolds Postgres.Row Examples.holds Examples.rowA Scenarios.leaflessOrTree
    && forallb (Predicate.matches Postgres.Row Examples.holds Examples.rowA)
               (And Scenarios.leaflessOrTree)
    && forallb (Predicate.matches Postgres.Row Examples.holds Examples.rowA)
               (Or Scenarios.leaflessOrTree)
  /\ map (Predicate.matches Postgres.Row Examples.holds Examples.rowA)
         (Or Scenarios.leaflessOrTree) = [true; false].
Proof.
  split; [|reflexivity].
  apply (leafless_or_children_are_conjoined
           Postgres.Row Examples.holds Examples.rowA Scenarios.leaflessOrTree).
  repeat constructor.
Defined.

(** X6, witness: (a or b) and (a or c) on the row with key [a] only. *)
Lemma cnf_tree_is_read_as_cnf_witness :
  Predicate.matches Postgres.Row Examples.holds Examples.rowA
                    (cnfTree Scenarios.clauses)
  = forallb (fun clause =>
               existsb (pathHolds Examples.holds Examples.rowA) clause)
            Scenarios.clauses
  /\ Predicate.matches Postgres.Row Examples.holds Examples.rowA
                       (cnfTree Scenarios.clauses) = true.
Proof.
  split; [|reflexivity].
  apply (cnf_tree_is_read_as_cnf
           Postgres.Row Examples.holds Examples.rowA Scenarios.clauses).
  repeat (constructor; try discriminate).
Defined.

End PredicateMore.

(* ------------------------------------------------------------------ *)
(** ** Message search: calls, answers and the rows selected *)
(* ------------------------------------------------------------------ *)

Module MessageSearchMore.
Import Json Errors Pgvector Bun Effects BunFacts PredicateFacts.
Import MemoryStore MemoryStoreFacts MessageSearchShape.

Lemma buildMessagesSelectQuery_issued a query :
  issued (buildMessagesSelectQuery a query) = embedCalls a query.
Proof.
  unfold buildMessagesSelectQuery, embedCalls, addMessagesVectorColumn.
  destruct (String.eqb (Text query) EmptyString); cbn [negb]; [reflexivity|].
  destruct (GetMessageEmbeddingModel a) as [model|]; [|reflexivity].
  destruct (EmbedTexts a model [Text query]) as [[|e0 e]|]; reflexivity.
Qed.

Lemma buildMessagesSelectQuery_no_text a query :
  Text query = EmptyString ->
  exists q, buildMessagesSelectQuery a query = (Some (Some q), []).
Proof.
  intros Ht. unfold buildMessagesSelectQuery. rewrite Ht. cbn. now eexists.
Qed.

Lemma addMessageDateFilters_items p m q' :
  returned (@addMessageDateFilters event p m) = Some (Some q') ->
  (forall d, lookup "start_date" m = Some d ->
             In (WCond SepAnd (CreatedAtGe d)) (qWhere q'))
  /\ (forall d, lookup "end_date" m = Some d ->
                In (WCond SepAnd (CreatedAtLe d)) (qWhere q')).
Proof.
  unfold addMessageDateFilters.
  destruct p as [q0|];
    destruct (lookup "start_date" m) as [sd|], (lookup "end_date" m) as [ed|];
    cbn; intros H; try discriminate; injection H as <-;
    split; intros d Hd; try discriminate; injection Hd as <-; cbn;
    rewrite ?in_app_iff; cbn; auto.
Qed.

Section Decoder.
Variable jm : value -> result string.
Variable ju : string -> result JSONQuery.

Lemma applyMessagesMetadataFilter_dates p md q1 :
  returned (applyMessagesMetadataFilter jm ju p md) = Some (Success (Some q1)) ->
  (forall d, lookup "start_date" md = Some d ->
             In (WCond SepAnd (CreatedAtGe d)) (qWhere q1))
  /\ (forall d, lookup "end_date" md = Some d ->
                In (WCond SepAnd (CreatedAtLe d)) (qWhere q1)).
Proof.
  unfold applyMessagesMetadataFilter.
  destruct (lookup "where" md) as [w|].
  - destruct (jm w) as [j|]; [|discriminate].
    destruct (ju j) as [jq|]; [|discriminate].
    destruct (@parseJSONQueryPtr event p jq false) as [[p1|] t1]; [|discriminate].
    cbn [bind].
    pose proof (addMessageDateFilters_items p1 md) as Hd.
    destruct (@addMessageDateFilters event p1 md) as [[p2|] t2]; [|discriminate].
    cbn in *. intros H; injection H as ->. now apply Hd.
  - pose proof (addMessageDateFilters_items p md) as Hd.
    destruct (@addMessageDateFilters event p md) as [[p2|] t2]; [|discriminate].
    cbn in *. intros H; injection H as ->. now apply Hd.
Qed.

(** Every way through [searchMessages] that issues a scan. *)
Lemma searchMessages_scan_inv a db sid query limit dbq :
  In (ScanCall dbq)
     (issued (searchMessages jm ju (Some a) db sid (Some query) limit)) ->
  exists q0 q1,
    returned (buildMessagesSelectQuery a query) = Some (Some q0)
    /\ (if 0 <? len (Metadata query)
        then returned (applyMessagesMetadataFilter jm ju (Some q0) (Metadata query))
             = Some (Success (Some q1))
        else q1 = q0)
    /\ extends q0 q1
    /\ dbq = issuedQuery sid query limit q1
    /\ searchMessages jm ju (Some a) db sid (Some query) limit
       = (Some (scanOutcome db query dbq), embedCalls a query ++ [ScanCall dbq]).
Proof.
  unfold searchMessages.
  destruct (_ && _); [intros []|].
  pose proof (buildMessagesSelectQuery_issued a query) as Hiss.
  destruct (buildMessagesSelectQuery_spec a query) as [Hno _].
  destruct (buildMessagesSelectQuery a query) as [[p0|] t0]; cbn in Hno, Hiss;
    cbn [bind]; [|intros H; now apply Hno in H]. subst t0.
  destruct (0 <? len (Metadata query)) eqn:Elen.
  - destruct (applyMessagesMetadataFilter_spec jm ju p0 (Metadata query)) as [Ht Hr].
    destruct (applyMessagesMetadataFilter jm ju p0 (Metadata query)) as [r t]
      eqn:Ef; cbn in Ht, Hr; subst t.
    destruct r as [[[q1|]|err]|]; cbn; rewrite ?app_nil_r;
      try (intros H; now apply Hno in H).
    specialize (Hr _ eq_refl). destruct p0 as [q0|]; [|contradiction].
    destruct (Scan db _) as [results|err] eqn:Escan; cbn; rewrite ?app_nil_r;
      intros H; (apply in_app_or in H as [H|[H|[]]]; [now apply Hno in H|]);
      injection H as <-; exists q0, q1; unfold scanOutcome, issuedQuery;
      rewrite Escan, Ef; repeat split; try assumption; reflexivity.
  - cbn [bind ret]. destruct p0 as [q0|]; cbn; rewrite ?app_nil_r;
      [|intros H; now apply Hno in H].
    destruct (Scan db _) as [results|err] eqn:Escan; cbn; rewrite ?app_nil_r;
      intros H; (apply in_app_or in H as [H|[H|[]]]; [now apply Hno in H|]);
      injection H as <-; exists q0, q0; unfold scanOutcome, issuedQuery;
      rewrite Escan; repeat split; try apply extends_refl; reflexivity.
Qed.

Lemma searchMessages_issued a db sid query limit :
  exists scans,
    issued (searchMessages jm ju (Some a) db sid (Some query) limit)
    = embedCalls a query ++ scans
    /\ (scans = [] \/ exists dbq, scans = [ScanCall dbq]).
Proof.
  unfold searchMessages.
  destruct (String.eqb (Text query) EmptyString && _) eqn:Eguard.
  { exists []. split; [|now left]. unfold embedCalls.
    apply andb_true_iff in Eguard as [-> _]. reflexivity. }
  pose proof (buildMessagesSelectQuery_issued a query) as Hiss.
  destruct (buildMessagesSelectQuery a query) as [[p0|] t0]; cbn in Hiss;
    cbn [bind]; subst t0;
    [|exists []; split; [now rewrite app_nil_r|now left]].
  assert (Hstep : exists r,
    (if 0 <? len (Metadata query)
     then applyMessagesMetadataFilter jm ju p0 (Metadata query)
     else ret (Success p0)) = (r, [])).
  { destruct (0 <? len (Metadata query)); [|now eexists].
    destruct (applyMessagesMetadataFilter_spec jm ju p0 (Metadata query)) as [Ht _].
    destruct (applyMessagesMetadataFilter jm ju p0 (Metadata query)) as [r t];
      cbn in Ht; subst t. now exists r. }
  destruct Hstep as (r & ->). cbn [bind].
  destruct r as [[[q1|]|err]|]; cbn; rewrite ?app_nil_r;
    try (exists []; split; [now rewrite app_nil_r|now left]).
  destruct (Scan db _); cbn; rewrite ?app_nil_r;
    eexists; (split; [reflexivity|right; now eexists]).
Qed.

(** X7.  A message search issues at most one embedding call, for the query
    text alone and with the model the state names, and none without text;
    after it comes at most one scan, and nothing else. *)
Theorem search_calls_embed_then_scan a db sid query limit :
  exists scans,
    issued (searchMessages jm ju (Some a) db sid (Some query) limit)
    = embedCalls a query ++ scans
    /\ (scans = [] \/ exists dbq, scans = [ScanCall dbq])
    /\ (Text query = EmptyString -> embedCalls a query = [])
    /\ (forall model texts,
           In (EmbedTextsCall model texts) (embedCalls a query) ->
           texts = [Text query] /\ GetMessageEmbeddingModel a = Success model).
Proof.
  destruct (searchMessages_issued a db sid query limit) as (scans & E & Hs).
  exists scans. repeat split; try assumption.
  - intros Ht. unfold embedCalls. now rewrite Ht.
  - unfold embedCalls in H. destruct (String.eqb _ _); [contradiction|].
    destruct (GetMessageEmbeddingModel a); [|contradiction].
    destruct H as [H|[]]. now injection H as _ <-.
  - unfold embedCalls in H. destruct (String.eqb _ _); [contradiction|].
    destruct (GetMessageEmbeddingModel a); [|contradiction].
    destruct H as [H|[]]. now injection H as <- _.
Qed.

(** X8.  Once a search has issued its scan, the answer of the scan decides
    the result: a scan error comes back wrapped as "memory searchMessages
    failed", and scanned rows come back filtered, all of them when the
    query has metadata. *)
Theorem scan_answer_decides_the_result a db sid query limit dbq :
  In (ScanCall dbq)
     (issued (searchMessages jm ju (Some a) db sid (Some query) limit)) ->
  (forall err,
      Scan db dbq = Failure err ->
      returned (searchMessages jm ju (Some a) db sid (Some query) limit)
      = Some (Failure (StorageError "memory searchMessages failed" (Some err))))
  /\ (forall results,
         Scan db dbq = Success results ->
         returned (searchMessages jm ju (Some a) db sid (Some query) limit)
         = Some (Success (filterValidMessageSearchResults
                            results (Metadata query)))
         /\ (0 < len (Metadata query) ->
             filterValidMessageSearchResults results (Metadata query) = results)).
Proof.
  intros H. apply searchMessages_scan_inv in H as (q0 & q1 & _ & _ & _ & _ & E).
  rewrite E. unfold returned, scanOutcome. cbn [fst]. split.
  - intros err ->. reflexivity.
  - intros results ->. split; [reflexivity|].
    intros Hlen. apply Z.ltb_lt in Hlen.
    unfold filterValidMessageSearchResults. rewrite Hlen.
    induction results as [|x xs IH]; [reflexivity|].
    cbn [filter]. rewrite orb_true_r. now rewrite IH.
Qed.

(** X9.  The query that is scanned is ordered by [dist] exactly when it
    selects a [dist] column: with query text the column is the negative
    inner product with the embedded text and the order is [dist ASC];
    without text there is no such column and the order is by creation
    time. *)
Theorem dist_is_ordered_iff_selected a db sid query limit dbq :
  In (ScanCall dbq)
     (issued (searchMessages jm ju (Some a) db sid (Some query) limit)) ->
  (Text query <> EmptyString ->
   qOrder dbq = ["dist ASC"%string]
   /\ exists v, distColumn dbq = Some (EOp OpNegInnerProduct v))
  /\ (Text query = EmptyString ->
      qOrder dbq = ["m.created_at DESC"%string] /\ distColumn dbq = None).
Proof.
  intros H. apply (searchMessages_spec jm ju) in H
    as (q1 & (_ & _ & Ho) & Hd0 & Hd1 & ->).
  assert (Hcol : distColumn (issuedQuery sid query limit q1) = distColumn q1).
  { unfold issuedQuery, addMessagesSortQuery. destruct (negb _); reflexivity. }
  rewrite Hcol. unfold issuedQuery, addMessagesSortQuery.
  split; intros Ht.
  - apply String.eqb_neq in Ht. rewrite Ht. cbn. rewrite Ho. split; [reflexivity|].
    apply Hd1. now apply String.eqb_neq.
  - rewrite Ht. cbn. rewrite Ho. split; [reflexivity|]. now apply Hd0.
Qed.

(** X10.  A [where] value that does not pass through the JSON codec is
    rejected: no scan is issued and the only result the search can return
    is the codec error wrapped as "error applying metadata filter"; without
    query text that is the result and no call is issued at all. *)
Theorem undecodable_where_is_rejected a db sid query limit w cause :
  lookup "where" (Metadata query) = Some w ->
  whereError jm ju w = Some cause ->
  noScan (issued (searchMessages jm ju (Some a) db sid (Some query) limit))
  /\ (forall r,
         returned (searchMessages jm ju (Some a) db sid (Some query) limit)
         = Some r ->
         r = Failure (StorageError "error applying metadata filter" (Some cause)))
  /\ (Text query = EmptyString ->
      searchMessages jm ju (Some a) db sid (Some query) limit
      = (Some (Failure (StorageError "error applying metadata filter"
                                     (Some cause))), [])).
Proof.
  intros Hw Hc.
  assert (Hlen : (0 <? len (Metadata query)) = true).
  { destruct (Metadata query); [discriminate|reflexivity]. }
  assert (Hlen0 : (len (Metadata query) =? 0) = false).
  { destruct (Metadata query); [discriminate|reflexivity]. }
  assert (Hf : forall p, applyMessagesMetadataFilter jm ju p (Metadata query)
                         = (Some (Failure cause), [])).
  { intros p. unfold applyMessagesMetadataFilter. rewrite Hw.
    unfold whereError in Hc. destruct (jm w) as [j|e].
    - destruct (ju j) as [jq|e]; [discriminate|]. now injection Hc as <-.
    - now injection Hc as <-. }
  unfold searchMessages. rewrite Hlen0, andb_false_r, Hlen.
  destruct (buildMessagesSelectQuery_spec a query) as [Hno _].
  pose proof (buildMessagesSelectQuery_no_text a query) as Hnt.
  destruct (buildMessagesSelectQuery a query) as [[p0|] t0]; cbn in Hno;
    cbn [bind].
  - rewrite Hf. cbn. rewrite app_nil_r. repeat split.
    + exact Hno.
    + intros r H. now injection H as <-.
    + intros Ht. destruct (Hnt Ht) as (q & E). now injection E as _ ->.
  - repeat split; [exact Hno|discriminate|].
    intros Ht. destruct (Hnt Ht) as (q & E). discriminate.
Qed.

(** X11.  When the query has text and the embedding step fails, the
    failure is not reported: [buildMessagesSelectQuery] drops the error and
    keeps the nil builder, so no scan is issued, a result that is returned
    can only be a metadata filter error, and without metadata the search
    does not return at all (nil dereference). *)
Theorem failed_embedding_is_not_reported a db sid query limit :
  Text query <> EmptyString -> embeddingFails a (Text query) ->
  noScan (issued (searchMessages jm ju (Some a) db sid (Some query) limit))
  /\ (forall r,
         returned (searchMessages jm ju (Some a) db sid (Some query) limit)
         = Some r ->
         exists cause,
           r = Failure (StorageError "error applying metadata filter"
                                     (Some cause)))
  /\ (len (Metadata query) = 0 ->
      returned (searchMessages jm ju (Some a) db sid (Some query) limit) = None).
Proof.
  intros Ht Hfail.
  assert (Hb : exists t0, buildMessagesSelectQuery a query = (Some None, t0)).
  { unfold buildMessagesSelectQuery, addMessagesVectorColumn.
    unfold embeddingFails in Hfail.
    apply String.eqb_neq in Ht. rewrite Ht. cbn [negb].
    destruct (GetMessageEmbeddingModel a) as [model|]; [|now eexists].
    destruct (EmbedTexts a model [Text query]); [contradiction|now eexists]. }
  destruct Hb as (t0 & Hb).
  destruct (buildMessagesSelectQuery_spec a query) as [Hno _].
  unfold searchMessages.
  apply String.eqb_neq in Ht. rewrite Ht. cbn [andb].
  rewrite Hb in *. cbn in Hno. cbn [bind].
  destruct (0 <? len (Metadata query)) eqn:Elen.
  - destruct (applyMessagesMetadataFilter_spec jm ju None (Metadata query))
      as [Hiss Hr].
    destruct (applyMessagesMetadataFilter jm ju None (Metadata query)) as [r t];
      cbn in Hiss, Hr; subst t.
    destruct r as [[[q1|]|err]|]; cbn; rewrite ?app_nil_r.
    + now specialize (Hr _ eq_refl).
    + split; [exact Hno|split; [discriminate|reflexivity]].
    + split; [exact Hno|split].
      * intros r H. injection H as <-. now exists err.
      * intros H. rewrite H in Elen. discriminate.
    + split; [exact Hno|split; [discriminate|reflexivity]].
  - cbn. rewrite app_nil_r. split; [exact Hno|split; [discriminate|reflexivity]].
Qed.

Section Store.
Variable jsonb_path_exists : value -> string -> bool.
Variable timestampGe timestampLe : Z -> value -> bool.

Lemma selected_row_satisfies q row c :
  topLevelAnd (qWhere q) ->
  Postgres.selects jsonb_path_exists timestampGe timestampLe q row = true ->
  In (WCond SepAnd c) (qWhere q) ->
  Postgres.holds jsonb_path_exists timestampGe timestampLe c row = true.
Proof.
  intros Hand Hsel Hin. unfold Postgres.selects in Hsel.
  rewrite selects_topLevelAnd in Hsel by assumption.
  apply andb_true_iff in Hsel as [Hsel _].
  rewrite forallb_forall in Hsel. exact (Hsel _ Hin).
Qed.

Lemma issuedQuery_topLevelAnd sid query limit q1 :
  topLevelAnd (qWhere q1) ->
  topLevelAnd (qWhere (issuedQuery sid query limit q1)).
Proof.
  intros H. rewrite SearchClaims.issuedQuery_where.
  apply Forall_app. split; [exact H|repeat constructor].
Qed.

(** X12.  Every row the scanned query of a message search selects belongs
    to the session searched, whatever the metadata filter added. *)
Theorem selected_rows_are_in_the_session a db sid query limit dbq row :
  In (ScanCall dbq)
     (issued (searchMessages jm ju (Some a) db sid (Some query) limit)) ->
  Postgres.selects jsonb_path_exists timestampGe timestampLe dbq row = true ->
  Postgres.session_id row = sid.
Proof.
  intros H Hsel.
  apply (searchMessages_spec jm ju) in H as (q1 & (Hw & _ & _) & _ & _ & ->).
  apply String.eqb_eq.
  apply (selected_row_satisfies _ _ (SessionIDEq sid)
           (issuedQuery_topLevelAnd sid query limit q1 Hw) Hsel).
  rewrite SearchClaims.issuedQuery_where. apply in_or_app. right. now left.
Qed.

(** X13.  When the metadata names a start date or an end date, every row
    the scanned query selects was created on or after the start and on or
    before the end, as the store compares them. *)
Theorem selected_rows_are_within_the_dates a db sid query limit dbq row :
  In (ScanCall dbq)
     (issued (searchMessages jm ju (Some a) db sid (Some query) limit)) ->
  Postgres.selects jsonb_path_exists timestampGe timestampLe dbq row = true ->
  (forall d, lookup "start_date" (Metadata query) = Some d ->
             timestampGe (Postgres.created_at row) d = true)
  /\ (forall d, lookup "end_date" (Metadata query) = Some d ->
                timestampLe (Postgres.created_at row) d = true).
Proof.
  intros H Hsel.
  apply searchMessages_scan_inv in H as (q0 & q1 & Hb & Hf & Hext & -> & _).
  destruct (buildMessagesSelectQuery_spec a query) as [_ Hshape].
  destruct (Hshape q0 Hb) as (Hq0 & _ & _).
  pose proof (extends_shape _ _ Hext Hq0) as (Hw & _ & _).
  assert (Hdates :
    (forall d, lookup "start_date" (Metadata query) = Some d ->
               In (WCond SepAnd (CreatedAtGe d)) (qWhere q1))
    /\ (forall d, lookup "end_date" (Metadata query) = Some d ->
                  In (WCond SepAnd (CreatedAtLe d)) (qWhere q1))).
  { destruct (0 <? len (Metadata query)) eqn:Elen.
    - now apply applyMessagesMetadataFilter_dates in Hf.
    - destruct (Metadata query); [|discriminate]. split; discriminate. }
  destruct Hdates as [Hs He].
  split; intros d Hd.
  - apply (selected_row_satisfies _ _ (CreatedAtGe d)
             (issuedQuery_topLevelAnd sid query limit q1 Hw) Hsel).
    rewrite SearchClaims.issuedQuery_where. apply in_or_app. left. now apply Hs.
  - apply (selected_row_satisfies _ _ (CreatedAtLe d)
             (issuedQuery_topLevelAnd sid query limit q1 Hw) Hsel).
    rewrite SearchClaims.issuedQuery_where. apply in_or_app. left. now apply He.
Qed.
End Store.
End Decoder.

(** X8, witness: the metadata query of the examples gets both scanned rows
    back, the NaN one included. *)
Lemma scan_answer_decides_the_result_witness :
  returned (searchMessages Examples.jsonMarshal Examples.jsonUnmarshal
                           (Some Examples.appState) Examples.messageDB
                           "s1" (Some Examples.metadataQuery) 0)
  = Some (Success [Examples.nanResult; Examples.halfResult]).
Proof.
  destruct (scan_answer_decides_the_result
              Examples.jsonMarshal Examples.jsonUnmarshal
              Examples.appState Examples.messageDB "s1"%string
              Examples.metadataQuery 0 Scenarios.metadataScan) as [_ H].
  - left. reflexivity.
  - destruct (H [Examples.nanResult; Examples.halfResult] eq_refl) as [E _].
    exact E.
Defined.

(** X9, witness: the text query of the examples is scanned in [dist]
    order over a [dist] column. *)
Lemma dist_is_ordered_iff_selected_witness :
  qOrder Scenarios.textScan = ["dist ASC"%string]
  /\ exists v, distColumn Scenarios.textScan = Some (EOp OpNegInnerProduct v).
Proof.
  apply (proj1 (dist_is_ordered_iff_selected
                  Examples.jsonMarshal Examples.jsonUnmarshal
                  Examples.appState Examples.messageDB "s1"%string
                  Examples.textQuery 0 Scenarios.textScan
                  (or_intror (or_introl eq_refl)))).
  discriminate.
Defined.

(** X10, witness: with a decoder that rejects every document, the metadata
    query of the examples is answered with the wrapped decoder error. *)
Lemma undecodable_where_is_rejected_witness :
  searchMessages Examples.jsonMarshal Scenarios.brokenUnmarshal
                 (Some Examples.appState) Examples.messageDB
                 "s1" (Some Examples.metadataQuery) 0
  = (Some (Failure
             (StorageError "error applying metadata filter"
                (Some (StorageError "error unmarshalling metadata"
                         (Some (ErrorsNew "unexpected end of JSON input")))))),
     []).
Proof.
  apply (undecodable_where_is_rejected
           Examples.jsonMarshal Scenarios.brokenUnmarshal
           Examples.appState Examples.messageDB "s1"%string
           Examples.metadataQuery 0 Examples.whereDocument
           (StorageError "error unmarshalling metadata"
              (Some (ErrorsNew "unexpected end of JSON input")))
           eq_refl eq_refl).
  reflexivity.
Defined.

(** X11, witness: the text query of the examples against a provider that
    cannot be reached does not return. *)
Lemma failed_embedding_is_not_reported_witness :
  returned (searchMessages Examples.jsonMarshal Examples.jsonUnmarshal
                           (Some Scenarios.offlineAppState) Examples.messageDB
                           "s1" (Some Examples.textQuery) 0) = None.
Proof.
  apply (failed_embedding_is_not_reported
           Examples.jsonMarshal Examples.jsonUnmarshal
           Scenarios.offlineAppState Examples.messageDB "s1"%string
           Examples.textQuery 0).
  - discriminate.
  - exact I.
  - reflexivity.
Defined.

(** X12, witness: the live row of session s1 is selected by the scanned
    text query for s1. *)
Lemma selected_rows_are_in_the_session_witness :
  Postgres.selects Examples.pathExists Examples.anyDate Examples.anyDate
                   Scenarios.textScan Examples.rowA = true
  /\ Postgres.session_id Examples.rowA = "s1"%string.
Proof.
  split; [reflexivity|].
  apply (selected_rows_are_in_the_session
           Examples.jsonMarshal Examples.jsonUnmarshal
           Examples.pathExists Examples.anyDate Examples.anyDate
           Examples.appState Examples.messageDB "s1"%string
           Examples.textQuery 0 Scenarios.textScan Examples.rowA).
  - right. left. reflexivity.
  - reflexivity.
Defined.

(** X13, witness: the row created at 100 is selected by the query dated
    50 to 150, and lies within the two dates. *)
Lemma selected_rows_are_within_the_dates_witness :
  Postgres.selects Examples.pathExists Scenarios.notBefore Scenarios.notAfter
                   Scenarios.datedScan Examples.rowA = true
  /\ Scenarios.notBefore (Postgres.created_at Examples.rowA) (VNumber 50) = true
  /\ Scenarios.notAfter (Postgres.created_at Examples.rowA) (VNumber 150) = true.
Proof.
  split; [reflexivity|].
  destruct (selected_rows_are_within_the_dates
              Examples.jsonMarshal Examples.jsonUnmarshal
              Examples.pathExists Scenarios.notBefore Scenarios.notAfter
              Examples.appState Examples.messageDB "s1"%string
              Scenarios.datedQuery 0 Scenarios.datedScan Examples.rowA)
    as [Hstart Hend].
  - right. left. reflexivity.
  - reflexivity.
  - split; [apply Hstart|apply Hend]; reflexivity.
Defined.

End MessageSearchMore.

(* ------------------------------------------------------------------ *)
(** ** Document search: the query vector, the count and the transaction *)
(* ------------------------------------------------------------------ *)

Module DocumentSearchMore.
Import Json Errors Pgvector Bun Effects BunFacts PredicateFacts.
Import DocumentSearch DocumentSearchFacts DocumentExecute.

Section Decoder.
Variable jm : value -> result string.
Variable ju : string -> result MemoryStore.JSONQuery.

(** X14.  When a query is built with text, the text alone was embedded
    once as a document, the first vector that came back is kept in the
    operation and is the one the [dist] column ranks against; without text
    no call is issued, the operation is unchanged and there is no [dist]
    column. *)
Theorem query_vector_is_kept_and_ranked_against dso q dso' :
  returned (buildQuery jm ju dso) = Some (Success q, dso') ->
  (Text (searchPayload dso) <> EmptyString ->
   exists model e0 rest,
     GetMessageEmbeddingModel (appState dso) "document" = Success model
     /\ EmbedTexts (appState dso) model "document" [Text (searchPayload dso)]
        = Success (e0 :: rest)
     /\ issued (buildQuery jm ju dso)
        = [EmbedTextsCall model "document" [Text (searchPayload dso)]]
     /\ queryVector dso' = Some e0
     /\ distColumn q = Some (EOneMinus (EOp OpCosineDistance e0)))
  /\ (Text (searchPayload dso) = EmptyString ->
      issued (buildQuery jm ju dso) = []
      /\ dso' = dso /\ distColumn q = None).
Proof.
  unfold buildQuery, getDocQueryVector, returned.
  destruct (Text (searchPayload dso) =? EmptyString)%string eqn:Etext;
    cbn [negb].
  - cbn.
    match goal with
    | |- context [if ?c then applyDocsMetadataFilter _ _ ?a ?b else _] =>
        destruct (if c then applyDocsMetadataFilter jm ju a b else Success a)
          as [q1|] eqn:E
    end; cbn; [|discriminate].
    intros H; injection H as <- <-.
    apply metadataFilter_step in E as (items & Hitems & ->).
    split; [intros Hne; apply String.eqb_eq in Etext; contradiction|].
    intros _. rewrite ?Etext. repeat split.
  - destruct (GetMessageEmbeddingModel (appState dso) "document")
      as [model|]; cbn; [|discriminate].
    destruct (EmbedTexts (appState dso) model "document"
                         [Text (searchPayload dso)]) as [[|e0 e]|] eqn:Ee;
      cbn; try discriminate.
    match goal with
    | |- context [if ?c then applyDocsMetadataFilter _ _ ?a ?b else _] =>
        destruct (if c then applyDocsMetadataFilter jm ju a b else Success a)
          as [q1|] eqn:E
    end; cbn; [|discriminate].
    intros H; injection H as <- <-.
    apply metadataFilter_step in E as (items & Hitems & ->).
    split; [|intros Ht; rewrite Ht in Etext; discriminate].
    intros _. exists model, e0, e. rewrite Etext. repeat split. exact Ee.
Qed.

Lemma execQuery_scan_inv dso results q :
  In (ScanAndCountCall q) (issued (execQuery jm ju dso results)) ->
  exists dso', returned (buildQuery jm ju dso) = Some (Success q, dso').
Proof.
  unfold execQuery.
  assert (Hb : forall q', ~ In (ScanAndCountCall q') (issued (buildQuery jm ju dso))).
  { intros q'. unfold buildQuery, getDocQueryVector.
    destruct (negb _).
    - destruct (GetMessageEmbeddingModel _ _) as [model|]; cbn; [|tauto].
      destruct (EmbedTexts _ _ _ _) as [[|e0 e]|]; cbn;
        try (intros [H|[]]; discriminate).
      match goal with
      | |- context [if ?c then applyDocsMetadataFilter _ _ ?a ?b else _] =>
          destruct (if c then applyDocsMetadataFilter jm ju a b else Success a)
      end; cbn; intros [H|[]]; discriminate.
    - match goal with
      | |- context [if ?c then applyDocsMetadataFilter _ _ ?a ?b else _] =>
          destruct (if c then applyDocsMetadataFilter jm ju a b else Success a)
      end; cbn; tauto. }
  destruct (buildQuery jm ju dso) as [[[[q1|err] dso1]|] t]; cbn in Hb |- *.
  - destruct (ScanAndCount (db dso1) q1) as [[rows count]|]; cbn;
      [destruct (count =? 0); cbn|]; rewrite ?app_nil_r;
      intros H; (apply in_app_or in H as [H|[H|[]]]; [now apply Hb in H|]);
      injection H as <-; now exists dso1.
  - rewrite app_nil_r. intros H. now apply Hb in H.
  - intros H. now apply Hb in H.
Qed.

(** X15.  A search operation made by [newDocumentSearchOperation] has a
    positive limit, the limit given or 20 when that is not positive, and
    every scan it issues carries that limit as bun keeps it, narrowed to an
    [int32]: the limit itself whenever the limit given is below 2^31. *)
Theorem constructed_search_asks_for_a_positive_limit
        appState db payload collection limit withMMR results q :
  0 < DocumentSearch.limit
        (newDocumentSearchOperation appState db payload collection
                                    limit withMMR)
  /\ (In (ScanAndCountCall q)
         (issued (execQuery jm ju
                    (newDocumentSearchOperation appState db payload collection
                                                limit withMMR) results)) ->
      qLimit q
      = Some (int32 (if limit <=? 0 then DefaultDocumentSearchLimit else limit))
      /\ (limit < 2 ^ 31 ->
          qLimit q
          = Some (if limit <=? 0 then DefaultDocumentSearchLimit else limit))).
Proof.
  split.
  { cbn. destruct (limit <=? 0) eqn:E; [reflexivity|]. now apply Z.leb_gt in E. }
  intros H. apply execQuery_scan_inv in H as (dso' & H).
  apply buildQuery_limit in H. rewrite H. cbn [DocumentSearch.limit newDocumentSearchOperation].
  split; [reflexivity|].
  intros Hfit. rewrite int32_fits; [reflexivity|].
  destruct (limit <=? 0) eqn:E.
  - unfold DefaultDocumentSearchLimit. lia.
  - apply Z.leb_gt in E. lia.
Qed.

Lemma execQuery_count_nonzero dso results n rows dso' :
  returned (execQuery jm ju dso results) = Some (Success n, rows, dso') ->
  n <> 0.
Proof.
  unfold execQuery.
  destruct (buildQuery jm ju dso) as [[[[q1|err] dso1]|] t]; cbn;
    try discriminate.
  destruct (ScanAndCount (db dso1) q1) as [[rows' count]|]; cbn;
    [|discriminate].
  destruct (count =? 0) eqn:Ec; cbn; [discriminate|].
  intros H; injection H as <- _ _. now apply Z.eqb_neq.
Qed.

(** X16.  [execQuery] answers a count only when the query was built and
    scanned and the scan counted at least one row; the count and the rows
    are the ones of that scan. *)
Theorem successful_execQuery_counted_rows dso results n rows dso' :
  returned (execQuery jm ju dso results) = Some (Success n, rows, dso') ->
  n <> 0
  /\ exists q,
       returned (buildQuery jm ju dso) = Some (Success q, dso')
       /\ ScanAndCount (db dso') q = Success (rows, n)
       /\ In (ScanAndCountCall q) (issued (execQuery jm ju dso results)).
Proof.
  unfold execQuery.
  destruct (buildQuery jm ju dso) as [[[[q1|err] dso1]|] t]; cbn;
    try discriminate.
  destruct (ScanAndCount (db dso1) q1) as [[rows' count]|] eqn:Es; cbn;
    [|discriminate].
  destruct (count =? 0) eqn:Ec; cbn; [discriminate|].
  intros H; injection H as <- <- <-. split; [now apply Z.eqb_neq|].
  exists q1. repeat split; [exact Es|].
  rewrite ?app_nil_r. apply in_or_app. right. now left.
Qed.

Lemma execQuery_no_exec dso results sql n :
  ~ In (ExecCall sql n) (issued (execQuery jm ju dso results)).
Proof.
  unfold execQuery, buildQuery, getDocQueryVector.
  destruct (negb _).
  - destruct (GetMessageEmbeddingModel _ _) as [model|]; cbn; [|tauto].
    destruct (EmbedTexts _ _ _ _) as [[|e0 e]|]; cbn;
      try (intros [H|[]]; discriminate).
    match goal with
    | |- context [if ?c then applyDocsMetadataFilter _ _ ?a ?b else _] =>
        destruct (if c then applyDocsMetadataFilter jm ju a b else Success a)
    end; cbn; [|intros [H|[]]; discriminate].
    destruct (ScanAndCount _ _) as [[rows count]|]; cbn;
      [destruct (count =? 0); cbn|]; intros [H|[H|[]]]; discriminate.
  - match goal with
    | |- context [if ?c then applyDocsMetadataFilter _ _ ?a ?b else _] =>
        destruct (if c then applyDocsMetadataFilter jm ju a b else Success a)
    end; cbn; [|tauto].
    destruct (ScanAndCount _ _) as [[rows count]|]; cbn;
      [destruct (count =? 0); cbn|]; intros [H|[]]; discriminate.
Qed.

(** X17.  In [Execute] a scan on an indexed collection comes after the
    transaction has begun and the probes statement has succeeded, both
    issued first and in that order; on a collection that is not indexed no
    transaction is begun and no statement is executed. *)
Theorem probes_are_set_before_the_scan tx dso q :
  In (StoreCall (ScanAndCountCall q)) (issued (Execute jm ju tx dso)) ->
  (IsIndexed (collection dso) = true ->
   BeginTx tx = Success tt
   /\ Exec (db dso) setProbes (ProbeCount (collection dso)) = Success tt
   /\ exists rest,
        issued (Execute jm ju tx dso)
        = BeginTxCall
            :: StoreCall (ExecCall setProbes (ProbeCount (collection dso)))
            :: rest)
  /\ (IsIndexed (collection dso) = false ->
      ~ In BeginTxCall (issued (Execute jm ju tx dso))
      /\ forall sql n, ~ In (StoreCall (ExecCall sql n))
                            (issued (Execute jm ju tx dso))).
Proof.
  unfold Execute, RunInTx, inTx.
  destruct (IsIndexed (collection dso)).
  - intros H. split; [intros _|discriminate].
    destruct (BeginTx tx) as [[]|err]; cbn in H |- *.
    + destruct (Exec (db dso) setProbes (ProbeCount (collection dso)))
        as [[]|err]; cbn in H |- *.
      * split; [reflexivity|]. split; [reflexivity|].
        destruct (execQuery jm ju dso []) as [[[[[n|err] rows] dso1]|] t];
          cbn; eexists; reflexivity.
      * destruct H as [H|[H|[H|[]]]]; discriminate.
    + destruct H as [H|[]]; discriminate.
  - intros H. split; [discriminate|intros _].
    pose proof (execQuery_no_exec dso []) as Hne.
    destruct (execQuery jm ju dso []) as [[[[[n|err] rows] dso1]|] t];
      cbn in Hne |- *; rewrite ?app_nil_r; split;
      try (intros Hin; apply in_map_iff in Hin as (e & He & _); discriminate);
      intros sql k Hin; apply in_map_iff in Hin as (e & He & Hin);
      injection He as ->; now apply Hne in Hin.
Qed.

(** X18.  On an indexed collection [Execute] never reports an error: what
    [RunInTx] answers is assigned and not read again.  A transaction that
    does not begin, or a probes statement that fails, gives the empty page
    with a nil error. *)
Theorem indexed_execute_reports_no_error tx dso :
  IsIndexed (collection dso) = true ->
  (forall page err,
      returned (Execute jm ju tx dso) = Some (page, err) -> err = None)
  /\ (forall e, BeginTx tx = Failure e ->
                Execute jm ju tx dso
                = (Some (mkDocumentSearchResultPage [] 0, None), [BeginTxCall]))
  /\ (forall e, BeginTx tx = Success tt ->
                Exec (db dso) setProbes (ProbeCount (collection dso)) = Failure e ->
                Execute jm ju tx dso
                = (Some (mkDocumentSearchResultPage [] 0, None),
                   [BeginTxCall;
                    StoreCall (ExecCall setProbes (ProbeCount (collection dso)));
                    RollbackCall])).
Proof.
  intros Hidx. unfold Execute, RunInTx, inTx. rewrite Hidx.
  split; [|split].
  - intros page err.
    destruct (BeginTx tx) as [[]|e]; cbn.
    + destruct (Exec (db dso) setProbes (ProbeCount (collection dso)))
        as [[]|e]; cbn.
      * destruct (execQuery jm ju dso []) as [[[[[n|e] rows] dso1]|] t]; cbn;
          try discriminate; intros H; now injection H as _ <-.
      * intros H; now injection H as _ <-.
    + intros H; now injection H as _ <-.
  - intros e ->. reflexivity.
  - intros e -> ->. reflexivity.
Qed.

(** X19.  On a collection that is not indexed [Execute] reports exactly
    the failures of [execQuery], wrapped by the format
    "error executing query: %w" and with the empty page; a page that comes with a nil error holds the rows
    and the non-zero count [execQuery] answered. *)
Theorem plain_execute_reports_the_query_error tx dso :
  IsIndexed (collection dso) = false ->
  (forall page e,
      returned (Execute jm ju tx dso) = Some (page, Some e) ->
      page = mkDocumentSearchResultPage [] 0
      /\ exists cause rows dso',
           e = Errorf "error executing query: %w" cause
           /\ returned (execQuery jm ju dso []) = Some (Failure cause, rows, dso'))
  /\ (forall page,
         returned (Execute jm ju tx dso) = Some (page, None) ->
         ResultCount page <> 0
         /\ exists dso',
              returned (execQuery jm ju dso [])
              = Some (Success (ResultCount page), Results page, dso')).
Proof.
  intros Hidx. unfold Execute, inTx. rewrite Hidx.
  pose proof (execQuery_count_nonzero dso []) as Hok.
  destruct (execQuery jm ju dso []) as [[[[[n|err] rows] dso1]|] t]; cbn in *;
    (split; [intros page e H|intros page H]); try discriminate.
  - injection H as <-. cbn. split; [|now exists dso1].
    exact (Hok n rows dso1 eq_refl).
  - injection H as <- <-. split; [reflexivity|]. now exists err, rows, dso1.
Qed.
End Decoder.

(** X14, witness: the text search of the examples embeds its text once,
    keeps the unit vector and ranks against it. *)
Lemma query_vector_is_kept_and_ranked_against_witness :
  exists model e0 rest,
    GetMessageEmbeddingModel Examples.docAppState "document" = Success model
    /\ EmbedTexts Examples.docAppState model "document" ["hello"%string]
       = Success (e0 :: rest)
    /\ issued (buildQuery Examples.jsonMarshal Examples.jsonUnmarshal
                          Examples.plainSearch)
       = [EmbedTextsCall model "document" ["hello"%string]]
    /\ queryVector Scenarios.plainSearchDone = Some e0
    /\ distColumn Scenarios.builtTextSearch
       = Some (EOneMinus (EOp OpCosineDistance e0)).
Proof.
  apply (proj1 (query_vector_is_kept_and_ranked_against
                  Examples.jsonMarshal Examples.jsonUnmarshal
                  Examples.plainSearch Scenarios.builtTextSearch
                  Scenarios.plainSearchDone eq_refl)).
  discriminate.
Defined.

(** X15, witness: the search of the examples made with limit 5 scans for
    5 rows. *)
Lemma constructed_search_asks_for_a_positive_limit_witness :
  qLimit Scenarios.builtTextSearch = Some 5.
Proof.
  apply (proj2 (constructed_search_asks_for_a_positive_limit
                  Examples.jsonMarshal Examples.jsonUnmarshal
                  Examples.docAppState Examples.docDB Examples.textPayload
                  Examples.docs 5 false [] Scenarios.builtTextSearch)).
  - right. left. reflexivity.
  - lia.
Defined.

(** X16, witness: the text search of the examples counts the one row its
    scan answered. *)
Lemma successful_execQuery_counted_rows_witness :
  1 <> 0
  /\ exists q,
       returned (buildQuery Examples.jsonMarshal Examples.jsonUnmarshal
                            Examples.plainSearch)
       = Some (Success q, Scenarios.plainSearchDone)
       /\ ScanAndCount (db Scenarios.plainSearchDone) q
          = Success ([mkDocumentSearchResult "doc" 0.5%float], 1)
       /\ In (ScanAndCountCall q)
             (issued (execQuery Examples.jsonMarshal Examples.jsonUnmarshal
                                Examples.plainSearch [])).
Proof.
  apply (successful_execQuery_counted_rows
           Examples.jsonMarshal Examples.jsonUnmarshal
           Examples.plainSearch [] 1
           [mkDocumentSearchResult "doc" 0.5%float]
           Scenarios.plainSearchDone).
  reflexivity.
Defined.

(** X17, witness: on the indexed collection of the scenarios the scan
    comes after BEGIN and the probes statement. *)
Lemma probes_are_set_before_the_scan_witness :
  BeginTx Scenarios.tx = Success tt
  /\ Exec (db Scenarios.indexedSearch) setProbes 10 = Success tt
  /\ exists rest,
       issued (Execute Examples.jsonMarshal Examples.jsonUnmarshal
                       Scenarios.tx Scenarios.indexedSearch)
       = BeginTxCall :: StoreCall (ExecCall setProbes 10) :: rest.
Proof.
  apply (proj1 (probes_are_set_before_the_scan
                  Examples.jsonMarshal Examples.jsonUnmarshal
                  Scenarios.tx Scenarios.indexedSearch
                  Scenarios.builtTextSearch
                  (or_intror (or_intror (or_intror (or_introl eq_refl)))))).
  reflexivity.
Defined.

(** X18, witness: when the probes statement is refused, the caller gets
    the empty page and a nil error, after a rollback. *)
Lemma indexed_execute_reports_no_error_witness :
  Execute Examples.jsonMarshal Examples.jsonUnmarshal
          Scenarios.tx Scenarios.refusedSearch
  = (Some (mkDocumentSearchResultPage [] 0, None),
     [BeginTxCall; StoreCall (ExecCall setProbes 10); RollbackCall]).
Proof.
  apply (proj2 (proj2 (indexed_execute_reports_no_error
                         Examples.jsonMarshal Examples.jsonUnmarshal
                         Scenarios.tx Scenarios.refusedSearch eq_refl))
           (ErrorsNew "permission denied")); reflexivity.
Defined.

(** X19, witness: on a collection without rows the plain search reports
    the wrapped not-found error with the empty page. *)
Lemma plain_execute_reports_the_query_error_witness :
  returned (Execute Examples.jsonMarshal Examples.jsonUnmarshal
                    Scenarios.tx Scenarios.emptySearch)
  = Some (mkDocumentSearchResultPage [] 0,
          Some (Errorf "error executing query: %w"
                       (NotFoundError "no results found")))
  /\ exists cause rows dso',
       Errorf "error executing query: %w" (NotFoundError "no results found")
       = Errorf "error executing query: %w" cause
       /\ returned (execQuery Examples.jsonMarshal Examples.jsonUnmarshal
                              Scenarios.emptySearch [])
          = Some (Failure cause, rows, dso').
Proof.
  split; [reflexivity|].
  apply (proj1 (plain_execute_reports_the_query_error
                  Examples.jsonMarshal Examples.jsonUnmarshal
                  Scenarios.tx Scenarios.emptySearch eq_refl)
           (mkDocumentSearchResultPage [] 0)
           (Errorf "error executing query: %w" (NotFoundError "no results found"))
           eq_refl).
Defined.

End DocumentSearchMore.

(* ------------------------------------------------------------------ *)
(** ** User update: what is written, read back and reported *)
(* ------------------------------------------------------------------ *)

Module UserStoreMore.
Import Json Errors Effects UserStore UserStoreFacts UserStoreShape.

(** X20.  [updateUser] reads the user back only after an UPDATE that
    changed a row, and for the user id of the request; the user it returns
    is the row the store then holds, not the fields of the request; an
    UPDATE that changed no row is answered with NotFound and no read. *)
Theorem update_reads_back_what_the_store_holds dao user :
  (forall id,
      In (SelectUserCall id) (issued (updateUser dao user)) ->
      id = UserID user
      /\ exists n, execUpdate dao (updateColumns user) (UserID user) = Success n
                   /\ n <> 0)
  /\ (forall u,
         returned (updateUser dao user) = Some (Success u) ->
         exists row, scanUser dao (UserID user) = Success (Some row)
                     /\ u = userSchemaToUser row)
  /\ (execUpdate dao (updateColumns user) (UserID user) = Success 0 ->
      updateUser dao user
      = (Some (Failure (NotFoundError (String.append "user " (UserID user)))),
         [UpdateCall (updateColumns user) (UserID user)])).
Proof.
  unfold updateUser, Get. fold (updateColumns user).
  destruct (execUpdate dao (updateColumns user) (UserID user)) as [n|err]; cbn.
  - destruct (n =? 0) eqn:En; cbn.
    + split; [|split].
      * intros id [H|[]]; discriminate.
      * discriminate.
      * intros H; injection H as ->. reflexivity.
    + apply Z.eqb_neq in En.
      destruct (scanUser dao (UserID user)) as [[row|]|err]; cbn;
        (split; [|split]);
        try (intros id [H|[H|[]]]; try discriminate; injection H as <-;
             split; [reflexivity|now exists n]);
        try discriminate;
        try (intros H; injection H as ->; contradiction).
      intros u H; injection H as <-. exists row. split; [reflexivity|].
      now destruct row.
  - split; [|split]; try discriminate. intros id [H|[]]; discriminate.
Qed.


Lemma updateUser_writes dao u row id :
  In (UpdateCall row id) (issued (updateUser dao u)) ->
  id = UserID u /\ row = updateColumns u.
Proof.
  unfold updateUser, Get. fold (updateColumns u).
  destruct (execUpdate dao (updateColumns u) (UserID u)) as [n|err]; cbn.
  - destruct (n =? 0); cbn.
    + intros [H|[]]. now injection H as <- <-.
    + destruct (scanUser dao (UserID u)) as [[r|]|err]; cbn;
        intros [H|[H|[]]]; try discriminate; now injection H as <- <-.
  - intros [H|[]]. now injection H as <- <-.
Qed.

(** What [OmitZero] leaves of the four columns named: no other column, no
    empty string, each text column exactly when its field is not empty, and
    the metadata column exactly when the map is not nil. *)
Lemma updateColumns_omits_zero u :
  (forall column value,
      In (column, value) (updateColumns u) ->
      In column ["email"; "first_name"; "last_name"; "metadata"]%string
      /\ value <> ColumnText EmptyString)
  /\ lookup "email" (updateColumns u)
     = (if String.eqb (Email u) EmptyString then None
        else Some (ColumnText (Email u)))
  /\ lookup "first_name" (updateColumns u)
     = (if String.eqb (FirstName u) EmptyString then None
        else Some (ColumnText (FirstName u)))
  /\ lookup "last_name" (updateColumns u)
     = (if String.eqb (LastName u) EmptyString then None
        else Some (ColumnText (LastName u)))
  /\ lookup "metadata" (updateColumns u) = option_map ColumnJSON (Metadata u).
Proof.
  unfold updateColumns, setClause. cbn [sEmail sFirstName sLastName sMetadata].
  destruct (String.eqb (Email u) EmptyString) eqn:Ee,
           (String.eqb (FirstName u) EmptyString) eqn:Ef,
           (String.eqb (LastName u) EmptyString) eqn:El,
           (Metadata u) as [m|];
    (split; [|cbn; repeat split; reflexivity]);
    intros column value H; cbn in H;
    repeat (destruct H as [H|H];
            [injection H as <- <-;
             (split; [cbn; tauto|]);
             intros Hz; try discriminate; injection Hz as Hz;
             rewrite Hz in *; discriminate|]);
    contradiction.
Qed.

(** X21.  Every UPDATE that [Update] issues is for a non-empty user id, the
    one of the request, and its SET clause has, of email, first name and
    last name, exactly the fields of the request that are not empty (a
    zero value is omitted, not written) and no other column but metadata;
    metadata is not set for a request with a nil document, and for a
    request with a document the lock was acquired and the merge succeeded
    before, and the metadata set is the merged one. *)
Theorem a_write_follows_every_check dao user isPrivileged row id :
  In (UpdateCall row id) (issued (Update dao user isPrivileged)) ->
  UserID user <> EmptyString /\ id = UserID user
  /\ (forall column value,
         In (column, value) row ->
         In column ["email"; "first_name"; "last_name"; "metadata"]%string
         /\ value <> ColumnText EmptyString)
  /\ lookup "email" row
     = (if String.eqb (Email user) EmptyString then None
        else Some (ColumnText (Email user)))
  /\ lookup "first_name" row
     = (if String.eqb (FirstName user) EmptyString then None
        else Some (ColumnText (FirstName user)))
  /\ lookup "last_name" row
     = (if String.eqb (LastName user) EmptyString then None
        else Some (ColumnText (LastName user)))
  /\ match Metadata user with
     | None => row = updateColumns user /\ lookup "metadata" row = None
     | Some metadata =>
         exists lockID merged,
           pgAdvisoryLock dao (UserID user) = Success lockID
           /\ returned (mergeMetadata dao "user_id" (UserID user) "users"
                                      metadata isPrivileged)
              = Some (Success merged)
           /\ row = updateColumns (setMetadata merged user)
           /\ lookup "metadata" row = Some (ColumnJSON merged)
     end.
Proof.
  unfold Update.
  destruct (String.eqb_spec (UserID user) EmptyString) as [E|E]; [intros []|].
  destruct (Metadata user) as [metadata|] eqn:Emd.
  - unfold acquireAdvisoryLock, releaseAdvisoryLock, defer, mergeMetadata.
    destruct (pgAdvisoryLock dao (UserID user)) as [lockID|err];
      [|cbn; intros [H|[]]; discriminate].
    destruct (selectMetadata dao "users" "user_id" (UserID user))
      as [[m|]|err];
      [|cbn; intros [H|[H|[H|[]]]]; discriminate
       |cbn; intros [H|[H|[H|[]]]]; discriminate].
    pose proof (updateUser_writes dao
                  (setMetadata (Merge.deepMerge isPrivileged m metadata) user))
      as Hu'.
    cbv beta iota zeta delta [bind emit ret issued snd].
    destruct (updateUser dao _) as [r t]; cbn in *.
    rewrite ?app_nil_r.
    intros [H|[H|H]]; try discriminate.
    apply in_app_or in H as [H|[H|[]]]; [|discriminate].
    apply Hu' in H as [-> ->].
    destruct (updateColumns_omits_zero
                (setMetadata (Merge.deepMerge isPrivileged m metadata) user))
      as (Hin & He & Hf & Hl & Hm).
    split; [exact E|]. split; [reflexivity|]. split; [exact Hin|].
    split; [exact He|]. split; [exact Hf|]. split; [exact Hl|].
    exists lockID, (Merge.deepMerge isPrivileged m metadata).
    split; [reflexivity|]. split; [reflexivity|]. split; [reflexivity|].
    exact Hm.
  - intros H. apply updateUser_writes in H as [-> ->].
    destruct (updateColumns_omits_zero user) as (Hin & He & Hf & Hl & Hm).
    rewrite Emd in Hm.
    split; [exact E|]. split; [reflexivity|]. split; [exact Hin|].
    split; [exact He|]. split; [exact Hf|]. split; [exact Hl|].
    split; [reflexivity|exact Hm].
Qed.

(** X22.  What the store answers to the release of the lock does not
    change what [Update] returns: a failed release is only logged. *)

Theorem release_answer_does_not_change_the_result dao unlock user isPrivileged :
  returned (Update (withUnlock unlock dao) user isPrivileged)
  = returned (Update dao user isPrivileged).
Proof.
  unfold Update.
  destruct (String.eqb (UserID user) EmptyString); [reflexivity|].
  destruct (Metadata user) as [metadata|]; [|reflexivity].
  unfold acquireAdvisoryLock, releaseAdvisoryLock, defer.
  change (pgAdvisoryLock (withUnlock unlock dao)) with (pgAdvisoryLock dao).
  change (mergeMetadata (withUnlock unlock dao)) with (mergeMetadata dao).
  change (updateUser (withUnlock unlock dao)) with (updateUser dao).
  set (body := bind (mergeMetadata dao "user_id" (UserID user) "users"
                                   metadata isPrivileged) _).
  destruct body as [r t].
  destruct (pgAdvisoryLock dao (UserID user)) as [lockID|err]; reflexivity.
Qed.

(** X23.  On the locked path a refused lock is reported by the format
    "failed to acquire advisory lock: %w" and a failed merge by the format
    "failed to merge metadata: %w", each wrapping its cause; after a failed
    merge nothing is written. *)
Theorem update_failures_carry_their_cause dao user isPrivileged metadata :
  UserID user <> EmptyString -> Metadata user = Some metadata ->
  (forall err,
      pgAdvisoryLock dao (UserID user) = Failure err ->
      returned (Update dao user isPrivileged)
      = Some (Failure (Errorf "failed to acquire advisory lock: %w" err)))
  /\ (forall lockID err,
         pgAdvisoryLock dao (UserID user) = Success lockID ->
         returned (mergeMetadata dao "user_id" (UserID user) "users"
                                 metadata isPrivileged)
         = Some (Failure err) ->
         returned (Update dao user isPrivileged)
         = Some (Failure (Errorf "failed to merge metadata: %w" err))
         /\ forall row id,
              ~ In (UpdateCall row id) (issued (Update dao user isPrivileged))).
Proof.
  intros Hid Hmd. apply String.eqb_neq in Hid. split.
  - intros err Hl. unfold Update.
    rewrite Hid, Hmd. unfold acquireAdvisoryLock. cbn. now rewrite Hl.
  - intros lockID err Hl Hm. split.
    + unfold Update.
      rewrite Hid, Hmd. unfold acquireAdvisoryLock, releaseAdvisoryLock, defer.
      cbv beta iota zeta delta [bind emit ret]. rewrite Hl.
      cbv beta iota zeta delta [bind emit ret].
      destruct (mergeMetadata dao "user_id" (UserID user) "users" metadata
                              isPrivileged) as [[[m|e]|] t]; cbn in Hm;
        try discriminate. injection Hm as ->.
      destruct (pgAdvisoryUnlock dao lockID); reflexivity.
    + intros row id. unfold Update.
      rewrite Hid, Hmd. unfold acquireAdvisoryLock, releaseAdvisoryLock, defer.
      cbv beta iota zeta delta [bind emit ret]. rewrite Hl.
      cbv beta iota zeta delta [bind emit ret].
      unfold mergeMetadata in *.
      destruct (selectMetadata dao "users" "user_id" (UserID user))
        as [[m|]|e]; cbn in *; [discriminate| |];
        intros [H|[H|[H|[]]]]; discriminate.
Qed.

(** X20, witness: the update of the examples returns the stored user, last
    name included, though the request has none. *)
Lemma update_reads_back_what_the_store_holds_witness :
  exists row,
    scanUser Examples.dao "u1" = Success (Some row)
    /\ userSchemaToUser Examples.storedUser = userSchemaToUser row.
Proof.
  apply (proj1 (proj2 (update_reads_back_what_the_store_holds
                         Examples.dao Examples.nilMetadataUpdate))
           (userSchemaToUser Examples.storedUser)).
  reflexivity.
Defined.

(** X21, witness: the update of the examples with a nil document, an
    empty email and first name bob sets the first name and nothing else;
    the metadata update of the examples sets the merged metadata, under
    lock 42. *)
Lemma a_write_follows_every_check_witness :
  ([("first_name", ColumnText "bob")]
   = updateColumns Examples.nilMetadataUpdate
   /\ lookup "metadata" [("first_name", ColumnText "bob")] = None)
  /\ exists lockID merged,
       pgAdvisoryLock Examples.dao "u1" = Success lockID
       /\ returned (mergeMetadata Examples.dao "user_id" "u1" "users"
                                  Examples.updateMetadata false)
          = Some (Success merged)
       /\ Scenarios.mergedRow
          = updateColumns (setMetadata merged Examples.metadataUpdate)
       /\ lookup "metadata" Scenarios.mergedRow = Some (ColumnJSON merged).
Proof.
  split.
  - exact (proj2 (proj2 (proj2 (proj2 (proj2 (proj2
             (a_write_follows_every_check
                Examples.dao Examples.nilMetadataUpdate false
                [("first_name", ColumnText "bob")] "u1"%string
                (or_introl eq_refl)))))))).
  - exact (proj2 (proj2 (proj2 (proj2 (proj2 (proj2
             (a_write_follows_every_check
                Examples.dao Examples.metadataUpdate false
                Scenarios.mergedRow "u1"%string
                (or_intror (or_intror (or_introl eq_refl)))))))))).
Defined.

(** X23, witness: a store that refuses the lock, and a store without the
    user. *)
Lemma update_failures_carry_their_cause_witness :
  returned (Update Scenarios.lockedOutDao Examples.metadataUpdate false)
  = Some (Failure (Errorf "failed to acquire advisory lock: %w"
                          (ErrorsNew "lock timeout")))
  /\ returned (Update Scenarios.noUserDao Examples.metadataUpdate false)
     = Some (Failure (Errorf "failed to merge metadata: %w" (NotFoundError "u1"))).
Proof.
  split.
  - apply (proj1 (update_failures_carry_their_cause
                    Scenarios.lockedOutDao Examples.metadataUpdate false
                    Examples.updateMetadata
                    ltac:(discriminate) eq_refl)).
    reflexivity.
  - apply (proj2 (update_failures_carry_their_cause
                    Scenarios.noUserDao Examples.metadataUpdate false
                    Examples.updateMetadata
                    ltac:(discriminate) eq_refl) 42 (NotFoundError "u1"));
      reflexivity.
Defined.

End UserStoreMore.

(* ------------------------------------------------------------------ *)
(** ** The message list handler: paging *)
(* ------------------------------------------------------------------ *)

Module MessageHandlerFacts.
Import Json Errors Effects MessageHandlers.

Section Handler.
Variable Page : Type.
Variable Atoi : string -> result Z.
Variable EncodeJSON : Page -> option error.

(** X24.  The handler asks the store only with a page number and a page
    size that are the defaults 0 and 10 or what [Atoi] made of the query
    values, and for the session of the route; a page size, and after it a
    page number, that [Atoi] rejects is answered with status 400 and
    nothing else. *)

Theorem paging_is_checked_before_the_store_is_asked
        (appState : AppState Page) (r : Request) :
  (forall sid n m,
      In (GetMessageListCall sid n m)
         (issued (GetMessagesForSessionHandler Page Atoi EncodeJSON appState r)) ->
      sid = URLParam r "sessionId"
      /\ pagingValue Atoi (QueryGet r "pageNumber") 0 = Success n
      /\ pagingValue Atoi (QueryGet r "pageSize") 10 = Success m)
  /\ (forall e,
         pagingValue Atoi (QueryGet r "pageSize") 10 = Failure e ->
         GetMessagesForSessionHandler Page Atoi EncodeJSON appState r
         = (Some tt, [RenderErrorCall (ErrorsNew "invalid page size number") 400]))
  /\ (forall m e,
         pagingValue Atoi (QueryGet r "pageSize") 10 = Success m ->
         pagingValue Atoi (QueryGet r "pageNumber") 0 = Failure e ->
         GetMessagesForSessionHandler Page Atoi EncodeJSON appState r
         = (Some tt, [RenderErrorCall (ErrorsNew "invalid page number") 400])).
Proof.
  unfold GetMessagesForSessionHandler, pagingValue, RenderError.
  destruct (String.eqb (QueryGet r "pageSize") EmptyString); cbn [negb];
    destruct (String.eqb (QueryGet r "pageNumber") EmptyString); cbn [negb].
  all: repeat match goal with
       | |- context [match Atoi ?s with _ => _ end] => destruct (Atoi s) eqn:?
       end.
  all: split; [|split]; try discriminate; try reflexivity.
  all: try (intros sid n m [H|[]]; discriminate).
  all: try (intros ? ? H1 H2; discriminate).
  all: try (intros sid n m H;
            destruct (GetMessageList appState _ _ _) as [page|err]; cbn in H;
            [destruct (EncodeJSON page); cbn in H|];
            repeat (destruct H as [H|H]; try discriminate; try contradiction);
            injection H as <- <- <-; repeat split).
Qed.
End Handler.

(** X24, witness: three requests for session s1, with page size "many",
    with page number "-", and with page size 25 and page number 2. *)
Lemma paging_is_checked_before_the_store_is_asked_witness :
  GetMessagesForSessionHandler (list string) Scenarios.atoi
                               Scenarios.encodeJSON Scenarios.listAppState
                               Scenarios.badSizeRequest
  = (Some tt, [RenderErrorCall (ErrorsNew "invalid page size number") 400])
  /\ GetMessagesForSessionHandler (list string) Scenarios.atoi
                                  Scenarios.encodeJSON Scenarios.listAppState
                                  Scenarios.badNumberRequest
     = (Some tt, [RenderErrorCall (ErrorsNew "invalid page number") 400])
  /\ pagingValue Scenarios.atoi (QueryGet Scenarios.pagedRequest "pageNumber") 0
     = Success 2
  /\ pagingValue Scenarios.atoi (QueryGet Scenarios.pagedRequest "pageSize") 10
     = Success 25.
Proof.
  split; [|split].
  - apply (proj1 (proj2 (paging_is_checked_before_the_store_is_asked
                           (list string) Scenarios.atoi Scenarios.encodeJSON
                           Scenarios.listAppState Scenarios.badSizeRequest))
             (ErrorsNew "invalid syntax")).
    reflexivity.
  - apply (proj2 (proj2 (paging_is_checked_before_the_store_is_asked
                           (list string) Scenarios.atoi Scenarios.encodeJSON
                           Scenarios.listAppState Scenarios.badNumberRequest))
             25 (ErrorsNew "invalid syntax")); reflexivity.
  - apply (proj1 (paging_is_checked_before_the_store_is_asked
                    (list string) Scenarios.atoi Scenarios.encodeJSON
                    Scenarios.listAppState Scenarios.pagedRequest)
             "s1"%string 2 25).
    left. reflexivity.
Defined.

End MessageHandlerFacts.
